(** * PyScaff workflow engine: executors and orchestrator

    A shallow embedding of the execution core of the workflow orchestrator
    ([app/executors/*.py], [app/engine/orchestrator.py], [app/db/models.py])
    together with the properties of its specification.

    Conventions of the embedding.
    - A Python [dict[str, Any]] is a [gmap string json]; Python's [None] is
      [JNull]; JSON numbers are integers (no property below depends on
      floating point).
    - A Python [str] is a [string] whose characters are code points below
      256; [len] is [String.length].
    - A function that may raise returns a [res]: [Ok v] or [Exc e].
    - The collaborators the engine calls but does not define (identifier and
      token generators, the AI provider, the JSON Schema validator, the
      asteval interpreter) are variables of a section; a counter in the
      [world] says how many values of each have been consumed. *)

From Stdlib Require Import ZArith Ascii String List Bool Lia.
From stdpp Require Import base option gmap strings list fin_maps.

Local Set Warnings "-register-all".
Local Open Scope string_scope.

(** ** JSON values and Python results *)

Inductive json :=
  | JNull
  | JBool (b : bool)
  | JNum (z : Z)
  | JStr (s : string)
  | JList (l : list json)
  | JObj (m : gmap string json).

(** Python truthiness ([if x:], [not x]) of a JSON-shaped value. *)
Definition truthy (j : json) : bool :=
  match j with
  | JNull => false
  | JBool b => b
  | JNum z => negb (z =? 0)%Z
  | JStr s => negb (String.eqb s EmptyString)
  | JList l => match l with [] => false | _ => true end
  | JObj m => negb (bool_decide (m = ∅))
  end.

(** [isinstance(v, str)] and [isinstance(v, dict)]. *)
Definition is_str (j : json) : bool :=
  match j with JStr _ => true | _ => false end.

Definition is_dict (j : json) : bool :=
  match j with JObj _ => true | _ => false end.

(** The exceptions the core raises, each carrying [str(e)]. *)
Inductive exn :=
  | ValueError (msg : string)
  | NameError (msg : string)
  | TypeError (msg : string)
  | KeyError (msg : string)
  | NotImplementedError (msg : string)
  | ValidationError (msg : string)
  | IntegrityError (msg : string)
  | SyntaxError (msg : string)
  | NoResultFound (msg : string).

Definition str_exn (e : exn) : string :=
  match e with
  | ValueError m | NameError m | TypeError m | KeyError m
  | NotImplementedError m | ValidationError m | IntegrityError m
  | SyntaxError m | NoResultFound m => m
  end.

Definition is_ValueError (e : exn) : bool :=
  match e with ValueError _ => true | _ => false end.

Inductive res (A : Type) :=
  | Ok (a : A)
  | Exc (e : exn).
Arguments Ok {A} a.
Arguments Exc {A} e.

(** ** Strings *)

(** [hay.startswith(needle)] and [needle in hay] for Python strings. *)
Fixpoint startswith (needle hay : string) : bool :=
  match needle, hay with
  | EmptyString, _ => true
  | String _ _, EmptyString => false
  | String a needle', String b hay' => Ascii.eqb a b && startswith needle' hay'
  end.

Fixpoint contains (needle hay : string) : bool :=
  startswith needle hay ||
  match hay with
  | EmptyString => false
  | String _ rest => contains needle rest
  end.

(** Truthiness of a [str] and of a [str | None]. *)
Definition str_truthy (s : string) : bool :=
  match s with EmptyString => false | String _ _ => true end.

Definition opt_truthy (o : option string) : bool :=
  match o with Some s => str_truthy s | None => false end.

(** ** Step configurations ([app/models/schemas.py]) *)

Record StepConfigField := {
  field_key : string;
  field_type : string;
  field_required : bool;
  field_pattern : option string;
}.

(** ** Run context ([RunContext] in [app/models/schemas.py])

    Three layers, each a dictionary; the engine creates all three
    ([start_run]) and nothing removes one. *)

Record context := {
  static : gmap string json;
  profile : gmap string json;
  runtime : gmap string json;
}.

Definition set_runtime (ctx : context) (r : gmap string json) : context :=
  {| static := static ctx; profile := profile ctx; runtime := r |}.

(** ** Form executor ([app/executors/form.py]) *)

Module FormExecutor.

Definition supported_type (t : string) : bool :=
  String.eqb t "text" || String.eqb t "textarea".

(** The [for field in self.config.fields] loop of [validate_fields], with
    the dictionary [validated] built so far. *)
Fixpoint validate_loop (fields : list StepConfigField)
    (inputs validated : gmap string json) : res (gmap string json) :=
  match fields with
  | [] => Ok validated
  | field :: rest =>
    match inputs !! field_key field with
    | None =>
      if field_required field
      then Exc (ValueError ("Required field '" +:+ field_key field +:+ "' is missing"))
      else validate_loop rest inputs validated
    | Some value =>
      if negb (supported_type (field_type field))
      then Exc (ValueError ("Field type '" +:+ field_type field +:+
                 "' not supported. Only 'text' and 'textarea' are allowed."))
      else if negb (is_str value)
      then Exc (ValueError ("Field '" +:+ field_key field +:+ "' must be a string"))
      else validate_loop rest inputs (<[field_key field := value]> validated)
    end
  end.

Definition validate_fields (fields : list StepConfigField)
    (inputs : gmap string json) : res (gmap string json) :=
  validate_loop fields inputs ∅.


(** [self.config.model_dump()["fields"]] *)
Definition field_json (f : StepConfigField) : json :=
  JObj (<["key" := JStr (field_key f)]>
       (<["type" := JStr (field_type f)]>
       (<["required" := JBool (field_required f)]>
       (<["pattern" := from_option JStr JNull (field_pattern f)]> ∅)))).

Definition fields_json (fields : list StepConfigField) : json :=
  JList (field_json <$> fields).

Definition execute (fields : list StepConfigField) (ctx : context)
    (step_id : string) : context * json :=
  (set_runtime ctx (<[step_id +:+ "_schema" := fields_json fields]> (runtime ctx)),
   JObj (<["pause" := JBool true]>
        (<["waiting_for" := JStr "form"]>
        (<["fields_schema" := fields_json fields]> ∅)))).

End FormExecutor.

(** ** Conditional executor ([app/executors/conditional.py]) *)

Module ConditionalExecutor.

Definition MAX_EXPRESSION_LENGTH : nat := 256.

(** [str.isspace] on a code point below 256. *)
Definition is_space (c : ascii) : bool :=
  let n := nat_of_ascii c in
  (((9 <=? n) && (n <=? 13)) || ((28 <=? n) && (n <=? 32))
   || (n =? 133) || (n =? 160))%nat.

Fixpoint lstrip (s : string) : string :=
  match s with
  | EmptyString => EmptyString
  | String c rest => if is_space c then lstrip rest else s
  end.

Fixpoint rstrip (s : string) : string :=
  match s with
  | EmptyString => EmptyString
  | String c rest =>
    match rstrip rest with
    | EmptyString => if is_space c then EmptyString else String c EmptyString
    | kept => String c kept
    end
  end.

(** [expression.strip()] *)
Definition strip (s : string) : string := rstrip (lstrip s).

(** The character class [[a-zA-Z_]]. *)
Definition is_letter_or_underscore (c : ascii) : bool :=
  let n := nat_of_ascii c in
  (((97 <=? n) && (n <=? 122)) || ((65 <=? n) && (n <=? 90)) || (n =? 95))%nat.

(** [re.search(r"[a-zA-Z_]\.", expression)]: some letter or underscore is
    immediately followed by a dot. *)
Fixpoint attribute_access (s : string) : bool :=
  match s with
  | EmptyString => false
  | String c rest =>
    match rest with
    | String d _ =>
      (is_letter_or_underscore c && Ascii.eqb d "."%char) || attribute_access rest
    | EmptyString => false
    end
  end.

Definition _validate_expression (expression : string) : res unit :=
  if negb (str_truthy expression) || negb (str_truthy (strip expression))
  then Exc (ValueError "Expression cannot be empty")
  else if (MAX_EXPRESSION_LENGTH <? String.length expression)%nat
  then Exc (ValueError "Expression exceeds maximum length of 256 characters")
  else if (contains "__" expression || contains "." expression)
          && attribute_access expression
  then Exc (ValueError "Attribute access not allowed in expressions")
  else Ok tt.

(** Later layers override earlier ones: static, then profile, then
    runtime ([dict.update] in that order). *)
Definition _merge_context_namespaces (ctx : context) : gmap string json :=
  runtime ctx ∪ (profile ctx ∪ static ctx).

(** What a call of the asteval interpreter does: it returns a value with
    no error recorded, returns with [interpreter.error] holding a first
    message, or raises. *)
Inductive interp_reply :=
  | InterpValue (v : json)
  | InterpError (error_msg : string)
  | InterpRaises (e : exn).

Definition lower_ascii (c : ascii) : ascii :=
  let n := nat_of_ascii c in
  if ((65 <=? n) && (n <=? 90))%nat then ascii_of_nat (n + 32) else c.

Fixpoint lower (s : string) : string :=
  match s with
  | EmptyString => EmptyString
  | String c rest => String (lower_ascii c) (lower rest)
  end.

Section Execute.
(** The sandboxed interpreter, loaded with the whitelisted functions and
    the namespace, applied to the expression. *)
Variable asteval : string → gmap string json → interp_reply.

(** The part of [execute] after validation: load the merged namespace,
    call the interpreter and classify what it reports. *)
Definition evaluate (expression : string) (ctx : context)
    : res (context * json) :=
  let namespace := _merge_context_namespaces ctx in
  match asteval expression namespace with
  | InterpValue result =>
    Ok (ctx, JObj (<["result" := JBool (truthy result)]>
                  (<["expression" := JStr expression]> ∅)))
  | InterpError error_msg =>
    if contains "not defined" error_msg then Exc (NameError error_msg)
    else if contains "invalid syntax" error_msg || contains "SyntaxError" error_msg
    then Exc (ValueError "Invalid expression syntax")
    else if contains "import" (lower error_msg)
    then Exc (ValueError "Import not allowed in expressions")
    else Exc (ValueError ("Expression evaluation failed: " +:+ error_msg))
  | InterpRaises e =>
    match e with
    | SyntaxError m | TypeError m =>
      Exc (ValueError ("Invalid expression syntax: " +:+ m))
    | _ => Exc e
    end
  end.

Definition execute (when : string) (ctx : context) (step_id : string)
    : res (context * json) :=
  let expression := when in
  match _validate_expression expression with
  | Exc e => Exc e
  | Ok _ => evaluate expression ctx
  end.
End Execute.

End ConditionalExecutor.

(** ** AI-generate executor ([app/executors/ai_generate.py]) *)

Module AIGenerateExecutor.

Definition MAX_RETRIES : nat := 2.

Record config := {
  template_id : string;
  variables : list string;
  json_schema : json;
}.

(** The inner [for section in ["static", "profile", "runtime"]] search:
    the value at the first layer that has the key, [None] otherwise. *)
Definition find_value (ctx : context) (var_name : string) : json :=
  match static ctx !! var_name with
  | Some v => v
  | None =>
    match profile ctx !! var_name with
    | Some v => v
    | None =>
      match runtime ctx !! var_name with
      | Some v => v
      | None => JNull
      end
    end
  end.

Fixpoint extract_loop (names : list string) (ctx : context)
    (vars : gmap string json) : res (gmap string json) :=
  match names with
  | [] => Ok vars
  | var_name :: rest =>
    match find_value ctx var_name with
    | JNull =>
      Exc (ValueError ("Variable '" +:+ var_name +:+
             "' not found in context. Checked: static, profile, runtime"))
    | value => extract_loop rest ctx (<[var_name := value]> vars)
    end
  end.

Definition _extract_variables (cfg : config) (ctx : context)
    : res (gmap string json) :=
  extract_loop (variables cfg) ctx ∅.

(** A provider call returns a decoded object or raises (timeouts
    included); [jsonschema.validate] accepts, raises its
    [ValidationError] with a message, or raises something else. *)
Inductive provider_reply :=
  | Generated (output : json)
  | ProviderRaises (msg : string).

Inductive validate_reply :=
  | Valid
  | Invalid (message : string)
  | ValidateRaises (msg : string).

Definition pause_result (last_error : string) (retry_count : nat) : json :=
  JObj (<["pause" := JBool true]>
       (<["waiting_for" := JStr "manual_fix"]>
       (<["error" := JStr last_error]>
       (<["retry_count" := JNum (Z.of_nat retry_count)]> ∅)))).

Definition success_result (output : json) (retry_count : nat) : json :=
  JObj (<["pause" := JBool false]>
       (<["output" := output]>
       (<["retry_count" := JNum (Z.of_nat retry_count)]> ∅))).

Section Execute.
(** [provider n] is the provider's reply to the call numbered [n]. *)
Variable provider : nat → string → gmap string json → json → provider_reply.
Variable validate : json → json → validate_reply.

(** One pass through the [try] block: the output, or the new
    [last_error]. *)
Definition attempt (cfg : config) (vars : gmap string json) (call : nat)
    : json + string :=
  match provider call (template_id cfg) vars (json_schema cfg) with
  | Generated output =>
    match validate output (json_schema cfg) with
    | Valid => inl output
    | Invalid message => inr ("Schema validation failed: " +:+ message)
    | ValidateRaises msg => inr msg
    end
  | ProviderRaises msg => inr msg
  end.

(** The [while retry_count <= self.MAX_RETRIES] loop. [calls] counts the
    provider calls made so far; [fuel] bounds the iterations. *)
Fixpoint retry_loop (fuel : nat) (cfg : config) (vars : gmap string json)
    (ctx : context) (step_id : string)
    (retry_count : nat) (last_error : option string) (calls : nat)
    : nat * (context * json) :=
  let fallback :=
    (calls, (ctx, pause_result (default "Unknown error" last_error) retry_count)) in
  match fuel with
  | O => fallback
  | S fuel' =>
    if (retry_count <=? MAX_RETRIES)%nat then
      match attempt cfg vars calls with
      | inl output =>
        (S calls,
         (set_runtime ctx (<[step_id +:+ "_output" := output]> (runtime ctx)),
          success_result output retry_count))
      | inr err =>
        let retry_count := S retry_count in
        if (retry_count <=? MAX_RETRIES)%nat
        then retry_loop fuel' cfg vars ctx step_id retry_count (Some err) (S calls)
        else (S calls, (ctx, pause_result err retry_count))
      end
    else fallback
  end.

(** [execute]; the loop condition fails after at most [MAX_RETRIES + 1]
    iterations, so the fuel given is never used up. *)
Definition execute (cfg : config) (ctx : context) (step_id : string)
    (calls : nat) : nat * res (context * json) :=
  match _extract_variables cfg ctx with
  | Exc e => (calls, Exc e)
  | Ok vars =>
    let '(calls', r) :=
      retry_loop (S (S MAX_RETRIES)) cfg vars ctx step_id 0 None calls in
    (calls', Ok r)
  end.
End Execute.

End AIGenerateExecutor.

(** ** Approval executor ([app/executors/approval.py]) *)

Module ApprovalExecutor.

Definition approvers_json (approvers : list string) : json :=
  JList (JStr <$> approvers).

(** [execute] with the token [secrets.token_urlsafe(32)] returned. The
    mock e-mail is printed only and leaves no state behind. *)
Definition execute (approvers : list string) (approval_token : string)
    (ctx : context) (step_id : string) : context * json :=
  (set_runtime ctx
     (<[step_id +:+ "_approval" :=
          JObj (<["token" := JStr approval_token]>
               (<["approvers" := approvers_json approvers]>
               (<["status" := JStr "pending"]> ∅)))]> (runtime ctx)),
   JObj (<["pause" := JBool true]>
        (<["waiting_for" := JStr "approval"]>
        (<["approval_token" := JStr approval_token]>
        (<["approvers" := approvers_json approvers]> ∅))))).

End ApprovalExecutor.

(** ** Database rows ([app/db/models.py]) *)

(** A step's [config] column, as the typed configuration it validates to;
    [RawConfig] is a payload that none of the four models accepts. *)
Inductive step_config :=
  | FormStepConfig (fields : list StepConfigField)
  | AIGenerateStepConfig (cfg : AIGenerateExecutor.config)
  | ConditionalStepConfig (when : string)
  | ApprovalStepConfig (approvers : list string)
  | RawConfig (payload : json).

Record Step := {
  step_id : string;
  step_type : string;
  step_name : string;
  step_next : option string;
  step_cfg : step_config;
}.

Record Workflow := {
  wf_id : string;
  wf_version : Z;
  wf_name : string;
  wf_start_step : string;
  wf_steps : list Step;
}.

Record Run := {
  run_id : string;
  run_workflow_id : string;
  run_workflow_version : Z;
  run_status : string;
  run_current_step : option string;
  run_context : context;
  run_idempotency_key : option string;
}.

Record RunStep := {
  rs_id : string;
  rs_run_id : string;
  rs_step_id : string;
  rs_type : string;
  rs_status : string;
  rs_output : option json;
  rs_error : option string;
}.

Definition set_status (s : string) (r : Run) : Run :=
  {| run_id := run_id r; run_workflow_id := run_workflow_id r;
     run_workflow_version := run_workflow_version r; run_status := s;
     run_current_step := run_current_step r; run_context := run_context r;
     run_idempotency_key := run_idempotency_key r |}.

Definition set_current_step (c : option string) (r : Run) : Run :=
  {| run_id := run_id r; run_workflow_id := run_workflow_id r;
     run_workflow_version := run_workflow_version r; run_status := run_status r;
     run_current_step := c; run_context := run_context r;
     run_idempotency_key := run_idempotency_key r |}.

Definition set_context (ctx : context) (r : Run) : Run :=
  {| run_id := run_id r; run_workflow_id := run_workflow_id r;
     run_workflow_version := run_workflow_version r; run_status := run_status r;
     run_current_step := run_current_step r; run_context := ctx;
     run_idempotency_key := run_idempotency_key r |}.

(** The committed tables. Rows are kept in insertion order. *)
Record database := {
  workflows : list Workflow;
  runs : list Run;
  run_steps : list RunStep;
}.

(** [select(Workflow).where(Workflow.id == workflow_id)] *)
Definition get_workflow (d : database) (workflow_id : string) : option Workflow :=
  List.find (λ wf, String.eqb (wf_id wf) workflow_id) (workflows d).

(** [select(Run).where(Run.id == run_id)] *)
Definition get_run (d : database) (rid : string) : option Run :=
  List.find (λ r, String.eqb (run_id r) rid) (runs d).

Definition key_is (k : string) (r : Run) : bool :=
  match run_idempotency_key r with
  | Some k' => String.eqb k' k
  | None => false
  end.

(** [select(Run).where(Run.idempotency_key == idempotency_key)]; the unique
    constraint leaves at most one such row. *)
Definition get_run_by_key (d : database) (k : string) : option Run :=
  List.find (key_is k) (runs d).

(** Committing a new run row: the primary key and the
    [uq_runs_idempotency_key] constraint are checked. *)
Definition insert_run (d : database) (r : Run) : res database :=
  if existsb (λ r', String.eqb (run_id r') (run_id r)) (runs d)
  then Exc (IntegrityError "UNIQUE constraint failed: runs.id")
  else if match run_idempotency_key r with
          | Some k => existsb (key_is k) (runs d)
          | None => false
          end
  then Exc (IntegrityError "UNIQUE constraint failed: runs.idempotency_key")
  else Ok {| workflows := workflows d; runs := runs d ++ [r];
             run_steps := run_steps d |}.

(** Committing the session: the run row is written back and the run steps
    added since the last commit are appended. *)
Definition commit (d : database) (r : Run) (added : list RunStep) : database :=
  {| workflows := workflows d;
     runs := (λ r', if String.eqb (run_id r') (run_id r) then r else r') <$> runs d;
     run_steps := run_steps d ++ added |}.

(** The engine's surroundings: the committed tables and how many
    identifiers, approval tokens and provider calls have been drawn. *)
Record world := {
  db : database;
  uuids_drawn : nat;
  tokens_drawn : nat;
  provider_calls : nat;
}.

Definition set_db (d : database) (w : world) : world :=
  {| db := d; uuids_drawn := uuids_drawn w; tokens_drawn := tokens_drawn w;
     provider_calls := provider_calls w |}.

(** What a call of the engine does: it returns, raises, or is still running
    when the fuel of the model is used up (a workflow whose steps form a
    cycle of steps that never pause does not terminate). *)
Inductive outcome (A : Type) :=
  | Returned (a : A)
  | Raised (e : exn)
  | OutOfFuel.
Arguments Returned {A} a.
Arguments Raised {A} e.
Arguments OutOfFuel {A}.

(** ** Orchestrator ([app/engine/orchestrator.py]) *)

Module WorkflowEngine.

(** [{step.step_id: step for step in workflow.steps}]: a later step with
    the same id replaces an earlier one. *)
Definition build_step_map (steps : list Step) : gmap string Step :=
  fold_left (λ m step, <[step_id step := step]> m) steps ∅.

(** [result.get("pause")] as a condition. *)
Definition result_pause (result : json) : bool :=
  match result with
  | JObj m => from_option truthy false (m !! "pause")
  | _ => false
  end.

Definition completed_step (id : string) (run : Run) (step : Step)
    (result : json) : RunStep :=
  {| rs_id := id; rs_run_id := run_id run; rs_step_id := step_id step;
     rs_type := step_type step; rs_status := "completed";
     rs_output := Some result; rs_error := None |}.

Definition failed_step (id rid sid stype error_msg : string) : RunStep :=
  {| rs_id := id; rs_run_id := rid; rs_step_id := sid; rs_type := stype;
     rs_status := "failed"; rs_output := None; rs_error := Some error_msg |}.

Definition config_error (model : string) : exn :=
  ValidationError ("validation error for " +:+ model).

Section Engine.
(** [uuid4 n] and [token_urlsafe n] are the [n]-th identifier and token
    drawn; the other three are the executors' collaborators. *)
Variable uuid4 : nat → string.
Variable token_urlsafe : nat → string.
Variable provider :
  nat → string → gmap string json → json → AIGenerateExecutor.provider_reply.
Variable validate : json → json → AIGenerateExecutor.validate_reply.
Variable asteval : string → gmap string json → ConditionalExecutor.interp_reply.

(** [execute_step]: route by [step.type], build the typed configuration
    from [step.config] and run the executor on the run's context. *)
Definition execute_step (w : world) (run : Run) (step : Step)
    : world * res (context * json) :=
  let ctx := run_context run in
  if String.eqb (step_type step) "form" then
    match step_cfg step with
    | FormStepConfig fields =>
      (w, Ok (FormExecutor.execute fields ctx (step_id step)))
    | _ => (w, Exc (config_error "FormStepConfig"))
    end
  else if String.eqb (step_type step) "ai_generate" then
    match step_cfg step with
    | AIGenerateStepConfig cfg =>
      let '(calls, r) :=
        AIGenerateExecutor.execute provider validate cfg ctx (step_id step)
          (provider_calls w) in
      ({| db := db w; uuids_drawn := uuids_drawn w;
          tokens_drawn := tokens_drawn w; provider_calls := calls |}, r)
    | _ => (w, Exc (config_error "AIGenerateStepConfig"))
    end
  else if String.eqb (step_type step) "conditional" then
    match step_cfg step with
    | ConditionalStepConfig when =>
      (w, ConditionalExecutor.execute asteval when ctx (step_id step))
    | _ => (w, Exc (config_error "ConditionalStepConfig"))
    end
  else if String.eqb (step_type step) "api_call" then
    (w, Exc (NotImplementedError "API call executor not yet implemented (WP-006)"))
  else if String.eqb (step_type step) "approval" then
    match step_cfg step with
    | ApprovalStepConfig approvers =>
      ({| db := db w; uuids_drawn := uuids_drawn w;
          tokens_drawn := S (tokens_drawn w);
          provider_calls := provider_calls w |},
       Ok (ApprovalExecutor.execute approvers (token_urlsafe (tokens_drawn w))
             ctx (step_id step)))
    | _ => (w, Exc (config_error "ApprovalStepConfig"))
    end
  else (w, Exc (ValueError ("Unsupported step type: " +:+ step_type step))).

(** Draw the next identifier. *)
Definition next_uuid (w : world) : string * world :=
  (uuid4 (uuids_drawn w),
   {| db := db w; uuids_drawn := S (uuids_drawn w);
      tokens_drawn := tokens_drawn w; provider_calls := provider_calls w |}).

(** [await self.session.commit()] with the session's run and the run
    steps added since the last commit. *)
Definition do_commit (w : world) (run : Run) (added : list RunStep) : world :=
  set_db (commit (db w) run added) w.

(** The [except Exception as e] handler: roll back (what the session held
    uncommitted is dropped), load the run row again, add the failed run
    step, mark the run failed, commit and re-raise. *)
Definition handle_failure (w : world) (run : Run) (step : Step) (e : exn)
    : world * outcome Run :=
  let rid := run_id run in
  let error_msg := str_exn e in
  match get_run (db w) rid with
  | None => (w, Raised (NoResultFound "No row was found when one was required"))
  | Some run' =>
    let '(id, w) := next_uuid w in
    let run_step := failed_step id rid (step_id step) (step_type step) error_msg in
    let run' := set_status "failed" run' in
    (do_commit w run' [run_step], Raised e)
  end.

(** The [while run.current_step] loop of [_execute_workflow]. *)
Fixpoint advance (fuel : nat) (step_map : gmap string Step) (w : world)
    (run : Run) : world * outcome Run :=
  match fuel with
  | O => (w, OutOfFuel)
  | S fuel' =>
    match run_current_step run with
    | Some (String _ _ as current) =>
      match step_map !! current with
      | None =>
        let run := set_status "failed" run in
        (do_commit w run [],
         Raised (ValueError ("Step " +:+ current +:+ " not found in workflow")))
      | Some step =>
        match execute_step w run step with
        | (w, Ok (ctx, result)) =>
          let run := set_context ctx run in
          let '(id, w) := next_uuid w in
          let run_step := completed_step id run step result in
          if result_pause result then
            let run := set_status "waiting" run in
            (do_commit w run [run_step], Returned run)
          else
            let run := set_current_step (step_next step) run in
            let w := do_commit w run [run_step] in
            if negb (opt_truthy (run_current_step run)) then
              let run := set_status "completed" run in
              (do_commit w run [], Returned run)
            else advance fuel' step_map w run
        | (w, Exc e) => handle_failure w run step e
        end
      end
    | _ => (w, Returned run)
    end
  end.

Definition _execute_workflow (fuel : nat) (w : world) (run : Run)
    : world * outcome Run :=
  match get_workflow (db w) (run_workflow_id run) with
  | None =>
    (w, Raised (ValueError ("Workflow " +:+ run_workflow_id run +:+ " not found")))
  | Some workflow => advance fuel (build_step_map (wf_steps workflow)) w run
  end.

Definition start_run (fuel : nat) (w : world) (workflow_id : string)
    (inputs : gmap string json) (idempotency_key : option string)
    : world * outcome Run :=
  (* [if idempotency_key:] fails on [None] and on the empty string *)
  match (match idempotency_key with
         | Some (String _ _ as key) => get_run_by_key (db w) key
         | _ => None
         end) with
  | Some existing_run => (w, Returned existing_run)
  | None =>
    match get_workflow (db w) workflow_id with
    | None => (w, Raised (ValueError ("Workflow " +:+ workflow_id +:+ " not found")))
    | Some workflow =>
      let ctx := {| static := ∅; profile := ∅; runtime := inputs |} in
      let '(id, w) := next_uuid w in
      let run :=
        {| run_id := id; run_workflow_id := workflow_id;
           run_workflow_version := wf_version workflow;
           run_status := "running";
           run_current_step := Some (wf_start_step workflow);
           run_context := ctx;
           run_idempotency_key := idempotency_key |} in
      match insert_run (db w) run with
      | Exc e => (w, Raised e)
      | Ok d => _execute_workflow fuel (set_db d w) run
      end
    end
  end.

(** The approval branch of [resume_run]: check the decision's shape and
    record it in the runtime context. *)
Definition record_approval (current : string) (inputs : gmap string json)
    (ctx : context) : res context :=
  match inputs !! "approval" with
  | None => Exc (ValueError "Missing 'approval' key in resume data")
  | Some (JObj approval_data) =>
    match approval_data !! "approved" with
    | None => Exc (ValueError "Missing 'approved' field in approval data")
    | Some approved =>
      let approval_key := current +:+ "_approval" in
      match runtime ctx !! approval_key with
      | None => Ok ctx
      | Some (JObj meta) =>
        let meta :=
          <["status" := JStr (if truthy approved then "approved" else "rejected")]> meta in
        let meta :=
          <["comments" := default (JStr EmptyString) (approval_data !! "comments")]> meta in
        Ok (set_runtime ctx (<[approval_key := JObj meta]> (runtime ctx)))
      | Some _ => Exc (TypeError "object does not support item assignment")
      end
    end
  | Some _ => Exc (ValueError "Approval data must be a dictionary")
  end.

(** The body of [if inputs:] in [resume_run] up to, and without,
    [run.context["runtime"].update(inputs)]: the run and the inputs to
    merge. *)
Definition validate_resume (w : world) (run : Run) (inputs : gmap string json)
    : res (Run * gmap string json) :=
  match run_current_step run with
  | Some (String _ _ as current) =>
    match get_workflow (db w) (run_workflow_id run) with
    | None => Ok (run, inputs)
    | Some workflow =>
      match build_step_map (wf_steps workflow) !! current with
      | None => Ok (run, inputs)
      | Some current_step =>
        if String.eqb (step_type current_step) "form" then
          match step_cfg current_step with
          | FormStepConfig fields =>
            match FormExecutor.validate_fields fields inputs with
            | Exc e => Exc e
            | Ok validated_inputs =>
              Ok (set_current_step (step_next current_step) run, validated_inputs)
            end
          | _ => Exc (config_error "FormStepConfig")
          end
        else if String.eqb (step_type current_step) "approval" then
          match record_approval current inputs (run_context run) with
          | Exc e => Exc e
          | Ok ctx =>
            Ok (set_current_step (step_next current_step) (set_context ctx run),
                inputs)
          end
        else Ok (run, inputs)
      end
    end
  | _ => Ok (run, inputs)
  end.

(** [resume_run] up to the commit that precedes the advance loop. An
    absent or empty [inputs] skips validation and merging. *)
Definition prepare_resume (w : world) (run : Run)
    (inputs : option (gmap string json)) : res Run :=
  match inputs with
  | Some inputs =>
    if bool_decide (inputs = ∅) then Ok (set_status "running" run)
    else
      match validate_resume w run inputs with
      | Exc e => Exc e
      | Ok (run, inputs) =>
        let ctx := run_context run in
        Ok (set_status "running"
              (set_context (set_runtime ctx (inputs ∪ runtime ctx)) run))
      end
  | None => Ok (set_status "running" run)
  end.

Definition resume_run (fuel : nat) (w : world) (rid : string)
    (inputs : option (gmap string json)) : world * outcome Run :=
  match get_run (db w) rid with
  | None => (w, Raised (ValueError ("Run " +:+ rid +:+ " not found")))
  | Some run =>
    if negb (String.eqb (run_status run) "waiting") then
      (w, Raised (ValueError ("Run " +:+ rid +:+
             " is not in waiting state (status=" +:+ run_status run +:+ ")")))
    else
      match prepare_resume w run inputs with
      | Exc e => (w, Raised e)
      | Ok run =>
        let w := do_commit w run [] in
        match _execute_workflow fuel w run with
        | (w, Returned _) =>
          (* [await self.session.refresh(run)] *)
          match get_run (db w) rid with
          | Some run => (w, Returned run)
          | None => (w, Raised (NoResultFound "Could not refresh instance"))
          end
        | other => other
        end
      end
  end.

End Engine.

End WorkflowEngine.

(** ** HTTP handlers ([app/routers/executions.py], [app/routers/workflows.py]) *)

(** What a handler does: it answers, raises an [HTTPException] with a status
    code and a detail, lets an exception through that it does not catch (one
    of the engine's, or [MultipleResultsFound] from a [scalar_one_or_none]
    that met several rows), or is still running when the fuel of the model
    is used up. *)
Inductive http_outcome (A : Type) :=
  | Response (a : A)
  | HTTPException (status_code : nat) (detail : string)
  | Unhandled (e : exn)
  | MultipleResultsFound
  | Unfinished.
Arguments Response {A} a.
Arguments HTTPException {A} status_code detail.
Arguments Unhandled {A} e.
Arguments MultipleResultsFound {A}.
Arguments Unfinished {A}.

Module Executions.

(** [Literal["approved", "rejected"]] *)
Inductive decision :=
  | approved
  | rejected.

(** [RunResume] of [app/models/schemas.py]. *)
Record RunResume := {
  resume_inputs : option (gmap string json);
  resume_approval : option decision;
  resume_comments : option string;
}.

(** [RunCreate] of [app/models/schemas.py]. *)
Record RunCreate := {
  create_workflow_id : string;
  create_inputs : gmap string json;
  create_idempotency_key : option string;
}.

(** What [except ValueError] catches: [ValueError] and pydantic's
    [ValidationError], which derives from it. *)
Definition is_value_error (e : exn) : bool :=
  match e with
  | ValueError _ | ValidationError _ => true
  | _ => false
  end.

(** [await db.refresh(run)] followed by the [RunResponse] built from it. *)
Definition refreshed (w : world) (rid : string) : world * http_outcome Run :=
  match get_run (db w) rid with
  | Some run => (w, Response run)
  | None => (w, Unhandled (NoResultFound "Could not refresh instance"))
  end.

Definition cancel_execution (w : world) (rid : string) : world * http_outcome Run :=
  match get_run (db w) rid with
  | None => (w, HTTPException 404 ("Run '" +:+ rid +:+ "' not found"))
  | Some run =>
    if existsb (String.eqb (run_status run)) ["completed"; "failed"; "canceled"]
    then (w, HTTPException 409
               ("Run '" +:+ rid +:+ "' cannot be canceled (status: " +:+
                run_status run +:+ ")"))
    else
      let run := set_status "canceled" run in
      refreshed (set_db (commit (db w) run []) w) rid
  end.

(** [resume_data.comments or ""] *)
Definition comments_or_empty (comments : option string) : string :=
  match comments with
  | Some (String _ _ as s) => s
  | _ => EmptyString
  end.

(** The dictionary the handler passes to the engine for an approval
    decision. *)
Definition approval_inputs (d : decision) (comments : option string)
    : gmap string json :=
  {["approval" :=
      JObj (<["approved" := JBool (match d with approved => true | rejected => false end)]>
           (<["comments" := JStr (comments_or_empty comments)]> ∅))]}.

Section Handlers.
Variable uuid4 : nat → string.
Variable token_urlsafe : nat → string.
Variable provider :
  nat → string → gmap string json → json → AIGenerateExecutor.provider_reply.
Variable validate : json → json → AIGenerateExecutor.validate_reply.
Variable asteval : string → gmap string json → ConditionalExecutor.interp_reply.
(** The SHA-256 digest of the workflow identifier and the sorted inputs. *)
Variable generate_idempotency_key : string → gmap string json → string.

(** [start_execution]. The engine's [execute_step] takes a run and a step;
    the call [engine.execute_step(run.id)] that follows a [start_run] that
    returned passes one argument and raises [TypeError], which the handler
    does not catch. *)
Definition start_execution (fuel : nat) (w : world) (run_data : RunCreate)
    : world * http_outcome Run :=
  let workflow_id := create_workflow_id run_data in
  match get_workflow (db w) workflow_id with
  | None => (w, HTTPException 404 ("Workflow '" +:+ workflow_id +:+ "' not found"))
  | Some _ =>
    let idempotency_key :=
      match create_idempotency_key run_data with
      | Some (String _ _ as key) => key
      | _ => generate_idempotency_key workflow_id (create_inputs run_data)
      end in
    match WorkflowEngine.start_run uuid4 token_urlsafe provider validate asteval
            fuel w workflow_id (create_inputs run_data) (Some idempotency_key) with
    | (w, Returned run) =>
      (w, Unhandled (TypeError
            "WorkflowEngine.execute_step() missing 1 required positional argument: 'step'"))
    | (w, Raised e) =>
      if is_value_error e then
        match (if contains "already exists" (ConditionalExecutor.lower (str_exn e))
               then get_run_by_key (db w) idempotency_key else None) with
        | Some existing_run => (w, Response existing_run)
        | None => (w, HTTPException 400 (str_exn e))
        end
      else (w, Unhandled e)
    | (w, OutOfFuel) => (w, Unfinished)
    end
  end.

Definition resume_execution (fuel : nat) (w : world) (rid : string)
    (resume_data : RunResume) : world * http_outcome Run :=
  match get_run (db w) rid with
  | None => (w, HTTPException 404 ("Run '" +:+ rid +:+ "' not found"))
  | Some run =>
    if negb (String.eqb (run_status run) "waiting") then
      (w, HTTPException 409
            ("Run '" +:+ rid +:+ "' is not in waiting state (current: " +:+
             run_status run +:+ ")"))
    else
      let has_inputs :=
        match resume_inputs resume_data with
        | Some m => negb (bool_decide (m = ∅))
        | None => false
        end in
      let has_approval :=
        match resume_approval resume_data with Some _ => true | None => false end in
      if has_inputs && has_approval then
        (w, HTTPException 400 "Cannot provide both inputs and approval in same request")
      else if negb has_inputs && negb has_approval then
        (w, HTTPException 400 "Must provide either inputs or approval decision")
      else
        let inputs :=
          match resume_inputs resume_data, resume_approval resume_data with
          | Some m, None => m
          | _, Some d => approval_inputs d (resume_comments resume_data)
          | None, None => ∅
          end in
        match WorkflowEngine.resume_run uuid4 token_urlsafe provider validate
                asteval fuel w rid (Some inputs) with
        | (w, Returned _) => refreshed w rid
        | (w, Raised e) =>
          if is_value_error e then (w, HTTPException 400 (str_exn e))
          else (w, Unhandled e)
        | (w, OutOfFuel) => (w, Unfinished)
        end
  end.
End Handlers.

End Executions.

Module Workflows.

(** The first step whose non-empty [next] names no step. *)
Definition dangling_next (steps : list Step) : option Step :=
  List.find
    (λ step, opt_truthy (step_next step)
             && negb (bool_decide (default EmptyString (step_next step)
                                   ∈ step_id <$> steps)))
    steps.

(** [create_workflow]: the checks of the definition, then the workflow row
    with its steps. Each row of the steps table draws a surrogate key when
    it is flushed; nothing reads those keys, and the model counts them
    without keeping them. The [definition] column, a copy of the request, is
    not read by the engine either and is left out. *)
Definition create_workflow (uuid4 : nat → string) (w : world)
    (name start_step : string) (steps : list Step) : world * http_outcome Workflow :=
  match steps with
  | [] => (w, HTTPException 400 "Workflow must have at least one step")
  | _ =>
    if negb (bool_decide (start_step ∈ step_id <$> steps)) then
      (w, HTTPException 400
            ("Start step '" +:+ start_step +:+ "' not found in workflow steps"))
    else
      match dangling_next steps with
      | Some step =>
        (w, HTTPException 400
              ("Step '" +:+ step_id step +:+ "' references non-existent next step '"
               +:+ default EmptyString (step_next step) +:+ "'"))
      | None =>
        let '(workflow_id, w) := WorkflowEngine.next_uuid uuid4 w in
        let workflow :=
          {| wf_id := workflow_id; wf_version := 1; wf_name := name;
             wf_start_step := start_step; wf_steps := steps |} in
        if existsb (λ wf, String.eqb (wf_id wf) workflow_id) (workflows (db w))
        then (w, Unhandled (IntegrityError "UNIQUE constraint failed: workflows.id"))
        else
          ({| db := {| workflows := workflows (db w) ++ [workflow];
                       runs := runs (db w); run_steps := run_steps (db w) |};
              uuids_drawn := uuids_drawn w + length steps;
              tokens_drawn := tokens_drawn w;
              provider_calls := provider_calls w |},
           Response workflow)
      end
  end.

(** A field of a partial update: absent from the request, [null], or
    given. *)
Inductive field (A : Type) :=
  | Unset
  | Null
  | Given (a : A).
Arguments Unset {A}.
Arguments Null {A}.
Arguments Given {A} a.

(** [WorkflowUpdate] of [app/models/schemas.py]. *)
Record WorkflowUpdate := {
  update_name : field string;
  update_start_step : field string;
  update_steps : field (list Step);
}.

(** Committing the session of [update_workflow]: the workflow row is
    written back, with its step rows. *)
Definition store_workflow (d : database) (wf : Workflow) : database :=
  {| workflows :=
       (λ x, if String.eqb (wf_id x) (wf_id wf) then wf else x) <$> workflows d;
     runs := runs d; run_steps := run_steps d |}.

(** [update_workflow]; as in [create_workflow] the [definition] column is
    left out and the surrogate keys of new step rows are counted only. *)
Definition update_workflow (w : world) (workflow_id : string)
    (workflow_update : WorkflowUpdate) : world * http_outcome Workflow :=
  match get_workflow (db w) workflow_id with
  | None => (w, HTTPException 404 ("Workflow '" +:+ workflow_id +:+ "' not found"))
  | Some existing =>
    match update_name workflow_update, update_start_step workflow_update,
          update_steps workflow_update with
    | Unset, Unset, Unset => (w, HTTPException 400 "No fields to update")
    | name, start_step, steps =>
      let new_name := match name with Given n => n | _ => wf_name existing end in
      let step_ids :=
        match steps with
        | Given ((_ :: _) as l) => step_id <$> l
        | _ => step_id <$> wf_steps existing
        end in
      let refused : option string :=
        match start_step with
        | Given s =>
          if negb (bool_decide (s ∈ step_ids))
          then Some ("Start step '" +:+ s +:+ "' not found in workflow steps")
          else None
        | _ => None
        end in
      match refused with
      | Some detail => (w, HTTPException 400 detail)
      | None =>
        let new_start_step :=
          match start_step with Given s => s | _ => wf_start_step existing end in
        match (match steps with Given l => dangling_next l | _ => None end) with
        | Some step =>
          (w, HTTPException 400
                ("Step '" +:+ step_id step +:+ "' references non-existent next step '"
                 +:+ default EmptyString (step_next step) +:+ "'"))
        | None =>
          let new_steps := match steps with Given l => l | _ => wf_steps existing end in
          let updated :=
            {| wf_id := wf_id existing; wf_version := (wf_version existing + 1)%Z;
               wf_name := new_name; wf_start_step := new_start_step;
               wf_steps := new_steps |} in
          ({| db := store_workflow (db w) updated;
              uuids_drawn :=
                uuids_drawn w + match steps with Given l => length l | _ => 0 end;
              tokens_drawn := tokens_drawn w;
              provider_calls := provider_calls w |},
           Response updated)
        end
      end
    end
  end.

(** [Run.status.in_(["queued", "running", "waiting"])] on the runs of a
    workflow. *)
Definition active_run_of (workflow_id : string) (r : Run) : bool :=
  String.eqb (run_workflow_id r) workflow_id
  && existsb (String.eqb (run_status r)) ["queued"; "running"; "waiting"].

(** [delete_workflow]. Deleting the workflow row cascades to its runs and
    to their run steps ([cascade="all, delete-orphan"] on [Workflow.runs]
    and [Run.run_steps]). The answer is the empty 204. *)
Definition delete_workflow (w : world) (workflow_id : string)
    : world * http_outcome unit :=
  match get_workflow (db w) workflow_id with
  | None => (w, HTTPException 404 ("Workflow '" +:+ workflow_id +:+ "' not found"))
  | Some workflow =>
    match List.filter (active_run_of workflow_id) (runs (db w)) with
    | [] =>
      let deleted r := String.eqb (run_workflow_id r) workflow_id in
      let deleted_ids := run_id <$> List.filter deleted (runs (db w)) in
      (set_db
         {| workflows :=
              List.filter (λ wf, negb (String.eqb (wf_id wf) workflow_id))
                (workflows (db w));
            runs := List.filter (λ r, negb (deleted r)) (runs (db w));
            run_steps :=
              List.filter (λ rs, negb (bool_decide (rs_run_id rs ∈ deleted_ids)))
                (run_steps (db w)) |} w,
       Response tt)
    | [_] =>
      (w, HTTPException 409
            ("Cannot delete workflow '" +:+ workflow_id +:+ "' with active runs"))
    | _ => (w, MultipleResultsFound)
    end
  end.

End Workflows.

(* ===================================================================== *)
(** * Vocabulary of the properties, and fixtures *)
(* ===================================================================== *)

Import ConditionalExecutor.

Import AIGenerateExecutor.

Import WorkflowEngine.

(** A configured field is rejected by the inputs: it is required and absent,
    or it is present and its declared type is neither text nor textarea or
    its value is not a string. *)
Definition field_rejected (inputs : gmap string json) (f : StepConfigField) : Prop :=
  match inputs !! field_key f with
  | None => field_required f = true
  | Some v =>
    (field_type f ≠ "text" ∧ field_type f ≠ "textarea") ∨ (∀ s, v ≠ JStr s)
  end.

(** The same, by the tests the loop of [validate_fields] makes. *)
Definition field_refused (inputs : gmap string json) (f : StepConfigField) : Prop :=
  match inputs !! field_key f with
  | None => field_required f = true
  | Some v => FormExecutor.supported_type (field_type f) = false ∨ is_str v = false
  end.

(** Every character is whitespace (the empty string included). *)
Fixpoint all_space (s : string) : bool :=
  match s with
  | EmptyString => true
  | String c rest => is_space c && all_space rest
  end.

(** Some letter or underscore is immediately followed by a dot. *)
Definition has_attribute_pattern (e : string) : Prop :=
  ∃ pre c post,
    e = pre +:+ String c (String "."%char post) ∧ is_letter_or_underscore c = true.

(** A 256-character expression, a 257-character one and a blank one. *)
Definition ones (n : nat) : string :=
  Nat.iter n (String "1"%char) EmptyString.

Definition not_found_message (var_name : string) : string :=
  "Variable '" +:+ var_name +:+
  "' not found in context. Checked: static, profile, runtime".



(** The context with a name removed from every layer. *)
Definition forget (name : string) (ctx : context) : context :=
  {| static := delete name (static ctx);
     profile := delete name (profile ctx);
     runtime := delete name (runtime ctx) |}.

(** The last run step recorded and the stored run say that the run failed
    with the error [e]. *)
Definition failure_recorded (d : database) (rid sid : string) (e : exn) : Prop :=
  ∃ earlier rs stored,
    run_steps d = (earlier ++ [rs])%list
    ∧ rs_run_id rs = rid ∧ rs_step_id rs = sid
    ∧ rs_status rs = "failed" ∧ rs_error rs = Some (str_exn e)
    ∧ rs_output rs = None
    ∧ get_run d rid = Some stored ∧ run_status stored = "failed".

(** The step reference of the run does not resolve: the run is marked failed
    and [e] says which step is missing. *)
Definition dangling_step (d : database) (rid : string) (e : exn) : Prop :=
  ∃ current stored,
    e = ValueError ("Step " +:+ current +:+ " not found in workflow")
    ∧ get_run d rid = Some stored ∧ run_status stored = "failed".

(** Between [d] and [d'] the history grew by completed run steps only: no
    failed run step was recorded. *)
Definition only_completed_added (d d' : database) : Prop :=
  ∃ added,
    run_steps d' = (run_steps d ++ added)%list
    ∧ Forall (λ rs, rs_status rs = "completed") added.

(** The runtime context after the inputs of a resume were merged over it. *)
Definition merged_runtime (inputs : option (gmap string json))
    (before : gmap string json) : gmap string json :=
  match inputs with
  | Some given => given ∪ before
  | None => before
  end.

(** The decision as [resume_run] records it: [status] by the truthiness of
    [approved], [comments] with the empty string as default. *)
Definition decided (approval_data meta : gmap string json) (approved : json)
    : json :=
  JObj (<["comments" := default (JStr EmptyString) (approval_data !! "comments")]>
       (<["status" := JStr (if truthy approved then "approved" else "rejected")]>
          meta)).

(** The last run step recorded is the pause of the run's current step. *)
Definition paused_at_current (d : database) (r : Run) : Prop :=
  ∃ earlier rs result,
    run_steps d = (earlier ++ [rs])%list
    ∧ rs_output rs = Some result ∧ result_pause result = true
    ∧ run_current_step r = Some (rs_step_id rs)
    ∧ rs_run_id rs = run_id r.

(** ** Test fixtures *)

Definition demo_uuid4 (n : nat) : string :=
  "id-" +:+ String (ascii_of_nat (48 + n)) EmptyString.

Definition demo_token (n : nat) : string :=
  "token-" +:+ String (ascii_of_nat (48 + n)) EmptyString.

(** A provider that always answers [{invalid: "y"}], and a validator for the
    schema [{required: [x]}]. *)
Definition demo_provider (n : nat) (template : string)
    (vars : gmap string json) (schema : json) : provider_reply :=
  Generated (JObj {["invalid" := JStr "y"]}).


Definition demo_validate (output schema : json) : validate_reply :=
  match output with
  | JObj m =>
    match m !! "x" with
    | Some _ => Valid
    | None => Invalid "'x' is a required property"
    end
  | _ => Invalid "not of type 'object'"
  end.

(** An interpreter in whose namespace no name is defined. *)
Definition demo_asteval (expression : string) (namespace : gmap string json)
    : interp_reply :=
  InterpError "NameError: name 'undefined' is not defined".

Definition empty_context : context :=
  {| static := ∅; profile := ∅; runtime := ∅ |}.

Definition name_field : StepConfigField :=
  {| field_key := "name"; field_type := "text"; field_required := true;
     field_pattern := None |}.

(** An optional textarea, a required field of the unsupported type number,
    and a second required text field. *)
Definition bio_field : StepConfigField :=
  {| field_key := "bio"; field_type := "textarea"; field_required := false;
     field_pattern := None |}.

Definition age_field : StepConfigField :=
  {| field_key := "age"; field_type := "number"; field_required := true;
     field_pattern := None |}.

Definition email_field : StepConfigField :=
  {| field_key := "email"; field_type := "text"; field_required := true;
     field_pattern := None |}.

Definition profile_inputs : gmap string json :=
  {["name" := JStr "Diana"; "bio" := JStr "hi"; "extra" := JNum 1]}.

Definition age_inputs : gmap string json :=
  {["name" := JStr "Diana"; "age" := JNum 5]}.

Definition form_step : Step :=
  {| step_id := "collect"; step_type := "form"; step_name := "Collect name";
     step_next := None; step_cfg := FormStepConfig [name_field] |}.

Definition approval_step : Step :=
  {| step_id := "approve"; step_type := "approval"; step_name := "Approve";
     step_next := None; step_cfg := ApprovalStepConfig ["m@x"] |}.

Definition conditional_step : Step :=
  {| step_id := "check"; step_type := "conditional"; step_name := "Check";
     step_next := None; step_cfg := ConditionalStepConfig "undefined > 10" |}.

Definition ai_step : Step :=
  {| step_id := "generate"; step_type := "ai_generate"; step_name := "Generate";
     step_next := None;
     step_cfg := AIGenerateStepConfig
                   {| template_id := "greet"; variables := [];
                      json_schema := JObj ∅ |} |}.

Definition workflow_of (id : string) (s : Step) : Workflow :=
  {| wf_id := id; wf_version := 1; wf_name := id; wf_start_step := step_id s;
     wf_steps := [s] |}.

Definition demo_world : world :=
  {| db := {| workflows := [workflow_of "wf-form" form_step;
                            workflow_of "wf-approval" approval_step;
                            workflow_of "wf-cond" conditional_step;
                            workflow_of "wf-ai" ai_step];
              runs := []; run_steps := [] |};
     uuids_drawn := 0; tokens_drawn := 0; provider_calls := 0 |}.

Definition demo_start_run :=
  start_run demo_uuid4 demo_token demo_provider demo_validate demo_asteval.

Definition demo_resume_run :=
  resume_run demo_uuid4 demo_token demo_provider demo_validate demo_asteval.

Definition demo_advance :=
  advance demo_uuid4 demo_token demo_provider demo_validate demo_asteval.

(** The run and the world after [start_run] on the one-step workflows. *)
Definition world_after (o : world * outcome Run) : world := o.1.

Definition run_after (o : world * outcome Run) : option Run :=
  match o.2 with Returned r => Some r | _ => None end.

(** A run of the conditional workflow, stored and about to execute its
    step. *)
Definition check_run : Run :=
  {| run_id := "id-0"; run_workflow_id := "wf-cond"; run_workflow_version := 1;
     run_status := "running"; run_current_step := Some "check";
     run_context := empty_context; run_idempotency_key := None |}.

Definition check_world : world :=
  {| db := {| workflows := workflows (db demo_world); runs := [check_run];
              run_steps := [] |};
     uuids_drawn := 1; tokens_drawn := 0; provider_calls := 0 |}.

Definition undefined_error : exn :=
  NameError "NameError: name 'undefined' is not defined".



(** The first of two [start_run] calls with the key ["k"]. *)
Definition first_start : world * outcome Run :=
  demo_start_run 5 demo_world "wf-form" {["a" := JNum 1]} (Some "k").

Definition first_run : Run := default check_run (run_after first_start).



(** The form workflow, paused at its step. *)
Definition form_start : world * outcome Run :=
  demo_start_run 5 demo_world "wf-form" ∅ None.

(** The approval workflow, paused at its step. *)
Definition approval_start : world * outcome Run :=
  demo_start_run 5 demo_world "wf-approval" ∅ None.

Definition approval_run : Run := default check_run (run_after approval_start).

Definition pending_meta : gmap string json :=
  <["token" := JStr "token-0"]>
  (<["approvers" := ApprovalExecutor.approvers_json ["m@x"]]>
  (<["status" := JStr "pending"]> ∅)).

Definition approved_ok : gmap string json :=
  <["approved" := JBool true]> (<["comments" := JStr "ok"]> ∅).

(** The message for a rejected field: the missing field first, then the
    declared type that is neither text nor textarea, then the value that is
    not a string. *)
Definition rejection_message (inputs : gmap string json) (f : StepConfigField)
    : string :=
  match inputs !! field_key f with
  | None => "Required field '" +:+ field_key f +:+ "' is missing"
  | Some _ =>
    if bool_decide (field_type f = "text" ∨ field_type f = "textarea")
    then "Field '" +:+ field_key f +:+ "' must be a string"
    else "Field type '" +:+ field_type f +:+
         "' not supported. Only 'text' and 'textarea' are allowed."
  end.

(** What an engine operation on the run [rid] may do to the tables: the
    workflows stay, run steps are only appended, no run row is added or
    removed, and the rows of other runs stay as they are. *)
Definition touches_only (rid : string) (d d' : database) : Prop :=
  workflows d' = workflows d
  ∧ run_steps d `prefix_of` run_steps d'
  ∧ run_id <$> runs d' = run_id <$> runs d
  ∧ ∀ i r, runs d !! i = Some r → run_id r ≠ rid → runs d' !! i = Some r.

(** The constraints of the [runs] table: the primary key and
    [uq_runs_idempotency_key] (null keys do not collide). *)
Definition db_consistent (d : database) : Prop :=
  NoDup (run_id <$> runs d) ∧ NoDup (omap run_idempotency_key (runs d)).

(** The step types [execute_step] routes. *)
Definition routed_types : list string :=
  ["form"; "ai_generate"; "conditional"; "api_call"; "approval"].

(** [rank] decreases along every non-empty [next] of the step map: the
    workflow graph has no cycle. *)
Definition ranked (step_map : gmap string Step) (rank : string → nat) : Prop :=
  ∀ k step c n,
    step_map !! k = Some step → step_next step = Some (String c n) →
    (rank (String c n) < rank k)%nat.

(** The rank of the run's current step, counted from one; zero when there
    is none. *)
Definition steps_left (rank : string → nat) (run : Run) : nat :=
  match run_current_step run with
  | Some (String c n) => S (rank (String c n))
  | _ => 0
  end.


(** Every non-empty [next] names a step of the list. *)
Definition closed_steps (steps : list Step) : Prop :=
  ∀ s c n, s ∈ steps → step_next s = Some (String c n) →
           String c n ∈ step_id <$> steps.

(** ** Further fixtures *)

(** A context that binds [name] in two layers. *)
Definition layered_context : context :=
  {| static := {["name" := JStr "static"]}; profile := ∅;
     runtime := {["name" := JStr "runtime"]} |}.

(** An interpreter that evaluates every expression to 1. *)
Definition one_asteval (expression : string) (namespace : gmap string json)
    : interp_reply :=
  InterpValue (JNum 1).


(** A run of the form workflow, stored and about to execute its step. *)
Definition collect_run : Run :=
  {| run_id := "id-0"; run_workflow_id := "wf-form"; run_workflow_version := 1;
     run_status := "running"; run_current_step := Some "collect";
     run_context := empty_context; run_idempotency_key := None |}.

Definition stored_alone (r : Run) : world :=
  {| db := {| workflows := workflows (db demo_world); runs := [r];
              run_steps := [] |};
     uuids_drawn := 1; tokens_drawn := 0; provider_calls := 0 |}.

(** A waiting run whose workflow row is gone. *)
Definition orphan_run : Run :=
  {| run_id := "id-0"; run_workflow_id := "gone"; run_workflow_version := 1;
     run_status := "waiting"; run_current_step := Some "collect";
     run_context := empty_context; run_idempotency_key := None |}.

Definition approve_run : Run :=
  {| run_id := "id-0"; run_workflow_id := "wf-approval"; run_workflow_version := 1;
     run_status := "running"; run_current_step := Some "approve";
     run_context := empty_context; run_idempotency_key := None |}.

Definition demo_execute_workflow :=
  _execute_workflow demo_uuid4 demo_token demo_provider demo_validate demo_asteval.

Definition demo_resume_execution :=
  Executions.resume_execution demo_uuid4 demo_token demo_provider demo_validate
    demo_asteval.

(** The pass of the loop over the form workflow. *)
Definition form_pass : world * outcome Run :=
  demo_execute_workflow 5 (stored_alone collect_run) collect_run.

Definition form_run : Run := default check_run (run_after form_start).

(** A step of a type the engine does not route, under the identifier of the
    conditional step. *)
Definition webhook_step : Step :=
  {| step_id := "check"; step_type := "webhook"; step_name := "Notify";
     step_next := None; step_cfg := RawConfig JNull |}.

(** A conditional step that names itself as its successor. *)
Definition loop_step : Step :=
  {| step_id := "check"; step_type := "conditional"; step_name := "Again";
     step_next := Some "check"; step_cfg := ConditionalStepConfig "1" |}.

(** A conditional step that leads on to the form step, and a rank for the
    two-step workflow. *)
Definition gate_step : Step :=
  {| step_id := "check"; step_type := "conditional"; step_name := "Gate";
     step_next := Some "collect"; step_cfg := ConditionalStepConfig "1" |}.

Definition gate_rank (step : string) : nat :=
  if String.eqb step "check" then 1 else 0.

(** The world a handler left, and what it answered with. *)
Definition world_after_http {A} (o : world * http_outcome A) : world := o.1.


Definition answered {A} (o : world * http_outcome A) : option A :=
  match o.2 with Response a => Some a | _ => None end.

Definition form_canceled : world * http_outcome Run :=
  Executions.cancel_execution (world_after form_start) "id-0".

Definition approve_request : Executions.RunResume :=
  {| Executions.resume_inputs := None;
     Executions.resume_approval := Some Executions.approved;
     Executions.resume_comments := Some "ok" |}.

Definition extra_only : gmap string json := {["extra" := JNum 1]}.

Definition extra_request : Executions.RunResume :=
  {| Executions.resume_inputs := Some extra_only;
     Executions.resume_approval := None;
     Executions.resume_comments := None |}.

Definition name_request : Executions.RunResume :=
  {| Executions.resume_inputs := Some {["name" := JStr "Diana"]};
     Executions.resume_approval := None;
     Executions.resume_comments := None |}.

Definition form_created : world * http_outcome Workflow :=
  Workflows.create_workflow demo_uuid4 demo_world "Intake" "collect" [form_step].

Definition check_created : world * http_outcome Workflow :=
  Workflows.create_workflow demo_uuid4 demo_world "Check" "check" [conditional_step].

(** An AI step whose one variable is called "already exists", and a world
    that holds its workflow. *)
Definition exists_step : Step :=
  {| step_id := "generate"; step_type := "ai_generate"; step_name := "Generate";
     step_next := None;
     step_cfg := AIGenerateStepConfig
                   {| template_id := "greet"; variables := ["already exists"];
                      json_schema := JObj ∅ |} |}.

Definition exists_world : world :=
  {| db := {| workflows := [workflow_of "wf-x" exists_step]; runs := [];
              run_steps := [] |};
     uuids_drawn := 0; tokens_drawn := 0; provider_calls := 0 |}.

Definition demo_key (workflow_id : string) (inputs : gmap string json) : string :=
  "9f86d081884c7d65".

Definition exists_request : Executions.RunCreate :=
  {| Executions.create_workflow_id := "wf-x"; Executions.create_inputs := ∅;
     Executions.create_idempotency_key := None |}.

Definition exists_started : world * http_outcome Run :=
  Executions.start_execution demo_uuid4 demo_token demo_provider demo_validate
    demo_asteval demo_key 5 exists_world exists_request.

Definition rename_update : Workflows.WorkflowUpdate :=
  {| Workflows.update_name := Workflows.Given "Renamed";
     Workflows.update_start_step := Workflows.Unset;
     Workflows.update_steps := Workflows.Unset |}.

Definition form_renamed : world * http_outcome Workflow :=
  Workflows.update_workflow demo_world "wf-form" rename_update.

Definition replace_update : Workflows.WorkflowUpdate :=
  {| Workflows.update_name := Workflows.Unset;
     Workflows.update_start_step := Workflows.Unset;
     Workflows.update_steps := Workflows.Given [approval_step] |}.
(* ===================================================================== *)
(** * Properties *)
(* ===================================================================== *)

Section EngineProperties.
Variable uuid4 : nat → string.
Variable token_urlsafe : nat → string.
Variable provider : nat → string → gmap string json → json → provider_reply.
Variable validate : json → json → validate_reply.
Variable asteval : string → gmap string json → interp_reply.

Local Abbreviation execute_step := (execute_step token_urlsafe provider validate asteval).
Local Abbreviation handle_failure := (handle_failure uuid4).
Local Abbreviation advance := (advance uuid4 token_urlsafe provider validate asteval).
Local Abbreviation _execute_workflow :=
  (_execute_workflow uuid4 token_urlsafe provider validate asteval).
Local Abbreviation start_run := (start_run uuid4 token_urlsafe provider validate asteval).
Local Abbreviation resume_run := (resume_run uuid4 token_urlsafe provider validate asteval).

(** ** Form validation *)

Lemma supported_type_spec (t : string) :
  FormExecutor.supported_type t = true ↔ t = "text" ∨ t = "textarea".
Proof.
  unfold FormExecutor.supported_type. rewrite orb_true_iff, !String.eqb_eq. done.
Qed.

Lemma is_str_spec (v : json) : is_str v = false ↔ ∀ s, v ≠ JStr s.
Proof.
  split.
  - intros H s ->. discriminate H.
  - intros H. destruct v as [| | |s| |]; try reflexivity. by destruct (H s).
Qed.

Lemma field_rejected_refused inputs f :
  field_rejected inputs f ↔ field_refused inputs f.
Proof.
  unfold field_rejected, field_refused.
  destruct (inputs !! field_key f) as [v|]; [|done].
  rewrite is_str_spec.
  assert (FormExecutor.supported_type (field_type f) = false
          ↔ field_type f ≠ "text" ∧ field_type f ≠ "textarea") as ->; [|done].
  rewrite <- not_true_iff_false, supported_type_spec.
  split.
  - intros H. split; intros Ht; apply H; [by left|by right].
  - intros [H1 H2] [Ht|Ht]; [by apply H1|by apply H2].
Qed.

Lemma field_refused_dec inputs f :
  {field_refused inputs f} + {¬ field_refused inputs f}.
Proof.
  unfold field_refused.
  destruct (inputs !! field_key f) as [v|].
  - destruct (FormExecutor.supported_type (field_type f)); [|left; by left].
    destruct (is_str v); [right; intros [?|?]; discriminate | left; by right].
  - destruct (field_required f); [by left | right; discriminate].
Qed.

(** The loop raises only [ValueError], and does so exactly when some field
    is rejected. *)
Lemma validate_loop_outcome fields inputs acc :
  match FormExecutor.validate_loop fields inputs acc with
  | Exc e => is_ValueError e = true ∧ Exists (field_refused inputs) fields
  | Ok _ => Forall (λ f, ¬ field_refused inputs f) fields
  end.
Proof.
  revert acc. induction fields as [|f fs IH]; intros acc; simpl.
  - constructor.
  - destruct (inputs !! field_key f) as [v|] eqn:Hk.
    + destruct (FormExecutor.supported_type (field_type f)) eqn:Ht; simpl.
      * destruct (is_str v) eqn:Hs; simpl.
        -- specialize (IH (<[field_key f:=v]> acc)).
           destruct (FormExecutor.validate_loop fs inputs _).
           ++ constructor; [|done]. unfold field_refused. rewrite Hk, Ht, Hs.
              intros [?|?]; discriminate.
           ++ destruct IH as [? ?]. split; [done|]. by apply Exists_cons_tl.
        -- split; [done|]. apply Exists_cons_hd. unfold field_refused.
           rewrite Hk. by right.
      * split; [done|]. apply Exists_cons_hd. unfold field_refused.
        rewrite Hk. by left.
    + destruct (field_required f) eqn:Hr.
      * split; [done|]. apply Exists_cons_hd. unfold field_refused.
        by rewrite Hk.
      * specialize (IH acc).
        destruct (FormExecutor.validate_loop fs inputs acc).
        -- constructor; [|done]. unfold field_refused. rewrite Hk, Hr. discriminate.
        -- destruct IH as [? ?]. split; [done|]. by apply Exists_cons_tl.
Qed.

(** What the loop returns: the inputs at the configured keys, over the
    accumulator elsewhere. *)
Lemma validate_loop_lookup fields inputs acc v k :
  FormExecutor.validate_loop fields inputs acc = Ok v →
  v !! k =
    if bool_decide (k ∈ field_key <$> fields)
    then match inputs !! k with Some x => Some x | None => acc !! k end
    else acc !! k.
Proof.
  revert acc. induction fields as [|f fs IH]; intros acc;
    cbn [FormExecutor.validate_loop].
  - intros [= <-]. rewrite fmap_nil.
    by rewrite bool_decide_eq_false_2 by apply not_elem_of_nil.
  - rewrite fmap_cons. destruct (inputs !! field_key f) as [x|] eqn:Hk.
    + destruct (FormExecutor.supported_type (field_type f)); simpl; [|done].
      destruct (is_str x); simpl; [|done].
      intros H. rewrite (IH _ H). clear IH H.
      destruct (decide (k = field_key f)) as [->|Hne].
      * rewrite Hk, lookup_insert_eq.
        rewrite (bool_decide_eq_true_2 (field_key f ∈ field_key f :: _))
          by apply list_elem_of_here.
        by destruct (bool_decide _).
      * rewrite lookup_insert_ne by done.
        destruct (bool_decide (k ∈ field_key <$> fs)) eqn:Hin.
        -- apply bool_decide_eq_true_1 in Hin.
           by rewrite bool_decide_eq_true_2 by by apply list_elem_of_further.
        -- apply bool_decide_eq_false_1 in Hin.
           rewrite bool_decide_eq_false_2; [done|].
           by intros [?|?]%elem_of_cons.
    + destruct (field_required f); [done|].
      intros H. rewrite (IH _ H). clear IH H.
      destruct (decide (k = field_key f)) as [->|Hne].
      * rewrite Hk.
        rewrite (bool_decide_eq_true_2 (field_key f ∈ field_key f :: _))
          by apply list_elem_of_here.
        by destruct (bool_decide _).
      * destruct (bool_decide (k ∈ field_key <$> fs)) eqn:Hin.
        -- apply bool_decide_eq_true_1 in Hin.
           by rewrite bool_decide_eq_true_2 by by apply list_elem_of_further.
        -- apply bool_decide_eq_false_1 in Hin.
           rewrite bool_decide_eq_false_2; [done|].
           by intros [?|?]%elem_of_cons.
Qed.

(** The loop reads the inputs only at the configured keys. *)
Lemma validate_loop_ext fields inputs1 inputs2 acc :
  (∀ f, f ∈ fields → inputs1 !! field_key f = inputs2 !! field_key f) →
  FormExecutor.validate_loop fields inputs1 acc
  = FormExecutor.validate_loop fields inputs2 acc.
Proof.
  revert acc. induction fields as [|f fs IH]; intros acc Hext; simpl; [done|].
  rewrite <- (Hext f) by apply list_elem_of_here.
  assert (Hfs : ∀ g, g ∈ fs → inputs1 !! field_key g = inputs2 !! field_key g)
    by (intros g Hg; apply Hext; by apply list_elem_of_further).
  destruct (inputs1 !! field_key f) as [x|].
  - destruct (negb _); [done|]. destruct (negb _); [done|]. by apply IH.
  - destruct (field_required f); [done|]. by apply IH.
Qed.

Lemma validate_fields_lookup fields inputs v k :
  FormExecutor.validate_fields fields inputs = Ok v →
  v !! k = if bool_decide (k ∈ field_key <$> fields) then inputs !! k else None.
Proof.
  intros H. rewrite (validate_loop_lookup _ _ _ _ k H), lookup_empty.
  by destruct (inputs !! k).
Qed.

(** C7. [validate_fields] raises (a [ValueError], the spec's Invalid) exactly
    when some configured field is required and absent, or present with a
    declared type other than text/textarea or a value that is not a string.
    Otherwise it returns a sub-map of the inputs that holds every required
    field and only configured keys (extra keys and absent optional fields are
    dropped), and validating that result again returns it unchanged. *)
Theorem C7_validate_fields_spec (fields : list StepConfigField)
    (inputs : gmap string json) :
  match FormExecutor.validate_fields fields inputs with
  | Exc e => (∃ msg, e = ValueError msg) ∧ Exists (field_rejected inputs) fields
  | Ok v =>
      Forall (λ f, ¬ field_rejected inputs f) fields
      ∧ v ⊆ inputs
      ∧ (∀ f, f ∈ fields → field_required f = true → is_Some (v !! field_key f))
      ∧ (∀ k, is_Some (v !! k) → k ∈ field_key <$> fields)
      ∧ (∀ k, inputs !! k = None → v !! k = None)
      ∧ FormExecutor.validate_fields fields v = Ok v
  end.
Proof.
  pose proof (validate_loop_outcome fields inputs ∅) as Hout.
  unfold FormExecutor.validate_fields in *.
  destruct (FormExecutor.validate_loop fields inputs ∅) as [v|e] eqn:Hv.
  2:{ destruct Hout as [He Hex]. split.
      - destruct e; try discriminate He. by eexists.
      - eapply Exists_impl; [exact Hex|]. intros f Hf. by apply field_rejected_refused. }
  assert (Hlk : ∀ k, v !! k
            = if bool_decide (k ∈ field_key <$> fields) then inputs !! k else None)
    by (intros k; by apply validate_fields_lookup).
  split.
  { eapply Forall_impl; [exact Hout|]. intros f Hf Hr. apply Hf.
    by apply field_rejected_refused. }
  split; [|split; [|split; [|split]]].
  - apply map_subseteq_spec. intros k x. rewrite Hlk. by case_bool_decide.
  - intros f Hf Hreq. rewrite Hlk.
    rewrite bool_decide_eq_true_2 by (by apply list_elem_of_fmap_2).
    rewrite Forall_forall in Hout. specialize (Hout f Hf).
    unfold field_refused in Hout.
    destruct (inputs !! field_key f); [eauto|]. by destruct Hout.
  - intros k [x Hx]. rewrite Hlk in Hx. by case_bool_decide.
  - intros k Hk. rewrite Hlk, Hk. by case_bool_decide.
  - rewrite <- Hv. apply validate_loop_ext. intros f Hf. rewrite Hlk.
    by rewrite bool_decide_eq_true_2 by (by apply list_elem_of_fmap_2).
Qed.

(** ** The expression sandbox's validation *)

Lemma lstrip_empty s : lstrip s = EmptyString ↔ all_space s = true.
Proof.
  induction s as [|c s IH]; simpl; [done|].
  destruct (is_space c); simpl; [done|]. split; discriminate.
Qed.

Lemma lstrip_shape s :
  lstrip s = EmptyString ∨ ∃ c r, lstrip s = String c r ∧ is_space c = false.
Proof.
  induction s as [|c s IH]; simpl; [by left|].
  destruct (is_space c) eqn:Hc; [done|]. right. eauto.
Qed.

Lemma rstrip_empty s : rstrip s = EmptyString ↔ all_space s = true.
Proof.
  induction s as [|c s IH]; simpl; [done|].
  destruct (rstrip s) eqn:Hr.
  - destruct IH as [IH _]. rewrite (IH eq_refl), andb_true_r.
    destruct (is_space c); split; congruence.
  - split; [discriminate|]. intros [_ H]%andb_true_iff.
    apply IH in H. discriminate.
Qed.

Lemma strip_truthy s : str_truthy (strip s) = negb (all_space s).
Proof.
  unfold strip. destruct (all_space s) eqn:Hs.
  - apply lstrip_empty in Hs. by rewrite Hs.
  - destruct (lstrip_shape s) as [He|(c & r & He & Hc)].
    + apply lstrip_empty in He. congruence.
    + rewrite He. destruct (rstrip (String c r)) eqn:Hr; [|done].
      apply rstrip_empty in Hr. simpl in Hr. by rewrite Hc in Hr.
Qed.

Lemma all_space_not_truthy s : str_truthy s = false → all_space s = true.
Proof. by destruct s. Qed.

(** The first test of [_validate_expression] fires exactly on blank text. *)
Lemma empty_test s :
  negb (str_truthy s) || negb (str_truthy (strip s)) = all_space s.
Proof.
  rewrite strip_truthy, negb_involutive.
  destruct s; [done|]. simpl. by destruct (_ && _).
Qed.

Lemma prefix_dot d r : startswith "." (String d r) = Ascii.eqb d "."%char.
Proof.
  cbn [startswith]. by rewrite andb_true_r, Ascii.eqb_sym.
Qed.

Lemma attribute_access_has_dot e :
  attribute_access e = true → contains "." e = true.
Proof.
  induction e as [|c e IH]; [done|].
  cbn [attribute_access contains]. destruct e as [|d r]; [done|].
  intros [[_ Hd]%andb_true_iff|H]%orb_true_iff.
  - apply orb_true_iff. right. cbn [contains]. rewrite prefix_dot, Hd. done.
  - apply orb_true_iff. right. by apply IH.
Qed.

Lemma append_nil_l (s : string) : EmptyString +:+ s = s.
Proof. reflexivity. Qed.

Lemma append_cons (c : ascii) (s t : string) :
  String c s +:+ t = String c (s +:+ t).
Proof. reflexivity. Qed.

Lemma attribute_access_spec e :
  attribute_access e = true ↔ has_attribute_pattern e.
Proof.
  split.
  - induction e as [|c e IH]; [done|].
    cbn [attribute_access]. destruct e as [|d r]; [done|].
    intros [[Hc Hd]%andb_true_iff|H]%orb_true_iff.
    + apply Ascii.eqb_eq in Hd as ->. by exists EmptyString, c, r.
    + destruct (IH H) as (pre & c' & post & -> & Hc').
      exists (String c pre), c', post. split; [|done].
      rewrite append_cons. by f_equal.
  - intros (pre & c & post & -> & Hc).
    induction pre as [|p pre IH].
    + rewrite append_nil_l. cbn [attribute_access]. by rewrite Hc.
    + rewrite append_cons. cbn [attribute_access].
      destruct (pre +:+ String c (String "." post)) eqn:He.
      * by destruct pre.
      * rewrite IH. apply orb_true_r.
Qed.

(** What [_validate_expression] computes, test by test. *)
Lemma validate_expression_cases e :
  _validate_expression e =
    if all_space e then Exc (ValueError "Expression cannot be empty")
    else if (256 <? String.length e)%nat
    then Exc (ValueError "Expression exceeds maximum length of 256 characters")
    else if attribute_access e
    then Exc (ValueError "Attribute access not allowed in expressions")
    else Ok tt.
Proof.
  unfold _validate_expression. rewrite empty_test.
  destruct (all_space e); [done|].
  change MAX_EXPRESSION_LENGTH with 256%nat.
  destruct (256 <? String.length e)%nat; [done|].
  destruct (attribute_access e) eqn:Ha.
  - by rewrite (attribute_access_has_dot _ Ha), orb_true_r.
  - by rewrite andb_false_r.
Qed.

(** C8. An expression of exactly 256 characters passes the length limit: it
    is handed to the interpreter whenever it is not blank and has no
    attribute access. An expression of 257 characters is rejected with a
    [ValueError] (the spec's Invalid), and so is an empty or whitespace-only
    one; in both cases the interpreter is never consulted. *)
Theorem C8_expression_length_boundary (ctx : context) (sid : string)
    (e : string) :
  (String.length e = 256%nat → all_space e = false → attribute_access e = false →
     _validate_expression e = Ok tt
     ∧ ConditionalExecutor.execute asteval e ctx sid = ConditionalExecutor.evaluate asteval e ctx)
  ∧ (String.length e = 257%nat →
     ∃ msg, _validate_expression e = Exc (ValueError msg)
            ∧ ∀ interp, ConditionalExecutor.execute interp e ctx sid = Exc (ValueError msg))
  ∧ (all_space e = true →
     _validate_expression e = Exc (ValueError "Expression cannot be empty")
     ∧ ∀ interp, ConditionalExecutor.execute interp e ctx sid
                 = Exc (ValueError "Expression cannot be empty")).
Proof.
  unfold ConditionalExecutor.execute. rewrite validate_expression_cases.
  split; [|split].
  - intros Hlen Hsp Hattr. by rewrite Hsp, Hlen, Hattr.
  - intros Hlen. rewrite Hlen. destruct (all_space e); eauto.
  - intros ->. done.
Qed.

(** C5, as stated, fails: an expression that contains a double underscore
    but no dot after a letter or underscore passes validation. *)
Lemma C5_double_underscore_not_rejected :
  ¬ (∀ e : string, contains "__" e = true →
       ∃ err, _validate_expression e = Exc err).
Proof.
  intros H. destruct (H "a__b" eq_refl) as [err Herr]. discriminate Herr.
Qed.

(** C5, amended. The substring [__] by itself rejects nothing: the check
    rejects exactly the non-blank expressions within the length limit in
    which a letter or underscore is immediately followed by a dot. Such an
    attribute access is always refused with a [ValueError] before the
    interpreter is consulted, and an expression without it (all its dots
    follow digits, say, as in numeric literals) passes the check. *)
Theorem C5_attribute_access_check (ctx : context) (sid : string) (e : string) :
  (has_attribute_pattern e →
     ∃ msg, _validate_expression e = Exc (ValueError msg)
            ∧ ∀ interp, ConditionalExecutor.execute interp e ctx sid = Exc (ValueError msg))
  ∧ (¬ has_attribute_pattern e →
     _validate_expression e
       ≠ Exc (ValueError "Attribute access not allowed in expressions"))
  ∧ (_validate_expression e
       = Exc (ValueError "Attribute access not allowed in expressions")
     ↔ all_space e = false ∧ (String.length e ≤ 256)%nat
       ∧ has_attribute_pattern e)
  ∧ (all_space e = false → (String.length e ≤ 256)%nat →
     (_validate_expression e = Ok tt ↔ ¬ has_attribute_pattern e)).
Proof.
  unfold ConditionalExecutor.execute. rewrite validate_expression_cases, <- attribute_access_spec.
  destruct (all_space e) eqn:Hsp.
  { split; [eauto|]. split; [done|]. split; [|done]. split; [done|].
    by intros [? _]. }
  destruct (Nat.ltb_spec 256 (String.length e)) as [Hlen|Hlen].
  { split; [eauto|]. split; [done|]. split; [|intros _ ?; lia].
    split; [done|]. intros (_ & ? & _). lia. }
  destruct (attribute_access e) eqn:Ha.
  - split; [eauto|]. split; [done|]. split; [done|].
    intros _ _. split; [done|]. intros []. done.
  - split; [done|]. split; [done|]. split; [|done].
    split; [done|]. by intros (_ & _ & ?).
Qed.

(** ** AI-generate: variable extraction *)

Lemma find_value_forget_eq name ctx : find_value (forget name ctx) name = JNull.
Proof. unfold find_value, forget; simpl. by rewrite !lookup_delete_eq. Qed.

Lemma find_value_forget_ne name x ctx :
  x ≠ name → find_value (forget name ctx) x = find_value ctx x.
Proof.
  intros Hne. unfold find_value, forget; simpl.
  by rewrite !lookup_delete_ne by done.
Qed.

(** The loop fails at the first name whose value is [None]. *)
Lemma extract_loop_fails pre v post ctx acc :
  Forall (λ x, find_value ctx x ≠ JNull) pre →
  find_value ctx v = JNull →
  extract_loop (pre ++ v :: post)%list ctx acc = Exc (ValueError (not_found_message v)).
Proof.
  intros Hpre Hv. revert acc.
  induction Hpre as [|x pre Hx _ IH]; intros acc; simpl.
  - by rewrite Hv.
  - destruct (find_value ctx x); try done; apply IH.
Qed.

(** C10. The search of a variable stops at the first layer, in the order
    static, profile, runtime, that has the key. When that layer binds the key
    to null, extraction fails with the same [ValueError] as for a variable
    that no layer binds, whatever the later layers hold: the outcome equals
    that of the context with the key removed from every layer. *)
Theorem C10_null_binding_shadows (cfg : config) (ctx : context)
    (pre post : list string) (v : string) :
  variables cfg = (pre ++ v :: post)%list →
  Forall (λ x, find_value ctx x ≠ JNull) pre →
  static ctx !! v = Some JNull
  ∨ (static ctx !! v = None ∧ profile ctx !! v = Some JNull)
  ∨ (static ctx !! v = None ∧ profile ctx !! v = None
     ∧ runtime ctx !! v = Some JNull) →
  _extract_variables cfg ctx = Exc (ValueError (not_found_message v))
  ∧ _extract_variables cfg (forget v ctx) = _extract_variables cfg ctx.
Proof.
  intros Hvars Hpre Hnull.
  assert (Hv : find_value ctx v = JNull).
  { unfold find_value.
    destruct Hnull as [->|[[-> ->]|(-> & -> & ->)]]; done. }
  unfold _extract_variables. rewrite Hvars.
  rewrite (extract_loop_fails pre v post ctx ∅ Hpre Hv). split; [done|].
  apply extract_loop_fails; [|apply find_value_forget_eq].
  eapply Forall_impl; [exact Hpre|]. intros x Hx; simpl in *.
  rewrite find_value_forget_ne; [done|]. intros ->. done.
Qed.

(** ** AI-generate: the retry loop *)





(** ** The orchestrator *)

(** *** Committed rows *)

Lemma get_run_commit d r added stored :
  get_run d (run_id r) = Some stored →
  get_run (commit d r added) (run_id r) = Some r.
Proof.
  unfold get_run, commit; simpl. induction (runs d) as [|x xs IH]; [done|].
  rewrite fmap_cons. cbn [List.find].
  destruct (String.eqb (run_id x) (run_id r)) eqn:Hx.
  - intros _. by rewrite String.eqb_refl.
  - rewrite Hx. apply IH.
Qed.

Lemma run_steps_commit d r added :
  run_steps (commit d r added) = (run_steps d ++ added)%list.
Proof. reflexivity. Qed.

Lemma workflows_commit d r added : workflows (commit d r added) = workflows d.
Proof. reflexivity. Qed.

Lemma get_workflow_commit d r added id :
  get_workflow (commit d r added) id = get_workflow d id.
Proof. reflexivity. Qed.

(** Executors touch the run's context and their collaborators, never the
    tables or the identifier supply. *)
Lemma execute_step_db w run step :
  db (execute_step w run step).1 = db w
  ∧ uuids_drawn (execute_step w run step).1 = uuids_drawn w.
Proof.
  unfold WorkflowEngine.execute_step.
  repeat match goal with
         | |- context [if ?b then _ else _] => destruct b
         | |- context [match step_cfg step with _ => _ end] =>
             destruct (step_cfg step)
         | |- context [let '(_, _) := ?x in _] => destruct x
         end; done.
Qed.

(** The handler of a failing step, when the run row exists. *)
Lemma handle_failure_stored w run step e stored :
  get_run (db w) (run_id run) = Some stored →
  handle_failure w run step e
  = (do_commit (next_uuid uuid4 w).2 (set_status "failed" stored)
       [failed_step (uuid4 (uuids_drawn w)) (run_id run) (step_id step)
          (step_type step) (str_exn e)],
     Raised e).
Proof. unfold WorkflowEngine.handle_failure. by intros ->. Qed.

Lemma handle_failure_recorded w run step e stored :
  get_run (db w) (run_id run) = Some stored →
  run_id stored = run_id run →
  failure_recorded (db (handle_failure w run step e).1) (run_id run) (step_id step) e
  ∧ get_run (db (handle_failure w run step e).1) (run_id run)
    = Some (set_status "failed" stored)
  ∧ run_steps (db (handle_failure w run step e).1)
    = (run_steps (db w)
       ++ [failed_step (uuid4 (uuids_drawn w)) (run_id run) (step_id step)
             (step_type step) (str_exn e)])%list.
Proof.
  intros Hst Hid. rewrite (handle_failure_stored _ _ _ _ _ Hst). simpl.
  assert (Hget : get_run (commit (db w) (set_status "failed" stored)
                   [failed_step (uuid4 (uuids_drawn w)) (run_id run)
                      (step_id step) (step_type step) (str_exn e)]) (run_id run)
                 = Some (set_status "failed" stored)).
  { rewrite <- Hid.
    change (run_id stored) with (run_id (set_status "failed" stored)).
    eapply get_run_commit. simpl. rewrite Hid. exact Hst. }
  split; [|split; [exact Hget|done]].
  eexists _, _, _. split; [apply run_steps_commit|].
  repeat split; [exact Hget|done].
Qed.

(** One pass of the loop on a step whose executor raises. *)
Lemma advance_executor_raises fuel step_map w run c current step w1 e :
  run_current_step run = Some (String c current) →
  step_map !! String c current = Some step →
  execute_step w run step = (w1, Exc e) →
  advance (S fuel) step_map w run = handle_failure w1 run step e.
Proof.
  intros Hcur Hstep Hexec. cbn [WorkflowEngine.advance].
  by rewrite Hcur, Hstep, Hexec.
Qed.
Lemma get_run_id d rid stored : get_run d rid = Some stored → run_id stored = rid.
Proof.
  unfold get_run. intros H. apply find_some in H as [_ H].
  by apply String.eqb_eq.
Qed.

Lemma do_commit_stored w run added stored :
  get_run (db w) (run_id run) = Some stored →
  get_run (db (do_commit w run added)) (run_id run) = Some run.
Proof. intros H. simpl. by eapply get_run_commit. Qed.

(** Whenever the loop raises, at whichever pass, the failure has been
    committed. *)
Lemma advance_raised fuel step_map w run stored w' e :
  get_run (db w) (run_id run) = Some stored →
  advance fuel step_map w run = (w', Raised e) →
  (∃ sid, failure_recorded (db w') (run_id run) sid e)
  ∨ dangling_step (db w') (run_id run) e.
Proof.
  revert w run stored w' e.
  induction fuel as [|fuel IH]; intros w run stored w' e Hst;
    cbn [WorkflowEngine.advance]; [done|].
  destruct (run_current_step run) as [[|c current]|] eqn:Hcur; [done| |done].
  destruct (step_map !! String c current) as [step|] eqn:Hstep.
  - destruct (execute_step w run step) as [w1 [[ctx result]|e1]] eqn:Hexec.
    + pose proof (execute_step_db w run step) as [Hdb _].
      rewrite Hexec in Hdb; simpl in Hdb.
      destruct (result_pause result); [done|].
      cbn [next_uuid]. cbv zeta.
      destruct (negb (opt_truthy (run_current_step
                  (set_current_step (step_next step) (set_context ctx run)))));
        [done|].
      intros Hadv. eapply IH in Hadv; [exact Hadv|].
      eapply (do_commit_stored _ (set_current_step (step_next step)
                                    (set_context ctx run))).
      simpl. rewrite Hdb. exact Hst.
    + pose proof (execute_step_db w run step) as [Hdb _].
      rewrite Hexec in Hdb; simpl in Hdb. rewrite <- Hdb in Hst.
      pose proof (handle_failure_recorded w1 run step e1 stored Hst
                    (get_run_id _ _ _ Hst)) as [Hrec _].
      rewrite (handle_failure_stored _ _ _ _ _ Hst) in Hrec |- *.
      intros [= <- <-]. left. eauto.
  - intros [= <- <-]. right. eexists (String c current), _.
    split; [reflexivity|]. split.
    + eapply (do_commit_stored _ (set_status "failed" run)). exact Hst.
    + reflexivity.
Qed.

Lemma get_run_insert d r d' :
  insert_run d r = Ok d' →
  get_run d' (run_id r) = Some r ∧ workflows d' = workflows d
  ∧ runs d' = (runs d ++ [r])%list ∧ run_steps d' = run_steps d.
Proof.
  unfold insert_run.
  destruct (existsb _ (runs d)) eqn:Hpk; [done|].
  destruct (match run_idempotency_key r with Some _ => _ | None => _ end); [done|].
  intros [= <-]. split; [|done]. unfold get_run; simpl.
  induction (runs d) as [|x xs IH]; simpl in *.
  - by rewrite String.eqb_refl.
  - apply orb_false_iff in Hpk as [-> Hxs]. by apply IH.
Qed.

(** How a raising [_execute_workflow] leaves the tables. *)
Lemma execute_workflow_raised fuel w run stored w' e :
  get_run (db w) (run_id run) = Some stored →
  _execute_workflow fuel w run = (w', Raised e) →
  get_workflow (db w) (run_workflow_id run) = None
  ∨ (∃ sid, failure_recorded (db w') (run_id run) sid e)
  ∨ dangling_step (db w') (run_id run) e.
Proof.
  intros Hst. unfold WorkflowEngine._execute_workflow.
  destruct (get_workflow (db w) (run_workflow_id run)); [|by left].
  intros H. right. by eapply advance_raised.
Qed.

(** The run row stays in the table through the loop, and a returning loop
    returns the row as committed. *)
Lemma advance_stored fuel step_map w run stored w' out :
  get_run (db w) (run_id run) = Some stored →
  (opt_truthy (run_current_step run) = false → stored = run) →
  advance fuel step_map w run = (w', out) →
  ∃ stored', get_run (db w') (run_id run) = Some stored'
             ∧ ∀ r, out = Returned r → stored' = r.
Proof.
  revert w run stored w' out.
  induction fuel as [|fuel IH]; intros w run stored w' out Hst Hsync;
    cbn [WorkflowEngine.advance].
  { intros [= <- <-]. exists stored. split; [done|]. by intros r [=]. }
  destruct (run_current_step run) as [[|c current]|] eqn:Hcur.
  - intros [= <- <-]. exists stored. split; [done|].
    intros r [= <-]. by apply Hsync.
  - destruct (step_map !! String c current) as [step|] eqn:Hstep.
    + destruct (execute_step w run step) as [w1 [[ctx result]|e1]] eqn:Hexec;
        pose proof (execute_step_db w run step) as [Hdb _];
        rewrite Hexec in Hdb; simpl in Hdb; rewrite <- Hdb in Hst.
      * cbn [next_uuid]. cbv zeta. destruct (result_pause result).
        { intros [= <- <-]. eexists. split.
          - eapply (do_commit_stored _ (set_status "waiting" (set_context ctx run))).
            exact Hst.
          - by intros r [= <-]. }
        destruct (negb (opt_truthy (run_current_step
                    (set_current_step (step_next step) (set_context ctx run)))))
          eqn:Hnext.
        { intros [= <- <-]. eexists. split.
          - eapply (do_commit_stored _ (set_status "completed"
                      (set_current_step (step_next step) (set_context ctx run)))).
            eapply (do_commit_stored _ (set_current_step (step_next step)
                                          (set_context ctx run))).
            exact Hst.
          - by intros r [= <-]. }
        intros Hadv. eapply IH in Hadv; [exact Hadv| |done].
        eapply (do_commit_stored _ (set_current_step (step_next step)
                                      (set_context ctx run))).
        exact Hst.
      * rewrite (handle_failure_stored _ _ _ _ _ Hst). intros [= <- <-].
        eexists. split; [|done].
        pose proof (get_run_id _ _ _ Hst) as Hid. rewrite <- Hid.
        eapply (do_commit_stored _ (set_status "failed" stored)).
        simpl. rewrite Hid. exact Hst.
    + intros [= <- <-]. eexists. split; [|done].
      eapply (do_commit_stored _ (set_status "failed" run)). exact Hst.
  - intros [= <- <-]. exists stored. split; [done|].
    intros r [= <-]. by apply Hsync.
Qed.

Lemma execute_workflow_stored fuel w run w' out :
  get_run (db w) (run_id run) = Some run →
  _execute_workflow fuel w run = (w', out) →
  ∃ stored', get_run (db w') (run_id run) = Some stored'
             ∧ ∀ r, out = Returned r → stored' = r.
Proof.
  intros Hst. unfold WorkflowEngine._execute_workflow.
  destruct (get_workflow (db w) (run_workflow_id run)).
  - intros H. eapply advance_stored; [exact Hst|done|exact H].
  - intros [= <- <-]. exists run. split; [done|]. by intros r [=].
Qed.

(** Validation of the resume data keeps the identity of the run. *)
Lemma validate_resume_id w run inputs run' inputs' :
  validate_resume w run inputs = Ok (run', inputs') →
  run_id run' = run_id run ∧ run_workflow_id run' = run_workflow_id run
  ∧ run_idempotency_key run' = run_idempotency_key run.
Proof.
  unfold validate_resume. intros Hval.
  repeat match type of Hval with
         | context [match ?x with _ => _ end] => destruct x; try discriminate
         end; injection Hval as <- <-; done.
Qed.

Lemma prepare_resume_id w run inputs run' :
  prepare_resume w run inputs = Ok run' →
  run_id run' = run_id run ∧ run_workflow_id run' = run_workflow_id run
  ∧ run_idempotency_key run' = run_idempotency_key run
  ∧ run_status run' = "running".
Proof.
  unfold prepare_resume. intros Hprep.
  destruct inputs as [inputs|]; [|by injection Hprep as <-].
  destruct (bool_decide (inputs = ∅)); [by injection Hprep as <-|].
  destruct (validate_resume w run inputs) as [[r i]|] eqn:Hval; [|done].
  apply validate_resume_id in Hval as (? & ? & ?).
  by injection Hprep as <-.
Qed.

(** A raising [start_run] either was refused before any row was written, or
    raised from the advance loop with the failure committed. *)
Lemma start_run_raised fuel w workflow_id inputs key w' e :
  start_run fuel w workflow_id inputs key = (w', Raised e) →
  db w' = db w
  ∨ ∃ rid, (∃ sid, failure_recorded (db w') rid sid e)
           ∨ dangling_step (db w') rid e.
Proof.
  unfold WorkflowEngine.start_run.
  destruct (match key with Some (String _ _ as k) => _ | _ => None end); [done|].
  destruct (get_workflow (db w) workflow_id) as [wf|] eqn:Hwf;
    [|intros [= <- _]; by left].
  cbn [next_uuid]. cbv zeta.
  match goal with |- context [insert_run ?d ?r] =>
    destruct (insert_run d r) as [d'|e'] eqn:Hins end;
    [|intros [= <- _]; by left].
  apply get_run_insert in Hins as (Hget & Hwfs & _ & _).
  intros Hexec. right. eexists.
  eapply execute_workflow_raised in Hexec as [Hnone|H]; [|exact H|exact Hget].
  unfold get_workflow in *. simpl in *. rewrite Hwfs in Hnone. congruence.
Qed.

(** A raising [resume_run] either was refused before anything was committed
    (unknown run, run not waiting, invalid resume data), or found the run's
    workflow gone, or raised from the advance loop with the failure
    committed. *)
Lemma resume_run_raised fuel w rid inputs w' e :
  resume_run fuel w rid inputs = (w', Raised e) →
  db w' = db w
  ∨ (∃ run, get_run (db w) rid = Some run
            ∧ get_workflow (db w) (run_workflow_id run) = None)
  ∨ (∃ sid, failure_recorded (db w') rid sid e)
  ∨ dangling_step (db w') rid e.
Proof.
  unfold WorkflowEngine.resume_run.
  destruct (get_run (db w) rid) as [run|] eqn:Hrun; [|intros [= <- _]; by left].
  destruct (negb _); [intros [= <- _]; by left|].
  destruct (prepare_resume w run inputs) as [run'|e'] eqn:Hprep;
    [|intros [= <- _]; by left].
  apply prepare_resume_id in Hprep as (Hid & Hwf & _).
  rewrite (get_run_id _ _ _ Hrun) in Hid.
  assert (Hst : get_run (db (do_commit w run' [])) (run_id run') = Some run').
  { eapply do_commit_stored. rewrite Hid. exact Hrun. }
  destruct (_execute_workflow fuel (do_commit w run' []) run') as [w1 [r| |]] eqn:Hexec.
  - destruct (execute_workflow_stored _ _ _ _ _ Hst Hexec) as (stored' & Hlast & _).
    rewrite Hid in Hlast. by rewrite Hlast.
  - intros [= <- <-].
    eapply execute_workflow_raised in Hexec as [Hnone|H]; [| |exact Hst].
    + right; left. exists run. split; [done|].
      simpl in Hnone. by rewrite get_workflow_commit, Hwf in Hnone.
    + right; right. by rewrite Hid in H.
  - done.
Qed.

(** *** Every way in which a call can raise *)

Lemma advance_raised_history fuel step_map w run stored w' e :
  get_run (db w) (run_id run) = Some stored →
  advance fuel step_map w run = (w', Raised e) →
  (∃ sid, failure_recorded (db w') (run_id run) sid e)
  ∨ (dangling_step (db w') (run_id run) e ∧ only_completed_added (db w) (db w')).
Proof.
  revert w run stored w' e.
  induction fuel as [|fuel IH]; intros w run stored w' e Hst;
    cbn [WorkflowEngine.advance]; [done|].
  destruct (run_current_step run) as [[|c current]|] eqn:Hcur; [done| |done].
  destruct (step_map !! String c current) as [step|] eqn:Hstep.
  - destruct (execute_step w run step) as [w1 [[ctx result]|e1]] eqn:Hexec.
    + pose proof (execute_step_db w run step) as [Hdb _].
      rewrite Hexec in Hdb; simpl in Hdb.
      destruct (result_pause result); [done|].
      cbn [next_uuid]. cbv zeta.
      destruct (negb (opt_truthy (run_current_step
                  (set_current_step (step_next step) (set_context ctx run)))));
        [done|].
      intros Hadv. eapply IH in Hadv as [Hrec|[Hd (added & Hadded & Hall)]].
      * left. exact Hrec.
      * right. split; [exact Hd|].
        eexists (_ :: added). split.
        -- rewrite Hadded. cbn [db do_commit set_db commit run_steps].
           rewrite Hdb, <- app_assoc. reflexivity.
        -- constructor; [reflexivity|exact Hall].
      * eapply (do_commit_stored _ (set_current_step (step_next step)
                                      (set_context ctx run))).
        simpl. rewrite Hdb. exact Hst.
    + pose proof (execute_step_db w run step) as [Hdb _].
      rewrite Hexec in Hdb; simpl in Hdb. rewrite <- Hdb in Hst.
      pose proof (handle_failure_recorded w1 run step e1 stored Hst
                    (get_run_id _ _ _ Hst)) as [Hrec _].
      rewrite (handle_failure_stored _ _ _ _ _ Hst) in Hrec |- *.
      intros [= <- <-]. left. eauto.
  - intros [= <- <-]. right. split.
    + eexists (String c current), _.
      split; [reflexivity|]. split.
      * eapply (do_commit_stored _ (set_status "failed" run)). exact Hst.
      * reflexivity.
    + exists []. split; [|constructor].
      cbn [db do_commit set_db commit run_steps]. reflexivity.
Qed.

(** A raising [start_run] either wrote nothing (unknown workflow, duplicate
    identifier or key), or raised from the advance loop: with the failed run
    step and the failed status committed, or, for a current step that names
    no step, with the failed status alone. *)
Lemma start_run_raised_cases fuel w workflow_id inputs key w' e :
  start_run fuel w workflow_id inputs key = (w', Raised e) →
  db w' = db w
  ∨ ∃ rid, (∃ sid, failure_recorded (db w') rid sid e)
           ∨ (dangling_step (db w') rid e ∧ only_completed_added (db w) (db w')).
Proof.
  unfold WorkflowEngine.start_run.
  destruct (match key with Some (String _ _ as k) => _ | _ => None end); [done|].
  destruct (get_workflow (db w) workflow_id) as [wf|] eqn:Hwf;
    [|intros [= <- _]; by left].
  cbn [next_uuid]. cbv zeta.
  match goal with |- context [insert_run ?d ?r] =>
    destruct (insert_run d r) as [d'|e'] eqn:Hins end;
    [|intros [= <- _]; by left].
  apply get_run_insert in Hins as (Hget & Hwfs & _ & Hsteps).
  cbn [db] in Hwfs, Hsteps.
  unfold WorkflowEngine._execute_workflow.
  match goal with |- context [get_workflow ?d ?i] =>
    replace (get_workflow d i) with (Some wf)
      by (unfold get_workflow; cbn [db set_db run_workflow_id]; by rewrite Hwfs)
  end.
  intros Hadv. right. eexists.
  eapply advance_raised_history in Hadv as [Hrec|[Hd (added & Hadded & Hall)]];
    [left; exact Hrec| |exact Hget].
  right. split; [exact Hd|]. exists added. split; [|exact Hall].
  rewrite Hadded. cbn [db set_db]. by rewrite Hsteps.
Qed.

(** A raising [resume_run] either wrote nothing (unknown run, run not
    waiting, invalid resume data), or found the workflow row of the run
    gone, after committing the run with status running and the inputs
    merged, or raised from the advance loop. *)
Lemma resume_run_raised_cases fuel w rid inputs w' e :
  resume_run fuel w rid inputs = (w', Raised e) →
  w' = w
  ∨ (∃ r r',
       get_run (db w) rid = Some r
       ∧ get_workflow (db w) (run_workflow_id r) = None
       ∧ prepare_resume w r inputs = Ok r'
       ∧ w' = do_commit w r' []
       ∧ get_run (db w') rid = Some r'
       ∧ run_status r' = "running"
       ∧ runtime (run_context r') = merged_runtime inputs (runtime (run_context r))
       ∧ run_steps (db w') = run_steps (db w)
       ∧ e = ValueError ("Workflow " +:+ run_workflow_id r +:+ " not found"))
  ∨ (∃ sid, failure_recorded (db w') rid sid e)
  ∨ (dangling_step (db w') rid e ∧ only_completed_added (db w) (db w')).
Proof.
  unfold WorkflowEngine.resume_run.
  destruct (get_run (db w) rid) as [run|] eqn:Hrun; [|intros [= <- _]; by left].
  destruct (negb _); [intros [= <- _]; by left|].
  destruct (prepare_resume w run inputs) as [run'|e'] eqn:Hprep;
    [|intros [= <- _]; by left].
  pose proof Hprep as Hprep'.
  apply prepare_resume_id in Hprep' as (Hid & Hwf & _ & Hrunning).
  rewrite (get_run_id _ _ _ Hrun) in Hid.
  assert (Hst : get_run (db (do_commit w run' [])) (run_id run') = Some run').
  { eapply do_commit_stored. rewrite Hid. exact Hrun. }
  unfold WorkflowEngine._execute_workflow.
  change (get_workflow (db (do_commit w run' [])) (run_workflow_id run'))
    with (get_workflow (commit (db w) run' []) (run_workflow_id run')).
  rewrite get_workflow_commit, Hwf.
  destruct (get_workflow (db w) (run_workflow_id run)) as [wf|] eqn:Hw.
  - destruct (WorkflowEngine.advance _ _ _ _ _ fuel _ (do_commit w run' []) run')
      as [w1 [r| |]] eqn:Hadv.
    + destruct (advance_stored _ _ _ _ _ _ _ Hst (λ _, eq_refl) Hadv)
        as (stored' & Hlast & _).
      rewrite Hid in Hlast. by rewrite Hlast.
    + intros [= <- <-]. right; right.
      eapply advance_raised_history in Hadv as [Hrec|[Hd (added & Hadded & Hall)]];
        [left; by rewrite Hid in Hrec| |exact Hst].
      right. rewrite Hid in Hd. split; [exact Hd|].
      exists added. split; [|exact Hall]. rewrite Hadded.
      cbn [db do_commit set_db commit run_steps]. by rewrite app_nil_r.
    + done.
  - intros [= <- <-]. right; left. exists run, run'.
    split; [reflexivity|]. split; [exact Hw|]. split; [exact Hprep|].
    split; [reflexivity|]. split; [by rewrite <- Hid|]. split; [exact Hrunning|].
    split.
    + revert Hprep. unfold prepare_resume, validate_resume, merged_runtime.
      destruct inputs as [given|]; [|by intros [= <-]].
      destruct (bool_decide_reflect (given = ∅)) as [->|Hne].
      * intros [= <-]. cbn. by rewrite (left_id_L ∅ (∪)).
      * destruct (run_current_step run) as [[|c n]|]; rewrite ?Hw;
          by intros [= <-].
    + split; [|reflexivity].
      cbn [db do_commit set_db commit run_steps]. by rewrite app_nil_r.
Qed.

(** C1, amended. When the executor of the current step raises [e], the pass
    of the loop raises the same [e] after committing, on top of the tables as
    last committed (what the session held uncommitted is rolled back), one
    more run step with status failed and error [str(e)] and the run row with
    status failed. So a [start_run] or [resume_run] that raises has done one
    of four things. It was refused before anything was committed (unknown
    workflow on start, duplicate identifier or key, unknown run, run not
    waiting, invalid resume data): nothing is written. Or, on resume only,
    the workflow row of the run is gone: the run is committed with status
    running and the inputs merged, the call raises "Workflow ... not found",
    no run step is recorded and the run is not marked failed. Or the
    current step names no step of the workflow: the run is marked failed and
    no failed run step is recorded (the history grew by the completed steps
    that came before only). Or an executor raised: the failed run step and
    the failed status are committed. *)
Theorem C1_executor_failure_recorded (fuel : nat) (step_map : gmap string Step)
    (w : world) (run : Run) (c : ascii) (current : string) (step : Step)
    (w1 : world) (e : exn) (stored : Run) :
  (run_current_step run = Some (String c current) →
   step_map !! String c current = Some step →
   execute_step w run step = (w1, Exc e) →
   get_run (db w) (run_id run) = Some stored →
   ∃ w', advance (S fuel) step_map w run = (w', Raised e)
     ∧ run_steps (db w')
       = (run_steps (db w)
          ++ [failed_step (uuid4 (uuids_drawn w)) (run_id run) (step_id step)
                (step_type step) (str_exn e)])%list
     ∧ get_run (db w') (run_id run) = Some (set_status "failed" stored)
     ∧ workflows (db w') = workflows (db w)
     ∧ failure_recorded (db w') (run_id run) (step_id step) e)
  ∧ (∀ n workflow_id inputs key w' e',
       start_run n w workflow_id inputs key = (w', Raised e') →
       db w' = db w
       ∨ ∃ rid, (∃ sid, failure_recorded (db w') rid sid e')
                ∨ (dangling_step (db w') rid e'
                   ∧ only_completed_added (db w) (db w')))
  ∧ (∀ n rid inputs w' e',
       resume_run n w rid inputs = (w', Raised e') →
       w' = w
       ∨ (∃ r r',
            get_run (db w) rid = Some r
            ∧ get_workflow (db w) (run_workflow_id r) = None
            ∧ prepare_resume w r inputs = Ok r'
            ∧ w' = do_commit w r' []
            ∧ get_run (db w') rid = Some r'
            ∧ run_status r' = "running"
            ∧ runtime (run_context r')
              = merged_runtime inputs (runtime (run_context r))
            ∧ run_steps (db w') = run_steps (db w)
            ∧ e' = ValueError ("Workflow " +:+ run_workflow_id r +:+ " not found"))
       ∨ (∃ sid, failure_recorded (db w') rid sid e')
       ∨ (dangling_step (db w') rid e' ∧ only_completed_added (db w) (db w'))).
Proof.
  split; [|split].
  - intros Hcur Hstep Hexec Hst.
    pose proof (execute_step_db w run step) as [Hdb Hids].
    rewrite Hexec in Hdb, Hids; simpl in Hdb, Hids. rewrite <- Hdb in Hst.
    pose proof (handle_failure_recorded w1 run step e stored Hst
                  (get_run_id _ _ _ Hst)) as (Hrec & Hget & Hsteps).
    rewrite (advance_executor_raises fuel step_map w run c current step w1 e
               Hcur Hstep Hexec).
    rewrite Hids, Hdb in Hsteps.
    rewrite (handle_failure_stored _ _ _ _ _ Hst) in Hrec, Hget, Hsteps |- *.
    eexists. split; [reflexivity|]. split; [exact Hsteps|].
    split; [exact Hget|]. split; [|exact Hrec]. simpl. by rewrite Hdb.
  - intros n workflow_id inputs key w' e'. apply start_run_raised_cases.
  - intros n rid inputs w' e'. apply resume_run_raised_cases.
Qed.

(** *** Pausing *)

Lemma advance_pause fuel step_map w run c current step w1 ctx result :
  run_current_step run = Some (String c current) →
  step_map !! String c current = Some step →
  execute_step w run step = (w1, Ok (ctx, result)) →
  result_pause result = true →
  advance (S fuel) step_map w run
  = (do_commit (next_uuid uuid4 w1).2 (set_status "waiting" (set_context ctx run))
       [completed_step (uuid4 (uuids_drawn w1)) (set_context ctx run) step result],
     Returned (set_status "waiting" (set_context ctx run))).
Proof.
  intros Hcur Hstep Hexec Hpause. cbn [WorkflowEngine.advance].
  rewrite Hcur, Hstep, Hexec. cbn [next_uuid]. cbv zeta. by rewrite Hpause.
Qed.



(** *** Idempotent start *)

Lemma commit_last old run run' added d :
  runs d = (old ++ [run])%list →
  run_id run' = run_id run →
  Forall (λ r, run_id r ≠ run_id run) old →
  runs (commit d run' added) = (old ++ [run'])%list.
Proof.
  intros Hruns Hid Hold. unfold commit; simpl. rewrite Hruns, fmap_app.
  clear Hruns. f_equal.
  - induction Hold as [|x xs Hx _ IH]; [done|]. rewrite fmap_cons, IH. f_equal.
    rewrite Hid. by apply String.eqb_neq in Hx as ->.
  - simpl. by rewrite Hid, String.eqb_refl.
Qed.

Lemma do_commit_last old run run' added w :
  runs (db w) = (old ++ [run])%list →
  run_id run' = run_id run →
  Forall (λ r, run_id r ≠ run_id run) old →
  runs (db (do_commit w run' added)) = (old ++ [run'])%list.
Proof.
  intros H1 H2 H3. exact (commit_last old run run' added (db w) H1 H2 H3).
Qed.

Lemma get_run_last old run :
  Forall (λ r, run_id r ≠ run_id run) old →
  List.find (λ r, String.eqb (run_id r) (run_id run)) (old ++ [run])%list = Some run.
Proof.
  induction 1 as [|x xs Hx _ IH]; simpl.
  - by rewrite String.eqb_refl.
  - by apply String.eqb_neq in Hx as ->.
Qed.

(** While the loop runs on the run that is the last row of the table, the
    rows before it stay as they are and the last row follows the session. *)
Lemma advance_runs fuel step_map w run old w' out :
  runs (db w) = (old ++ [run])%list →
  Forall (λ r, run_id r ≠ run_id run) old →
  advance fuel step_map w run = (w', out) →
  ∃ last, runs (db w') = (old ++ [last])%list
          ∧ run_id last = run_id run
          ∧ run_idempotency_key last = run_idempotency_key run
          ∧ ∀ r, out = Returned r → last = r.
Proof.
  revert w run w' out.
  induction fuel as [|fuel IH]; intros w run w' out Hruns Hold;
    cbn [WorkflowEngine.advance].
  { intros [= <- <-]. exists run. repeat split; try done; by intros r [=]. }
  destruct (run_current_step run) as [[|c current]|] eqn:Hcur.
  - intros [= <- <-]. exists run. repeat split; try done; by intros r [= <-].
  - destruct (step_map !! String c current) as [step|] eqn:Hstep.
    + destruct (execute_step w run step) as [w1 [[ctx result]|e1]] eqn:Hexec;
        pose proof (execute_step_db w run step) as [Hdb _];
        rewrite Hexec in Hdb; simpl in Hdb; rewrite <- Hdb in Hruns.
      * cbn [next_uuid]. cbv zeta. destruct (result_pause result).
        { intros [= <- <-]. eexists. split; [|split; [|split]].
          - eapply (do_commit_last old run); [exact Hruns|done|exact Hold].
          - done.
          - done.
          - by intros r [= <-]. }
        destruct (negb (opt_truthy (run_current_step
                    (set_current_step (step_next step) (set_context ctx run))))).
        { intros [= <- <-]. eexists. split; [|split; [|split]].
          - eapply (do_commit_last old (set_current_step (step_next step)
                                           (set_context ctx run)));
              [|done|exact Hold].
            eapply (do_commit_last old run); [exact Hruns|done|exact Hold].
          - done.
          - done.
          - by intros r [= <-]. }
        intros Hadv. eapply IH in Hadv; [exact Hadv| |exact Hold].
        eapply (do_commit_last old run); [exact Hruns|done|exact Hold].
      * unfold WorkflowEngine.handle_failure, get_run. rewrite Hruns.
        rewrite (get_run_last old run Hold). cbn [next_uuid]. cbv zeta.
        intros [= <- <-]. eexists. split; [|split; [|split]].
        -- eapply (do_commit_last old run); [exact Hruns|done|exact Hold].
        -- done.
        -- done.
        -- by intros r [=].
    + intros [= <- <-]. eexists. split; [|split; [|split]].
      * eapply (do_commit_last old run); [exact Hruns|done|exact Hold].
      * done.
      * done.
      * by intros r [=].
  - intros [= <- <-]. exists run. repeat split; try done; by intros r [= <-].
Qed.

Lemma get_run_by_key_last old last k :
  List.find (key_is k) old = None →
  run_idempotency_key last = Some k →
  List.find (key_is k) (old ++ [last])%list = Some last.
Proof.
  intros Hold Hkey. induction old as [|x xs IH]; simpl in *.
  - unfold key_is. by rewrite Hkey, String.eqb_refl.
  - destruct (key_is k x); [done|]. by apply IH.
Qed.

(** After a [start_run] with a non-empty key has returned, the key finds
    the returned run. *)
Lemma start_run_key_stored fuel w workflow_id inputs k w1 r1 :
  k ≠ EmptyString →
  start_run fuel w workflow_id inputs (Some k) = (w1, Returned r1) →
  get_run_by_key (db w1) k = Some r1.
Proof.
  intros Hk. unfold WorkflowEngine.start_run.
  destruct k as [|a k]; [done|]. set (key := String a k) in *.
  destruct (get_run_by_key (db w) key) as [existing|] eqn:Hlookup.
  { by intros [= <- <-]. }
  destruct (get_workflow (db w) workflow_id) as [wf|]; [|done].
  cbn [next_uuid]. cbv zeta.
  match goal with |- context [insert_run ?d ?r] =>
    destruct (insert_run d r) as [d'|e'] eqn:Hins; [|done];
    set (run := r) in * end.
  pose proof Hins as Hins'. apply get_run_insert in Hins' as (_ & _ & Hruns & _).
  assert (Hold : Forall (λ r, run_id r ≠ run_id run) (runs (db w))).
  { unfold insert_run in Hins. simpl in Hins.
    destruct (existsb _ (runs (db w))) eqn:Hpk; [done|].
    apply Forall_forall. intros x Hx Heq.
    assert (existsb (λ r', String.eqb (run_id r') (run_id run)) (runs (db w)) = true)
      as Hex; [|simpl in Hex; congruence].
    apply existsb_exists. exists x. split; [by apply list_elem_of_In|].
    by apply String.eqb_eq. }
  unfold WorkflowEngine._execute_workflow.
  destruct (get_workflow _ _); [|done].
  intros Hadv. eapply advance_runs in Hadv as (last & Hlast & _ & Hkey & Hret);
    [|exact Hruns|exact Hold].
  rewrite (Hret r1 eq_refl) in *. unfold get_run_by_key. rewrite Hlast.
  by apply get_run_by_key_last.
Qed.

(** C9, amended. The lookup is by idempotency key alone and comes before the
    workflow lookup: a [start_run] whose key is non-empty and is the key of a
    stored run returns that run and changes nothing, whatever workflow id is
    supplied (another workflow's, or that of no workflow at all); in
    particular it does not raise. An empty key is not looked up. *)
Theorem C9_idempotency_lookup_by_key_alone (fuel : nat) (w : world)
    (workflow_id : string) (inputs : gmap string json) (k : string)
    (existing : Run) :
  k ≠ EmptyString →
  get_run_by_key (db w) k = Some existing →
  start_run fuel w workflow_id inputs (Some k) = (w, Returned existing)
  ∧ (get_workflow (db w) workflow_id = None →
     ∀ msg, start_run fuel w workflow_id inputs (Some k)
            ≠ (w, Raised (ValueError msg))).
Proof.
  intros Hk Hlookup.
  assert (Hstart : start_run fuel w workflow_id inputs (Some k)
                   = (w, Returned existing)).
  { unfold WorkflowEngine.start_run.
    destruct k as [|a k]; [done|]. by rewrite Hlookup. }
  split; [exact Hstart|]. intros _ msg. by rewrite Hstart.
Qed.

(** *** Resuming an approval *)

(** C6, amended. On [resume_run] with non-empty inputs of a run whose current
    step is an approval step: unless [inputs["approval"]] is an object with
    an [approved] key the resume data is refused with a [ValueError] and
    nothing is written; the type of [approved] is not checked. Otherwise,
    with an object at [<step_id>_approval] of the runtime context, that
    object gets [status] "approved" when [approved] is truthy and "rejected"
    when not, and [comments]; the inputs are then merged over the runtime
    context, and the run enters the advance loop at the step's [next],
    whatever the decision. *)
Theorem C6_approval_resume (w : world) (run : Run) (c : ascii) (current : string)
    (workflow : Workflow) (step : Step) (inputs : gmap string json) :
  run_current_step run = Some (String c current) →
  get_workflow (db w) (run_workflow_id run) = Some workflow →
  build_step_map (wf_steps workflow) !! String c current = Some step →
  step_type step = "approval" →
  inputs ≠ ∅ →
  ((¬ ∃ approval_data approved,
        inputs !! "approval" = Some (JObj approval_data)
        ∧ approval_data !! "approved" = Some approved) →
   ∃ msg, prepare_resume w run (Some inputs) = Exc (ValueError msg)
     ∧ ∀ fuel, get_run (db w) (run_id run) = Some run →
               run_status run = "waiting" →
               resume_run fuel w (run_id run) (Some inputs)
               = (w, Raised (ValueError msg)))
  ∧ (∀ approval_data approved meta,
       inputs !! "approval" = Some (JObj approval_data) →
       approval_data !! "approved" = Some approved →
       runtime (run_context run) !! (String c current +:+ "_approval")
         = Some (JObj meta) →
       ∃ run',
         prepare_resume w run (Some inputs) = Ok run'
         ∧ run_current_step run' = step_next step
         ∧ run_status run' = "running"
         ∧ run_id run' = run_id run
         ∧ runtime (run_context run')
           = inputs ∪ <[String c current +:+ "_approval" :=
                          decided approval_data meta approved]>
                        (runtime (run_context run))
         ∧ (inputs !! (String c current +:+ "_approval") = None →
            runtime (run_context run') !! (String c current +:+ "_approval")
            = Some (decided approval_data meta approved))
         ∧ ∀ fuel, get_run (db w) (run_id run) = Some run →
                   run_status run = "waiting" →
                   resume_run fuel w (run_id run) (Some inputs)
                   = match _execute_workflow fuel (do_commit w run' []) run' with
                     | (w', Returned _) =>
                       match get_run (db w') (run_id run) with
                       | Some r => (w', Returned r)
                       | None =>
                         (w', Raised (NoResultFound "Could not refresh instance"))
                       end
                     | other => other
                     end).
Proof.
  intros Hcur Hwf Hstep Hty Hne.
  assert (Hprep : prepare_resume w run (Some inputs)
            = match record_approval (String c current) inputs (run_context run) with
              | Exc e => Exc e
              | Ok ctx =>
                Ok (set_status "running"
                      (set_context (set_runtime ctx (inputs ∪ runtime ctx))
                         (set_current_step (step_next step) (set_context ctx run))))
              end).
  { unfold prepare_resume, validate_resume.
    rewrite bool_decide_eq_false_2 by done.
    rewrite Hcur, Hwf, Hstep, Hty. simpl String.eqb. cbv iota.
    by destruct (record_approval _ _ _). }
  assert (Hresume : ∀ fuel, get_run (db w) (run_id run) = Some run →
            run_status run = "waiting" →
            resume_run fuel w (run_id run) (Some inputs)
            = match prepare_resume w run (Some inputs) with
              | Exc e => (w, Raised e)
              | Ok run' =>
                match _execute_workflow fuel (do_commit w run' []) run' with
                | (w', Returned _) =>
                  match get_run (db w') (run_id run) with
                  | Some r => (w', Returned r)
                  | None => (w', Raised (NoResultFound "Could not refresh instance"))
                  end
                | other => other
                end
              end).
  { intros fuel Hget Hst. unfold WorkflowEngine.resume_run.
    rewrite Hget, Hst. simpl negb. cbv iota. reflexivity. }
  split.
  - intros Hshape.
    assert (∃ msg, record_approval (String c current) inputs (run_context run)
                   = Exc (ValueError msg)) as [msg Hrec].
    { unfold record_approval.
      destruct (inputs !! "approval") as [[| | | | |approval_data]|]; eauto.
      destruct (approval_data !! "approved") as [approved|] eqn:Happ; eauto.
      destruct Hshape; eauto. }
    exists msg. rewrite Hprep, Hrec. split; [done|].
    intros fuel Hget Hst. by rewrite (Hresume fuel Hget Hst), Hprep, Hrec.
  - intros approval_data approved meta Hin Happ Hmeta.
    assert (Hrec : record_approval (String c current) inputs (run_context run)
              = Ok (set_runtime (run_context run)
                      (<[String c current +:+ "_approval" :=
                           decided approval_data meta approved]>
                       (runtime (run_context run))))).
    { unfold record_approval. by rewrite Hin, Happ, Hmeta. }
    eexists. split; [rewrite Hprep, Hrec; reflexivity|].
    split; [done|]. split; [done|]. split; [done|]. split; [done|]. split.
    + intros Hno. simpl. rewrite lookup_union_r by done.
      apply lookup_insert_eq.
    + intros fuel Hget Hst.
      by rewrite (Hresume fuel Hget Hst), Hprep, Hrec.
Qed.

(** *** What a returning loop leaves *)

Lemma build_step_map_id steps k step :
  build_step_map steps !! k = Some step → step_id step = k.
Proof.
  unfold build_step_map.
  assert (Hgen : ∀ acc : gmap string Step,
            (∀ k s, acc !! k = Some s → step_id s = k) →
            ∀ k s, fold_left (λ m st, <[step_id st := st]> m) steps acc !! k = Some s →
                   step_id s = k).
  { induction steps as [|st steps IH]; intros acc Hacc; simpl; [exact Hacc|].
    apply IH. intros k' s'. destruct (decide (step_id st = k')) as [<-|Hne].
    - rewrite lookup_insert_eq. by intros [= <-].
    - rewrite lookup_insert_ne by done. apply Hacc. }
  apply Hgen. intros k' s'. by rewrite lookup_empty.
Qed.

(** A returning loop either never ran a step (the current step was already
    empty, and status and tables are as before), or paused with the current
    step still the step that paused, or completed with an empty current
    step. *)
Lemma advance_returned fuel step_map w run w' r :
  (∀ k step, step_map !! k = Some step → step_id step = k) →
  advance fuel step_map w run = (w', Returned r) →
  (opt_truthy (run_current_step run) = false ∧ r = run ∧ w' = w)
  ∨ (run_status r = "waiting" ∧ opt_truthy (run_current_step r) = true
     ∧ paused_at_current (db w') r)
  ∨ (run_status r = "completed" ∧ opt_truthy (run_current_step r) = false).
Proof.
  intros Hids. revert w run w' r.
  induction fuel as [|fuel IH]; intros w run w' r; cbn [WorkflowEngine.advance];
    [done|].
  destruct (run_current_step run) as [[|c current]|] eqn:Hcur.
  - intros [= <- <-]. by left.
  - destruct (step_map !! String c current) as [step|] eqn:Hstep; [|done].
    destruct (execute_step w run step) as [w1 [[ctx result]|e1]] eqn:Hexec.
    + cbn [next_uuid]. cbv zeta. destruct (result_pause result) eqn:Hpause.
      { intros [= <- <-]. right; left. split; [done|].
        split; [simpl; by rewrite Hcur|].
        eexists _, _, result. split; [apply run_steps_commit|].
        repeat split; try done. simpl. by rewrite Hcur, (Hids _ _ Hstep). }
      destruct (negb (opt_truthy (run_current_step
                  (set_current_step (step_next step) (set_context ctx run)))))
        eqn:Hnext.
      { intros [= <- <-]. right; right. split; [done|].
        by apply negb_true_iff in Hnext. }
      intros Hadv. apply IH in Hadv as [(Hfalse & _)|H]; [|by right].
      apply negb_false_iff in Hnext. congruence.
    + unfold WorkflowEngine.handle_failure.
      destruct (get_run (db w1) (run_id run)); [|done].
      cbn [next_uuid]. cbv zeta. done.
  - intros [= <- <-]. by left.
Qed.

(** ** Further properties of the executors *)

(** In the namespace a conditional expression sees, a name bound in the
    runtime layer has its runtime value, otherwise its profile value,
    otherwise its static value. *)
Lemma merge_namespace_precedence (ctx : context) (k : string) :
  _merge_context_namespaces ctx !! k
  = match runtime ctx !! k with
    | Some v => Some v
    | None =>
      match profile ctx !! k with
      | Some v => Some v
      | None => static ctx !! k
      end
    end.
Proof.
  unfold _merge_context_namespaces. rewrite !lookup_union.
  destruct (runtime ctx !! k), (profile ctx !! k), (static ctx !! k); done.
Qed.

(** X1. The two executors that read the context resolve a name bound in
    several layers in opposite orders: AI-generate takes the static binding,
    a conditional sees the runtime one. *)
Theorem lookup_orders_disagree (ctx : context) (k : string) (a b : json) :
  static ctx !! k = Some a →
  runtime ctx !! k = Some b →
  find_value ctx k = a ∧ _merge_context_namespaces ctx !! k = Some b.
Proof.
  intros Ha Hb. split.
  - unfold find_value. by rewrite Ha.
  - by rewrite merge_namespace_precedence, Hb.
Qed.


(** X3. What a conditional step raises: a [ValueError], a [NameError] whose
    message is the interpreter's own and says "not defined", or the very
    exception the interpreter raised when that is neither a [SyntaxError]
    nor a [TypeError]. *)
Theorem conditional_execute_raises (when : string) (ctx : context)
    (sid : string) (e : exn) :
  ConditionalExecutor.execute asteval when ctx sid = Exc e →
  (∃ msg, e = ValueError msg)
  ∨ (∃ msg, e = NameError msg ∧ contains "not defined" msg = true
            ∧ asteval when (_merge_context_namespaces ctx) = InterpError msg)
  ∨ (asteval when (_merge_context_namespaces ctx) = InterpRaises e
     ∧ ∀ msg, e ≠ SyntaxError msg ∧ e ≠ TypeError msg).
Proof.
  unfold ConditionalExecutor.execute. rewrite validate_expression_cases.
  destruct (all_space when); [intros [= <-]; eauto|].
  destruct (256 <? String.length when)%nat; [intros [= <-]; eauto|].
  destruct (attribute_access when); [intros [= <-]; eauto|].
  unfold evaluate.
  destruct (asteval when (_merge_context_namespaces ctx)) as [v|msg|e'] eqn:Hi;
    [done| |].
  - destruct (contains "not defined" msg) eqn:Hnd.
    + intros [= <-]. right; left. eauto.
    + repeat case_match; intros [= <-]; eauto.
  - destruct e'; intros [= <-]; eauto;
      right; right; (split; [done|]); intros msg'; split; discriminate.
Qed.




(** X6. [validate_fields] reports the first rejected field in the order of
    the configuration, and for a present field an unsupported declared type
    before a value that is not a string. *)
Theorem validate_fields_first_error (pre post : list StepConfigField)
    (f : StepConfigField) (inputs : gmap string json) :
  Forall (λ g, ¬ field_rejected inputs g) pre →
  field_rejected inputs f →
  FormExecutor.validate_fields (pre ++ f :: post)%list inputs
  = Exc (ValueError (rejection_message inputs f)).
Proof.
  intros Hpre' Hf. apply field_rejected_refused in Hf.
  assert (Hpre : Forall (λ g, ¬ field_refused inputs g) pre).
  { eapply Forall_impl; [exact Hpre'|]. intros g Hg Hr. apply Hg.
    by apply field_rejected_refused. }
  clear Hpre'.
  unfold FormExecutor.validate_fields. generalize (∅ : gmap string json).
  induction Hpre as [|g pre Hg _ IH]; intros acc; cbn [FormExecutor.validate_loop app].
  - unfold field_refused in Hf. unfold rejection_message.
    destruct (inputs !! field_key f) as [v|].
    + destruct (FormExecutor.supported_type (field_type f)) eqn:Ht; simpl.
      * rewrite bool_decide_eq_true_2 by (by apply supported_type_spec).
        destruct Hf as [?| ->]; done.
      * rewrite bool_decide_eq_false_2; [done|].
        rewrite <- supported_type_spec. congruence.
    + by rewrite Hf.
  - unfold field_refused in Hg.
    destruct (inputs !! field_key g) as [v|].
    + destruct (FormExecutor.supported_type (field_type g)); simpl;
        [|by destruct Hg; left].
      destruct (is_str v); simpl; [apply IH|by destruct Hg; right].
    + destruct (field_required g); [done|apply IH].
Qed.

(** ** Further properties of the orchestrator *)

(** One pass of the loop on a step whose executor returns a pause. *)
Lemma advance_pause_stored fuel step_map w run c current step w1 ctx result stored :
  run_current_step run = Some (String c current) →
  step_map !! String c current = Some step →
  execute_step w run step = (w1, Ok (ctx, result)) →
  result_pause result = true →
  get_run (db w) (run_id run) = Some stored →
  ∃ w',
    advance (S fuel) step_map w run
    = (w', Returned (set_status "waiting" (set_context ctx run)))
    ∧ get_run (db w') (run_id run) = Some (set_status "waiting" (set_context ctx run))
    ∧ run_steps (db w')
      = (run_steps (db w)
         ++ [completed_step (uuid4 (uuids_drawn w)) run step result])%list
    ∧ tokens_drawn w' = tokens_drawn w1 ∧ provider_calls w' = provider_calls w1.
Proof.
  intros Hcur Hstep Hexec Hpause Hst.
  rewrite (advance_pause fuel step_map w run c current step w1 ctx result
             Hcur Hstep Hexec Hpause).
  pose proof (execute_step_db w run step) as [Hdb Hids].
  rewrite Hexec in Hdb, Hids; simpl in Hdb, Hids.
  eexists. split; [reflexivity|]. split; [|split; [|done]].
  - eapply (do_commit_stored _ (set_status "waiting" (set_context ctx run))).
    simpl. rewrite Hdb. exact Hst.
  - simpl. by rewrite Hdb, Hids.
Qed.

Lemma form_step_pauses (fuel : nat) (step_map : gmap string Step)
    (w : world) (run stored : Run) (c : ascii) (current : string) (step : Step)
    (fields : list StepConfigField) :
  run_current_step run = Some (String c current) →
  step_map !! String c current = Some step →
  step_type step = "form" →
  step_cfg step = FormStepConfig fields →
  get_run (db w) (run_id run) = Some stored →
  ∃ w' r,
    advance (S fuel) step_map w run = (w', Returned r)
    ∧ get_run (db w') (run_id run) = Some r
    ∧ run_status r = "waiting"
    ∧ run_current_step r = run_current_step run
    ∧ runtime (run_context r) !! (step_id step +:+ "_schema")
      = Some (FormExecutor.fields_json fields)
    ∧ (∀ k, k ≠ step_id step +:+ "_schema" →
            runtime (run_context r) !! k = runtime (run_context run) !! k)
    ∧ run_steps (db w')
      = (run_steps (db w)
         ++ [completed_step (uuid4 (uuids_drawn w)) run step
               (FormExecutor.execute fields (run_context run) (step_id step)).2])%list.
Proof.
  intros Hcur Hstep Hty Hcfg Hst.
  assert (Hexec : execute_step w run step
            = (w, Ok (FormExecutor.execute fields (run_context run) (step_id step)))).
  { unfold WorkflowEngine.execute_step. by rewrite Hty, Hcfg. }
  destruct (advance_pause_stored fuel step_map w run c current step w _ _ stored
              Hcur Hstep Hexec eq_refl Hst) as (w' & Hadv & Hget & Hsteps & _).
  eexists w', _. split; [exact Hadv|]. split; [exact Hget|].
  split; [done|]. split; [done|]. split; [|split; [|exact Hsteps]].
  - simpl. apply lookup_insert_eq.
  - intros k Hk. simpl. by rewrite lookup_insert_ne.
Qed.

(** X7. A form step pauses the run: after the pass the run is stored
    waiting at the same step, its runtime context holds the field schema at
    [<step_id>_schema] and is otherwise as before, and one completed run
    step with the pause as output has been appended. *)
Theorem form_step_pause_committed (fuel : nat) (step_map : gmap string Step)
    (w : world) (run stored : Run) (c : ascii) (current : string) (step : Step)
    (fields : list StepConfigField) :
  run_current_step run = Some (String c current) →
  step_map !! String c current = Some step →
  step_type step = "form" →
  step_cfg step = FormStepConfig fields →
  get_run (db w) (run_id run) = Some stored →
  ∃ w' r,
    advance (S fuel) step_map w run = (w', Returned r)
    ∧ get_run (db w') (run_id run) = Some r
    ∧ run_status r = "waiting"
    ∧ run_current_step r = run_current_step run
    ∧ runtime (run_context r) !! (step_id step +:+ "_schema")
      = Some (FormExecutor.fields_json fields)
    ∧ (∀ k, k ≠ step_id step +:+ "_schema" →
            runtime (run_context r) !! k = runtime (run_context run) !! k)
    ∧ run_steps (db w')
      = (run_steps (db w)
         ++ [completed_step (uuid4 (uuids_drawn w)) run step
               (FormExecutor.execute fields (run_context run) (step_id step)).2])%list.
Proof. apply form_step_pauses. Qed.

(** X8. An approval step pauses the run with a freshly drawn token: the
    run is stored waiting at the same step, its runtime context holds
    [{token, approvers, status: "pending"}] at [<step_id>_approval], the
    token recorded in the run step's output is that same token, and the
    next approval will draw another one. *)
Theorem approval_step_pause_committed (fuel : nat) (step_map : gmap string Step)
    (w : world) (run stored : Run) (c : ascii) (current : string) (step : Step)
    (approvers : list string) :
  run_current_step run = Some (String c current) →
  step_map !! String c current = Some step →
  step_type step = "approval" →
  step_cfg step = ApprovalStepConfig approvers →
  get_run (db w) (run_id run) = Some stored →
  ∃ w' r rs out,
    advance (S fuel) step_map w run = (w', Returned r)
    ∧ get_run (db w') (run_id run) = Some r
    ∧ run_status r = "waiting"
    ∧ run_current_step r = run_current_step run
    ∧ runtime (run_context r) !! (step_id step +:+ "_approval")
      = Some (JObj (<["token" := JStr (token_urlsafe (tokens_drawn w))]>
                   (<["approvers" := ApprovalExecutor.approvers_json approvers]>
                   (<["status" := JStr "pending"]> ∅))))
    ∧ run_steps (db w') = (run_steps (db w) ++ [rs])%list
    ∧ rs_status rs = "completed" ∧ rs_step_id rs = step_id step
    ∧ rs_output rs = Some (JObj out)
    ∧ out !! "approval_token" = Some (JStr (token_urlsafe (tokens_drawn w)))
    ∧ out !! "waiting_for" = Some (JStr "approval")
    ∧ tokens_drawn w' = S (tokens_drawn w).
Proof.
  intros Hcur Hstep Hty Hcfg Hst.
  assert (Hexec : execute_step w run step
            = ({| db := db w; uuids_drawn := uuids_drawn w;
                  tokens_drawn := S (tokens_drawn w);
                  provider_calls := provider_calls w |},
               Ok (ApprovalExecutor.execute approvers
                     (token_urlsafe (tokens_drawn w)) (run_context run)
                     (step_id step)))).
  { unfold WorkflowEngine.execute_step. by rewrite Hty, Hcfg. }
  destruct (advance_pause_stored fuel step_map w run c current step _ _ _ stored
              Hcur Hstep Hexec eq_refl Hst) as (w' & Hadv & Hget & Hsteps & Htok & _).
  eexists w', _, _, _. split; [exact Hadv|]. split; [exact Hget|].
  split; [done|]. split; [done|]. split; [simpl; apply lookup_insert_eq|].
  split; [exact Hsteps|]. split; [done|]. split; [done|].
  split; [reflexivity|]. split; [|split; [|exact Htok]].
  - rewrite lookup_insert_ne by done. rewrite lookup_insert_ne by done.
    apply lookup_insert_eq.
  - rewrite lookup_insert_ne by done. apply lookup_insert_eq.
Qed.

(** X9. When [_execute_workflow] returns, the run either had no current
    step to begin with (and nothing was done), or is waiting at a step whose
    pause is the last run step recorded, or is completed with no current
    step. *)
Theorem execute_workflow_returned (fuel : nat) (w w' : world) (run r : Run) :
  _execute_workflow fuel w run = (w', Returned r) →
  (opt_truthy (run_current_step run) = false ∧ r = run ∧ w' = w)
  ∨ (run_status r = "waiting" ∧ opt_truthy (run_current_step r) = true
     ∧ paused_at_current (db w') r)
  ∨ (run_status r = "completed" ∧ opt_truthy (run_current_step r) = false).
Proof.
  unfold WorkflowEngine._execute_workflow.
  destruct (get_workflow (db w) (run_workflow_id run)) as [wf|]; [|done].
  apply advance_returned. intros k step. apply build_step_map_id.
Qed.

(** *** What an operation may touch *)

Lemma touches_only_refl rid d : touches_only rid d d.
Proof. by repeat split. Qed.

Lemma touches_only_trans rid d1 d2 d3 :
  touches_only rid d1 d2 → touches_only rid d2 d3 → touches_only rid d1 d3.
Proof.
  intros (Hw1 & Hs1 & Hi1 & Hr1) (Hw2 & Hs2 & Hi2 & Hr2).
  split; [congruence|]. split; [by etrans|]. split; [congruence|].
  intros i r Hr Hne. apply Hr2; [|done]. by apply Hr1.
Qed.

Lemma commit_touches_only d r added :
  touches_only (run_id r) d (commit d r added).
Proof.
  split; [done|]. split; [by apply prefix_app_r|]. split.
  - unfold commit; simpl. induction (runs d) as [|x xs IH]; [done|].
    rewrite !fmap_cons, IH. f_equal.
    destruct (String.eqb (run_id x) (run_id r)) eqn:Hx; [|done].
    by apply String.eqb_eq in Hx.
  - intros i x Hx Hne. unfold commit; simpl. rewrite list_lookup_fmap, Hx.
    simpl. by apply String.eqb_neq in Hne as ->.
Qed.

Lemma advance_touches_only fuel step_map w run w' out :
  advance fuel step_map w run = (w', out) →
  touches_only (run_id run) (db w) (db w').
Proof.
  revert w run w' out.
  induction fuel as [|fuel IH]; intros w run w' out;
    cbn [WorkflowEngine.advance].
  { intros [= <- _]. apply touches_only_refl. }
  destruct (run_current_step run) as [[|c current]|] eqn:Hcur;
    try (intros [= <- _]; apply touches_only_refl).
  destruct (step_map !! String c current) as [step|] eqn:Hstep.
  - destruct (execute_step w run step) as [w1 [[ctx result]|e1]] eqn:Hexec;
      pose proof (execute_step_db w run step) as [Hdb _];
      rewrite Hexec in Hdb; simpl in Hdb; rewrite <- Hdb.
    + cbn [next_uuid]. cbv zeta. destruct (result_pause result).
      { intros [= <- _].
        apply (commit_touches_only (db w1) (set_status "waiting" (set_context ctx run))). }
      destruct (negb (opt_truthy (run_current_step
                  (set_current_step (step_next step) (set_context ctx run))))).
      { intros [= <- _]. eapply touches_only_trans.
        - apply (commit_touches_only (db w1)
                   (set_current_step (step_next step) (set_context ctx run))).
        - apply (commit_touches_only _
                   (set_status "completed"
                      (set_current_step (step_next step) (set_context ctx run)))). }
      intros Hadv. apply IH in Hadv. eapply touches_only_trans; [|exact Hadv].
      apply (commit_touches_only (db w1)
               (set_current_step (step_next step) (set_context ctx run))).
    + unfold WorkflowEngine.handle_failure.
      destruct (get_run (db w1) (run_id run)) as [stored|] eqn:Hst.
      * cbn [next_uuid]. cbv zeta. intros [= <- _].
        rewrite <- (get_run_id _ _ _ Hst).
        apply (commit_touches_only (db w1) (set_status "failed" stored)).
      * intros [= <- _]. apply touches_only_refl.
  - intros [= <- _]. apply (commit_touches_only (db w) (set_status "failed" run)).
Qed.

Lemma execute_workflow_touches_only fuel w run w' out :
  _execute_workflow fuel w run = (w', out) →
  touches_only (run_id run) (db w) (db w').
Proof.
  unfold WorkflowEngine._execute_workflow.
  destruct (get_workflow (db w) (run_workflow_id run)).
  - apply advance_touches_only.
  - intros [= <- _]. apply touches_only_refl.
Qed.

Lemma resume_run_touches (fuel : nat) (w w' : world) (rid : string)
    (inputs : option (gmap string json)) (out : outcome Run) :
  resume_run fuel w rid inputs = (w', out) →
  touches_only rid (db w) (db w').
Proof.
  unfold WorkflowEngine.resume_run.
  destruct (get_run (db w) rid) as [run|] eqn:Hrun;
    [|intros [= <- _]; apply touches_only_refl].
  destruct (negb _); [intros [= <- _]; apply touches_only_refl|].
  destruct (prepare_resume w run inputs) as [run'|e'] eqn:Hprep;
    [|intros [= <- _]; apply touches_only_refl].
  apply prepare_resume_id in Hprep as (Hid & _).
  rewrite (get_run_id _ _ _ Hrun) in Hid.
  destruct (_execute_workflow fuel (do_commit w run' []) run') as [w1 o] eqn:Hexec.
  apply execute_workflow_touches_only in Hexec. rewrite Hid in Hexec.
  assert (Hall : touches_only rid (db w) (db w1)).
  { eapply touches_only_trans; [|exact Hexec]. rewrite <- Hid.
    apply (commit_touches_only (db w) run' []). }
  destruct o as [r| |]; [|by intros [= <- _]..].
  destruct (get_run (db w1) rid); by intros [= <- _].
Qed.

(** X10. Whatever its outcome, [resume_run] on the run [rid] leaves the
    workflows as they are, only appends to the run-step history, adds and
    removes no run row, and leaves the row of every other run untouched. *)
Theorem resume_run_touches_only (fuel : nat) (w w' : world) (rid : string)
    (inputs : option (gmap string json)) (out : outcome Run) :
  resume_run fuel w rid inputs = (w', out) →
  touches_only rid (db w) (db w').
Proof. apply resume_run_touches. Qed.

Lemma insert_run_ok d r d' :
  insert_run d r = Ok d' →
  runs d' = (runs d ++ [r])%list
  ∧ workflows d' = workflows d ∧ run_steps d' = run_steps d
  ∧ Forall (λ x, run_id x ≠ run_id r) (runs d)
  ∧ ∀ k, run_idempotency_key r = Some k →
         Forall (λ x, run_idempotency_key x ≠ Some k) (runs d).
Proof.
  unfold insert_run.
  destruct (existsb _ (runs d)) eqn:Hpk; [done|].
  destruct (match run_idempotency_key r with Some _ => _ | None => _ end) eqn:Huq;
    [done|].
  intros [= <-]. repeat split; try done.
  - apply Forall_forall. intros x Hx Heq.
    apply not_true_iff_false in Hpk. apply Hpk.
    apply existsb_exists. exists x. split; [by apply list_elem_of_In|].
    by apply String.eqb_eq.
  - intros k Hk. rewrite Hk in Huq. apply Forall_forall. intros x Hx Heq.
    apply not_true_iff_false in Huq. apply Huq.
    apply existsb_exists. exists x. split; [by apply list_elem_of_In|].
    unfold key_is. rewrite Heq. apply String.eqb_refl.
Qed.

(** X11. Whatever its outcome, [start_run] leaves the workflows and every
    stored run as they are and only appends to the run-step history; at most
    one run row is added, at the end, carrying the identifier drawn and the
    idempotency key supplied. *)
Theorem start_run_preserves (fuel : nat) (w w' : world) (workflow_id : string)
    (inputs : gmap string json) (key : option string) (out : outcome Run) :
  start_run fuel w workflow_id inputs key = (w', out) →
  workflows (db w') = workflows (db w)
  ∧ run_steps (db w) `prefix_of` run_steps (db w')
  ∧ (runs (db w') = runs (db w)
     ∨ ∃ created,
         runs (db w') = (runs (db w) ++ [created])%list
         ∧ run_id created = uuid4 (uuids_drawn w)
         ∧ run_idempotency_key created = key).
Proof.
  unfold WorkflowEngine.start_run.
  destruct (match key with Some (String _ _ as k) => _ | _ => None end).
  { intros [= <- _]. split; [done|]. split; [done|by left]. }
  destruct (get_workflow (db w) workflow_id) as [wf|].
  2:{ intros [= <- _]. split; [done|]. split; [done|by left]. }
  cbn [next_uuid]. cbv zeta.
  match goal with |- context [insert_run ?d ?r] =>
    destruct (insert_run d r) as [d'|e'] eqn:Hins; set (run := r) in * end.
  2:{ intros [= <- _]. split; [done|]. split; [done|by left]. }
  apply insert_run_ok in Hins as (Hruns & Hwfs & Hsteps & Hold & _).
  unfold WorkflowEngine._execute_workflow.
  destruct (get_workflow _ _).
  2:{ intros [= <- _]. simpl. split; [done|]. split; [by rewrite Hsteps|].
      right. by exists run. }
  intros Hadv. pose proof Hadv as Hadv'.
  apply advance_touches_only in Hadv' as (Hw & Hs & _).
  eapply advance_runs in Hadv as (last & Hlast & Hid & Hkey & _);
    [|exact Hruns|exact Hold].
  simpl in Hw, Hs, Hwfs, Hsteps, Hruns.
  split; [congruence|]. split; [by rewrite Hsteps in Hs|].
  right. by exists last.
Qed.

(** *** The constraints of the runs table *)

Lemma commit_keys d r added stored :
  NoDup (run_id <$> runs d) →
  get_run d (run_id r) = Some stored →
  run_idempotency_key stored = run_idempotency_key r →
  run_idempotency_key <$> runs (commit d r added) = run_idempotency_key <$> runs d.
Proof.
  unfold get_run, commit; simpl. intros Hnd Hget Hkey.
  induction (runs d) as [|x xs IH]; [done|].
  rewrite !fmap_cons in *. apply NoDup_cons in Hnd as [Hx Hnd].
  cbn [List.find] in Hget.
  destruct (String.eqb (run_id x) (run_id r)) eqn:Heq.
  - injection Hget as ->. f_equal; [done|]. f_equal.
    apply String.eqb_eq in Heq. clear IH Hnd.
    induction xs as [|y ys IH]; [done|]. rewrite fmap_cons.
    rewrite fmap_cons in Hx. apply not_elem_of_cons in Hx as [Hy Hx].
    rewrite IH by done. f_equal.
    assert (run_id y ≠ run_id r) as Hne by congruence.
    by apply String.eqb_neq in Hne as ->.
  - f_equal. by apply IH.
Qed.

Lemma omap_keys (l : list Run) :
  omap run_idempotency_key l = omap id (run_idempotency_key <$> l).
Proof.
  induction l as [|x xs IH]; [done|]. cbn. rewrite IH. by destruct (_ x).
Qed.

Lemma advance_keys fuel step_map w run stored w' out :
  NoDup (run_id <$> runs (db w)) →
  get_run (db w) (run_id run) = Some stored →
  run_idempotency_key stored = run_idempotency_key run →
  advance fuel step_map w run = (w', out) →
  run_idempotency_key <$> runs (db w') = run_idempotency_key <$> runs (db w).
Proof.
  revert w run stored w' out.
  induction fuel as [|fuel IH]; intros w run stored w' out Hnd Hst Hkey;
    cbn [WorkflowEngine.advance].
  { by intros [= <- _]. }
  destruct (run_current_step run) as [[|c current]|] eqn:Hcur;
    try by intros [= <- _].
  destruct (step_map !! String c current) as [step|] eqn:Hstep.
  - destruct (execute_step w run step) as [w1 [[ctx result]|e1]] eqn:Hexec;
      pose proof (execute_step_db w run step) as [Hdb _];
      rewrite Hexec in Hdb; simpl in Hdb; rewrite <- Hdb in * |- *.
    + cbn [next_uuid]. cbv zeta. destruct (result_pause result).
      { intros [= <- _].
        by apply (commit_keys (db w1) (set_status "waiting" (set_context ctx run))
                    _ stored). }
      pose (run2 := set_current_step (step_next step) (set_context ctx run)).
      assert (Hk2 : run_idempotency_key <$> runs (commit (db w1) run2
                      [completed_step (uuid4 (uuids_drawn w1))
                         (set_context ctx run) step result])
                    = run_idempotency_key <$> runs (db w1))
        by by apply (commit_keys (db w1) run2 _ stored).
      assert (Hnd2 : NoDup (run_id <$> runs (commit (db w1) run2
                      [completed_step (uuid4 (uuids_drawn w1))
                         (set_context ctx run) step result]))).
      { destruct (commit_touches_only (db w1) run2
                    [completed_step (uuid4 (uuids_drawn w1))
                       (set_context ctx run) step result]) as (_ & _ & -> & _).
        done. }
      assert (Hst2 : get_run (commit (db w1) run2
                      [completed_step (uuid4 (uuids_drawn w1))
                         (set_context ctx run) step result]) (run_id run2)
                     = Some run2)
        by (eapply get_run_commit; exact Hst).
      fold run2.
      destruct (negb (opt_truthy (run_current_step run2))).
      { intros [= <- _]. etrans; [|exact Hk2].
        by apply (commit_keys (commit (db w1) run2
                    [completed_step (uuid4 (uuids_drawn w1))
                       (set_context ctx run) step result])
                    (set_status "completed" run2) [] run2). }
      intros Hadv. etrans; [|exact Hk2].
      by eapply (IH _ run2 run2) in Hadv.
    + unfold WorkflowEngine.handle_failure. rewrite Hst.
      cbn [next_uuid]. cbv zeta. intros [= <- _].
      apply (commit_keys (db w1) (set_status "failed" stored) _ stored);
        [done| |done].
      simpl. rewrite (get_run_id _ _ _ Hst). exact Hst.
  - intros [= <- _].
    by apply (commit_keys (db w) (set_status "failed" run) [] stored).
Qed.

(** X12. [resume_run] keeps the constraints of the runs table: with unique
    run identifiers and unique idempotency keys before, they are unique
    after, whatever the outcome. *)
Theorem resume_run_consistent (fuel : nat) (w w' : world) (rid : string)
    (inputs : option (gmap string json)) (out : outcome Run) :
  db_consistent (db w) →
  resume_run fuel w rid inputs = (w', out) →
  db_consistent (db w').
Proof.
  intros [Hids Hkeys] Hres.
  pose proof (resume_run_touches _ _ _ _ _ _ Hres) as (_ & _ & Hsame & _).
  split; [by rewrite Hsame|].
  rewrite omap_keys in Hkeys |- *.
  enough (run_idempotency_key <$> runs (db w') = run_idempotency_key <$> runs (db w))
    as -> by done.
  revert Hres. unfold WorkflowEngine.resume_run.
  destruct (get_run (db w) rid) as [run|] eqn:Hrun; [|by intros [= <- _]].
  destruct (negb _); [by intros [= <- _]|].
  destruct (prepare_resume w run inputs) as [run'|e'] eqn:Hprep;
    [|by intros [= <- _]].
  apply prepare_resume_id in Hprep as (Hid & _ & Hkey & _).
  pose proof (get_run_id _ _ _ Hrun) as Hrid. rewrite <- Hrid, <- Hid in Hrun.
  assert (Hk1 : run_idempotency_key <$> runs (commit (db w) run' [])
                = run_idempotency_key <$> runs (db w))
    by by apply (commit_keys (db w) run' [] run).
  assert (Hnd1 : NoDup (run_id <$> runs (commit (db w) run' []))).
  { destruct (commit_touches_only (db w) run' []) as (_ & _ & -> & _). done. }
  assert (Hst1 : get_run (commit (db w) run' []) (run_id run') = Some run')
    by (eapply get_run_commit; exact Hrun).
  assert (Hloop : ∀ w1 o, _execute_workflow fuel (do_commit w run' []) run' = (w1, o) →
            run_idempotency_key <$> runs (db w1) = run_idempotency_key <$> runs (db w)).
  { intros w1 o. unfold WorkflowEngine._execute_workflow.
    destruct (get_workflow _ _).
    - intros Hadv. rewrite <- Hk1.
      by eapply (advance_keys _ _ _ run' run') in Hadv.
    - by intros [= <- _]. }
  destruct (_execute_workflow fuel (do_commit w run' []) run') as [w1 o] eqn:Hexec.
  specialize (Hloop w1 o eq_refl).
  destruct o as [r| |]; [|by intros [= <- _]..].
  destruct (get_run (db w1) rid); by intros [= <- _].
Qed.

(** X13. [start_run] keeps the constraints of the runs table as well: the
    run it creates has a fresh identifier and a key no stored run has. *)
Theorem start_run_consistent (fuel : nat) (w w' : world) (workflow_id : string)
    (inputs : gmap string json) (key : option string) (out : outcome Run) :
  db_consistent (db w) →
  start_run fuel w workflow_id inputs key = (w', out) →
  db_consistent (db w').
Proof.
  intros [Hids Hkeys]. unfold WorkflowEngine.start_run.
  destruct (match key with Some (String _ _ as k) => _ | _ => None end).
  { by intros [= <- _]. }
  destruct (get_workflow (db w) workflow_id) as [wf|]; [|by intros [= <- _]].
  cbn [next_uuid]. cbv zeta.
  match goal with |- context [insert_run ?d ?r] =>
    destruct (insert_run d r) as [d'|e'] eqn:Hins; set (run := r) in * end.
  2:{ by intros [= <- _]. }
  apply insert_run_ok in Hins as (Hruns & _ & _ & Hold & Hfresh).
  simpl in Hruns, Hold, Hfresh.
  assert (Hfinal : ∀ last, run_id last = uuid4 (uuids_drawn w) →
            run_idempotency_key last = key →
            db_consistent {| workflows := []; runs := runs (db w) ++ [last];
                             run_steps := [] |}).
  { intros last Hid Hkey. split; simpl.
    - rewrite fmap_app. apply NoDup_app. split; [done|].
      split; [|apply NoDup_singleton].
      intros x Hx Hin. apply list_elem_of_singleton in Hin as ->.
      apply list_elem_of_fmap in Hx as (y & Hy & Hyin).
      rewrite Forall_forall in Hold. apply (Hold y Hyin). congruence.
    - rewrite omap_app. apply NoDup_app. split; [done|]. split.
      + intros k Hk Hin. simpl in Hin. rewrite Hkey in Hin.
        destruct key as [k'|]; simpl in Hin; [|by apply not_elem_of_nil in Hin].
        apply list_elem_of_singleton in Hin as ->.
        apply list_elem_of_omap in Hk as (y & Hyin & Hy).
        specialize (Hfresh k' eq_refl). rewrite Forall_forall in Hfresh.
        by apply (Hfresh y Hyin).
      + simpl. destruct (run_idempotency_key last);
          [apply NoDup_singleton|apply NoDup_nil_2]. }
  unfold WorkflowEngine._execute_workflow.
  destruct (get_workflow _ _).
  2:{ intros [= <- _]. unfold db_consistent. simpl. rewrite Hruns.
      by apply (Hfinal run). }
  intros Hadv.
  eapply advance_runs in Hadv as (last & Hlast & Hid & Hkey & _);
    [|exact Hruns|exact Hold].
  unfold db_consistent. rewrite Hlast. by apply (Hfinal last).
Qed.

(** *** Steps the engine cannot execute *)

(** *** Idempotent start *)






(** X14. A step whose type [execute_step] does not route fails the run:
    the pass raises [ValueError "Unsupported step type: <type>"], and the
    failed run step carrying that message and the failed status are
    committed; an [api_call] step fails in the same way with
    [NotImplementedError]. *)
Theorem unrouted_step_fails_run (fuel : nat) (step_map : gmap string Step)
    (w : world) (run stored : Run) (c : ascii) (current : string) (step : Step) :
  run_current_step run = Some (String c current) →
  step_map !! String c current = Some step →
  get_run (db w) (run_id run) = Some stored →
  (step_type step ∉ routed_types →
   ∃ w', advance (S fuel) step_map w run
         = (w', Raised (ValueError ("Unsupported step type: " +:+ step_type step)))
     ∧ failure_recorded (db w') (run_id run) (step_id step)
         (ValueError ("Unsupported step type: " +:+ step_type step)))
  ∧ (step_type step = "api_call" →
     ∃ w', advance (S fuel) step_map w run
           = (w', Raised (NotImplementedError
                            "API call executor not yet implemented (WP-006)"))
       ∧ failure_recorded (db w') (run_id run) (step_id step)
           (NotImplementedError "API call executor not yet implemented (WP-006)")).
Proof.
  intros Hcur Hstep Hst.
  assert (Hgen : ∀ e, execute_step w run step = (w, Exc e) →
            ∃ w', advance (S fuel) step_map w run = (w', Raised e)
                  ∧ failure_recorded (db w') (run_id run) (step_id step) e).
  { intros e Hexec.
    rewrite (advance_executor_raises fuel step_map w run c current step w e
               Hcur Hstep Hexec).
    pose proof (handle_failure_recorded w run step e stored Hst
                  (get_run_id _ _ _ Hst)) as (Hrec & _).
    rewrite (handle_failure_stored _ _ _ _ _ Hst) in Hrec |- *. eauto. }
  split.
  - intros Hty. apply Hgen. unfold WorkflowEngine.execute_step.
    unfold routed_types in Hty. rewrite !not_elem_of_cons in Hty.
    destruct Hty as (H1 & H2 & H3 & H4 & H5 & _).
    apply String.eqb_neq in H1, H2, H3, H4, H5.
    by rewrite H1, H2, H3, H4, H5.
  - intros Hty. apply Hgen. unfold WorkflowEngine.execute_step. by rewrite Hty.
Qed.

(** *** Resuming a form *)

(** X15. On [resume_run] with non-empty inputs of a waiting run whose
    current step is a form: inputs that [validate_fields] refuses make the
    call raise that error with nothing written, so the run stays waiting and
    can be resumed again; otherwise only the validated fields are merged
    over the runtime context (a key that is not a configured field keeps its
    old value) and the run enters the advance loop at the step's [next]. *)
Theorem form_resume (w : world) (run : Run) (c : ascii) (current : string)
    (workflow : Workflow) (step : Step) (fields : list StepConfigField)
    (inputs : gmap string json) :
  run_current_step run = Some (String c current) →
  get_workflow (db w) (run_workflow_id run) = Some workflow →
  build_step_map (wf_steps workflow) !! String c current = Some step →
  step_type step = "form" →
  step_cfg step = FormStepConfig fields →
  inputs ≠ ∅ →
  get_run (db w) (run_id run) = Some run →
  run_status run = "waiting" →
  match FormExecutor.validate_fields fields inputs with
  | Exc e => ∀ fuel, resume_run fuel w (run_id run) (Some inputs) = (w, Raised e)
  | Ok validated =>
    ∃ run',
      prepare_resume w run (Some inputs) = Ok run'
      ∧ run_current_step run' = step_next step
      ∧ run_status run' = "running"
      ∧ runtime (run_context run') = validated ∪ runtime (run_context run)
      ∧ (∀ k, k ∉ field_key <$> fields →
              runtime (run_context run') !! k = runtime (run_context run) !! k)
      ∧ ∀ fuel,
          resume_run fuel w (run_id run) (Some inputs)
          = match _execute_workflow fuel (do_commit w run' []) run' with
            | (w', Returned _) =>
              match get_run (db w') (run_id run) with
              | Some r => (w', Returned r)
              | None => (w', Raised (NoResultFound "Could not refresh instance"))
              end
            | other => other
            end
  end.
Proof.
  intros Hcur Hwf Hstep Hty Hcfg Hne Hget Hst.
  assert (Hprep : prepare_resume w run (Some inputs)
            = match FormExecutor.validate_fields fields inputs with
              | Exc e => Exc e
              | Ok validated =>
                Ok (set_status "running"
                      (set_context
                         (set_runtime (run_context run)
                            (validated ∪ runtime (run_context run)))
                         (set_current_step (step_next step) run)))
              end).
  { unfold prepare_resume, validate_resume.
    rewrite bool_decide_eq_false_2 by done.
    rewrite Hcur, Hwf, Hstep, Hty, Hcfg. simpl String.eqb. cbv iota.
    by destruct (FormExecutor.validate_fields fields inputs). }
  assert (Hresume : ∀ fuel,
            resume_run fuel w (run_id run) (Some inputs)
            = match prepare_resume w run (Some inputs) with
              | Exc e => (w, Raised e)
              | Ok run' =>
                match _execute_workflow fuel (do_commit w run' []) run' with
                | (w', Returned _) =>
                  match get_run (db w') (run_id run) with
                  | Some r => (w', Returned r)
                  | None => (w', Raised (NoResultFound "Could not refresh instance"))
                  end
                | other => other
                end
              end).
  { intros fuel. unfold WorkflowEngine.resume_run.
    rewrite Hget, Hst. simpl negb. cbv iota. reflexivity. }
  pose proof (C7_like := validate_fields_lookup fields inputs).
  destruct (FormExecutor.validate_fields fields inputs) as [validated|e] eqn:Hval.
  - eexists. split; [exact Hprep|]. split; [done|]. split; [done|].
    split; [done|]. split.
    + intros k Hk. simpl. rewrite lookup_union_r; [done|].
      rewrite (C7_like validated k eq_refl).
      by rewrite bool_decide_eq_false_2.
    + intros fuel. by rewrite Hresume, Hprep.
  - intros fuel. by rewrite Hresume, Hprep.
Qed.

(** X16. [resume_run] with no inputs, or with an empty dictionary, skips
    validation and does not advance: the paused form step is executed again,
    so the run is returned waiting at the same step with one more completed
    run step recorded. *)
Theorem empty_resume_repeats_form (fuel : nat) (w : world) (run : Run)
    (c : ascii) (current : string) (workflow : Workflow) (step : Step)
    (fields : list StepConfigField) (inputs : option (gmap string json)) :
  inputs = None ∨ inputs = Some ∅ →
  get_run (db w) (run_id run) = Some run →
  run_status run = "waiting" →
  run_current_step run = Some (String c current) →
  get_workflow (db w) (run_workflow_id run) = Some workflow →
  build_step_map (wf_steps workflow) !! String c current = Some step →
  step_type step = "form" →
  step_cfg step = FormStepConfig fields →
  ∃ w' r rs,
    resume_run (S fuel) w (run_id run) inputs = (w', Returned r)
    ∧ run_status r = "waiting"
    ∧ run_current_step r = run_current_step run
    ∧ get_run (db w') (run_id run) = Some r
    ∧ run_steps (db w') = (run_steps (db w) ++ [rs])%list
    ∧ rs_step_id rs = step_id step ∧ rs_status rs = "completed".
Proof.
  intros Hin Hget Hst Hcur Hwf Hstep Hty Hcfg.
  assert (Hprep : prepare_resume w run inputs = Ok (set_status "running" run)).
  { destruct Hin as [-> | ->]; [done|]. unfold prepare_resume.
    by rewrite bool_decide_eq_true_2. }
  set (run1 := set_status "running" run).
  assert (Hst1 : get_run (db (do_commit w run1 [])) (run_id run1) = Some run1)
    by (eapply do_commit_stored; exact Hget).
  destruct (form_step_pauses fuel (build_step_map (wf_steps workflow))
              (do_commit w run1 []) run1 run1 c current step fields
              Hcur Hstep Hty Hcfg Hst1)
    as (w' & r & Hadv & Hget' & Hwait & Hsame & _ & _ & Hsteps).
  eexists w', r, _. split.
  { unfold WorkflowEngine.resume_run. rewrite Hget, Hst. simpl negb. cbv iota.
    rewrite Hprep. fold run1.
    unfold WorkflowEngine._execute_workflow.
    change (get_workflow (db (do_commit w run1 [])) (run_workflow_id run1))
      with (get_workflow (db w) (run_workflow_id run)).
    rewrite Hwf, Hadv.
    change (run_id run) with (run_id run1). by rewrite Hget'. }
  split; [exact Hwait|]. split; [exact Hsame|]. split; [exact Hget'|].
  split; [rewrite Hsteps; simpl; by rewrite app_nil_r|].
  done.
Qed.

(** *** Termination of the advance loop *)

Lemma advance_fuel_enough (rank : string → nat) (fuel : nat)
    (step_map : gmap string Step) (w : world) (run : Run) :
  ranked step_map rank →
  (0 < fuel)%nat →
  (steps_left rank run ≤ fuel)%nat →
  (advance fuel step_map w run).2 ≠ OutOfFuel.
Proof.
  intros Hrank. revert w run.
  induction fuel as [|fuel IH]; intros w run Hpos Hle; [lia|].
  cbn [WorkflowEngine.advance]. unfold steps_left in Hle.
  destruct (run_current_step run) as [[|c current]|] eqn:Hcur;
    [discriminate| |discriminate].
  destruct (step_map !! String c current) as [step|] eqn:Hstep; [|discriminate].
  destruct (execute_step w run step) as [w1 [[ctx result]|e1]] eqn:Hexec.
  - cbn [next_uuid]. cbv zeta. destruct (result_pause result); [discriminate|].
    destruct (step_next step) as [[|c' n]|] eqn:Hnext; try discriminate.
    simpl negb. cbv iota.
    specialize (Hrank _ _ _ _ Hstep Hnext).
    apply IH; [lia|]. unfold steps_left. simpl. lia.
  - unfold WorkflowEngine.handle_failure.
    destruct (get_run (db w1) (run_id run)); [|discriminate].
    cbn [next_uuid]. cbv zeta. discriminate.
Qed.

(** X17. On a workflow without cycles the loop ends: with a rank that
    decreases along every non-empty [next], the loop started at a step of
    rank [n] returns or raises within [n + 1] passes; with no current step
    it returns at once. *)
Theorem advance_terminates (rank : string → nat) (fuel : nat)
    (step_map : gmap string Step) (w : world) (run : Run) :
  ranked step_map rank →
  (steps_left rank run ≤ S fuel)%nat →
  (advance (S fuel) step_map w run).2 ≠ OutOfFuel.
Proof.
  intros Hrank Hle. apply (advance_fuel_enough rank); [exact Hrank|lia|exact Hle].
Qed.

(** X18. Nothing bounds the number of passes. A conditional step whose
    [next] is the step itself, with an expression that validates and
    evaluates, keeps the loop running for ever: whatever the fuel, the model
    runs out of it, having recorded one more run step at every pass. *)
Theorem conditional_self_loop_diverges (fuel : nat) (step_map : gmap string Step)
    (w : world) (run : Run) (c : ascii) (current : string) (step : Step)
    (when : string) (v : json) :
  run_current_step run = Some (String c current) →
  step_map !! String c current = Some step →
  step_type step = "conditional" →
  step_cfg step = ConditionalStepConfig when →
  step_next step = Some (String c current) →
  _validate_expression when = Ok tt →
  asteval when (_merge_context_namespaces (run_context run)) = InterpValue v →
  ∃ w', advance fuel step_map w run = (w', OutOfFuel)
        ∧ length (run_steps (db w')) = (length (run_steps (db w)) + fuel)%nat.
Proof.
  intros Hcur Hstep Hty Hcfg Hnext Hval Heval. revert w run Hcur Heval.
  induction fuel as [|fuel IH]; intros w run Hcur Heval.
  { exists w. split; [done|lia]. }
  cbn [WorkflowEngine.advance]. rewrite Hcur, Hstep.
  assert (Hexec : execute_step w run step
            = (w, Ok (run_context run,
                      JObj (<["result" := JBool (truthy v)]>
                           (<["expression" := JStr when]> ∅))))).
  { unfold WorkflowEngine.execute_step. rewrite Hty, Hcfg. simpl String.eqb.
    cbv iota. unfold ConditionalExecutor.execute, evaluate.
    by rewrite Hval, Heval. }
  rewrite Hexec. cbn [next_uuid]. cbv zeta.
  assert (Hnp : result_pause (JObj (<["result" := JBool (truthy v)]>
                                   (<["expression" := JStr when]> ∅))) = false).
  { unfold result_pause.
    rewrite lookup_insert_ne by done. rewrite lookup_insert_ne by done. done. }
  rewrite Hnp. simpl run_current_step. rewrite Hnext. simpl negb. cbv iota.
  match goal with |- context [advance fuel step_map ?w2 ?r2] =>
    destruct (IH w2 r2) as (w' & Hadv & Hlen); [done|exact Heval|] end.
  exists w'. split; [exact Hadv|]. rewrite Hlen. simpl.
  rewrite length_app. simpl. lia.
Qed.
(** ** The HTTP handlers *)

Local Abbreviation resume_execution :=
  (Executions.resume_execution uuid4 token_urlsafe provider validate asteval).

Lemma append_length (s t : string) :
  String.length (s +:+ t) = (String.length s + String.length t)%nat.
Proof. induction s as [|a s IH]; [done|]. rewrite append_cons. simpl. by rewrite IH. Qed.

Lemma approval_key_fresh (c : ascii) (current : string) :
  String c current +:+ "_approval" ≠ "approval".
Proof.
  intros H. apply (f_equal String.length) in H.
  rewrite append_length in H. simpl in H. lia.
Qed.

Lemma resume_run_waiting fuel w run inputs :
  get_run (db w) (run_id run) = Some run →
  run_status run = "waiting" →
  resume_run fuel w (run_id run) inputs
  = match prepare_resume w run inputs with
    | Exc e => (w, Raised e)
    | Ok run' =>
      match _execute_workflow fuel (do_commit w run' []) run' with
      | (w', Returned _) =>
        match get_run (db w') (run_id run) with
        | Some r => (w', Returned r)
        | None => (w', Raised (NoResultFound "Could not refresh instance"))
        end
      | other => other
      end
    end.
Proof.
  intros Hrun Hst. unfold WorkflowEngine.resume_run. by rewrite Hrun, Hst.
Qed.

(** X19. A run that [cancel_execution] cancels was stored and neither
    completed, failed nor canceled; only its status changes, no run step is
    recorded, and from then on the run is closed: a second cancel is answered
    409, [resume_run] refuses it, and so does [resume_execution]. *)
Theorem cancel_execution_closes_run (w w' : world) (rid : string) (r : Run) :
  Executions.cancel_execution w rid = (w', Response r) →
  (∃ stored, get_run (db w) rid = Some stored
     ∧ (run_status stored ∉ (["completed"; "failed"; "canceled"] : list string))
     ∧ r = set_status "canceled" stored)
  ∧ get_run (db w') rid = Some r
  ∧ touches_only rid (db w) (db w')
  ∧ run_steps (db w') = run_steps (db w)
  ∧ (∃ detail, Executions.cancel_execution w' rid = (w', HTTPException 409 detail))
  ∧ (∀ fuel inputs, ∃ msg, resume_run fuel w' rid inputs = (w', Raised (ValueError msg)))
  ∧ (∀ fuel data, ∃ detail,
       resume_execution fuel w' rid data = (w', HTTPException 409 detail)).
Proof.
  unfold Executions.cancel_execution.
  destruct (get_run (db w) rid) as [stored|] eqn:Hrun; [|done].
  destruct (existsb _ _) eqn:Hex; [done|].
  pose proof (get_run_id _ _ _ Hrun) as Hid.
  assert (Hst : get_run (commit (db w) (set_status "canceled" stored) []) rid
                = Some (set_status "canceled" stored)).
  { rewrite <- Hid at 1.
    change (run_id stored) with (run_id (set_status "canceled" stored)) at 1.
    eapply get_run_commit. simpl. rewrite Hid. exact Hrun. }
  unfold Executions.refreshed. simpl db. rewrite Hst.
  intros [= <- <-]. simpl db.
  split; [|split; [done|split; [|split; [|split; [|split]]]]].
  - exists stored. split; [done|]. split; [|done].
    simpl in Hex. rewrite !orb_false_iff in Hex. destruct Hex as (H1 & H2 & H3 & _).
    apply String.eqb_neq in H1, H2, H3.
    rewrite !not_elem_of_cons. repeat split; try done. apply not_elem_of_nil.
  - rewrite <- Hid.
    change (run_id stored) with (run_id (set_status "canceled" stored)).
    apply commit_touches_only.
  - simpl. by rewrite app_nil_r.
  - eexists. simpl db. by rewrite Hst.
  - intros fuel inputs. eexists. unfold WorkflowEngine.resume_run. simpl db.
    by rewrite Hst.
  - intros fuel data. eexists. unfold Executions.resume_execution. simpl db.
    by rewrite Hst.
Qed.

Lemma prepare_resume_approval w run c current workflow step inputs :
  run_current_step run = Some (String c current) →
  get_workflow (db w) (run_workflow_id run) = Some workflow →
  build_step_map (wf_steps workflow) !! String c current = Some step →
  step_type step = "approval" →
  inputs ≠ ∅ →
  prepare_resume w run (Some inputs)
  = match record_approval (String c current) inputs (run_context run) with
    | Exc e => Exc e
    | Ok ctx =>
      Ok (set_status "running"
            (set_context (set_runtime ctx (inputs ∪ runtime ctx))
               (set_current_step (step_next step) (set_context ctx run))))
    end.
Proof.
  intros Hcur Hwf Hstep Hty Hne.
  unfold prepare_resume, validate_resume.
  rewrite bool_decide_eq_false_2 by done.
  rewrite Hcur, Hwf, Hstep, Hty. simpl String.eqb. cbv iota.
  by destruct (record_approval _ _ _).
Qed.

(** X20. An approval decision sent through [resume_execution] to a run
    waiting at an approval step always passes the engine's checks of the
    resume data, because the handler builds the dictionary itself: the
    pending record at [<step_id>_approval] gets the status "approved" or
    "rejected" as decided and the comments (the empty string when none or
    empty ones were sent), and the run goes on at the step's [next],
    whatever the decision. *)
Theorem approval_decision_recorded (w : world) (run : Run) (c : ascii)
    (current : string) (workflow : Workflow) (step : Step)
    (meta : gmap string json) (data : Executions.RunResume)
    (d : Executions.decision) :
  get_run (db w) (run_id run) = Some run →
  run_status run = "waiting" →
  run_current_step run = Some (String c current) →
  get_workflow (db w) (run_workflow_id run) = Some workflow →
  build_step_map (wf_steps workflow) !! String c current = Some step →
  step_type step = "approval" →
  runtime (run_context run) !! (String c current +:+ "_approval") = Some (JObj meta) →
  Executions.resume_inputs data = None ∨ Executions.resume_inputs data = Some ∅ →
  Executions.resume_approval data = Some d →
  ∃ run',
    prepare_resume w run
      (Some (Executions.approval_inputs d (Executions.resume_comments data)))
    = Ok run'
    ∧ run_current_step run' = step_next step
    ∧ runtime (run_context run') !! (String c current +:+ "_approval")
      = Some (JObj (<["comments" :=
                       JStr (Executions.comments_or_empty
                               (Executions.resume_comments data))]>
                   (<["status" :=
                       JStr (match d with
                             | Executions.approved => "approved"
                             | Executions.rejected => "rejected"
                             end)]> meta)))
    ∧ ∀ fuel,
        resume_execution fuel w (run_id run) data
        = match _execute_workflow fuel (do_commit w run' []) run' with
          | (w', Returned _) => Executions.refreshed w' (run_id run)
          | (w', Raised e) =>
            if Executions.is_value_error e
            then (w', HTTPException 400 (str_exn e))
            else (w', Unhandled e)
          | (w', OutOfFuel) => (w', Unfinished)
          end.
Proof.
  intros Hrun Hst Hcur Hwf Hstep Hty Hmeta Hin Happ.
  set (inputs := Executions.approval_inputs d (Executions.resume_comments data)).
  assert (Hne : inputs ≠ ∅) by apply map_non_empty_singleton.
  pose proof (prepare_resume_approval _ _ _ _ _ _ _ Hcur Hwf Hstep Hty Hne) as Hprep.
  assert (Hrec : record_approval (String c current) inputs (run_context run)
            = Ok (set_runtime (run_context run)
                    (<[String c current +:+ "_approval" :=
                        JObj (<["comments" :=
                                 JStr (Executions.comments_or_empty
                                         (Executions.resume_comments data))]>
                             (<["status" :=
                                 JStr (match d with
                                       | Executions.approved => "approved"
                                       | Executions.rejected => "rejected"
                                       end)]> meta))]>
                       (runtime (run_context run))))).
  { unfold record_approval, inputs, Executions.approval_inputs.
    rewrite lookup_singleton_eq, lookup_insert_eq, Hmeta.
    rewrite lookup_insert_ne by done. rewrite lookup_insert_eq.
    destruct d; reflexivity. }
  rewrite Hrec in Hprep.
  eexists. split; [exact Hprep|]. split; [reflexivity|]. split.
  - cbn [run_context set_status set_context set_current_step set_runtime runtime].
    rewrite lookup_union_r.
    + apply lookup_insert_eq.
    + unfold inputs, Executions.approval_inputs.
      apply lookup_singleton_ne. intros H. symmetry in H.
      exact (approval_key_fresh c current H).
  - intros fuel. unfold Executions.resume_execution.
    rewrite Hrun, Hst, Happ, String.eqb_refl.
    destruct Hin as [Hi|Hi]; rewrite Hi;
      [|rewrite bool_decide_eq_true_2 by reflexivity];
      cbn [negb andb]; fold inputs;
      rewrite (resume_run_waiting fuel w run (Some inputs) Hrun Hst), Hprep;
      (destruct (_execute_workflow fuel _ _) as [w1 [r| |]]; [|reflexivity..]);
      cbv beta iota; unfold Executions.refreshed;
      destruct (get_run (db w1) (run_id run)) eqn:Hg; cbv beta iota;
      rewrite ?Hg; reflexivity.
Qed.

Lemma prepare_resume_form w run c current workflow step fields inputs :
  run_current_step run = Some (String c current) →
  get_workflow (db w) (run_workflow_id run) = Some workflow →
  build_step_map (wf_steps workflow) !! String c current = Some step →
  step_type step = "form" →
  step_cfg step = FormStepConfig fields →
  inputs ≠ ∅ →
  prepare_resume w run (Some inputs)
  = match FormExecutor.validate_fields fields inputs with
    | Exc e => Exc e
    | Ok validated =>
      Ok (set_status "running"
            (set_context
               (set_runtime (run_context run) (validated ∪ runtime (run_context run)))
               (set_current_step (step_next step) run)))
    end.
Proof.
  intros Hcur Hwf Hstep Hty Hcfg Hne.
  unfold prepare_resume, validate_resume.
  rewrite bool_decide_eq_false_2 by exact Hne.
  rewrite Hcur, Hwf, Hstep, Hty, Hcfg. simpl String.eqb. cbv iota.
  destruct (FormExecutor.validate_fields fields inputs); reflexivity.
Qed.

(** X21. Form inputs that the validation of the form refuses come back from
    [resume_execution] as a 400 whose detail is the message of the
    validation error; nothing is written, the run stays waiting at the form
    and the same request can be sent again. *)
Theorem refused_form_inputs_answer_400 (fuel : nat) (w : world) (run : Run)
    (c : ascii) (current : string) (workflow : Workflow) (step : Step)
    (fields : list StepConfigField) (data : Executions.RunResume)
    (inputs : gmap string json) (e : exn) :
  get_run (db w) (run_id run) = Some run →
  run_status run = "waiting" →
  run_current_step run = Some (String c current) →
  get_workflow (db w) (run_workflow_id run) = Some workflow →
  build_step_map (wf_steps workflow) !! String c current = Some step →
  step_type step = "form" →
  step_cfg step = FormStepConfig fields →
  Executions.resume_inputs data = Some inputs →
  inputs ≠ ∅ →
  Executions.resume_approval data = None →
  FormExecutor.validate_fields fields inputs = Exc e →
  resume_execution fuel w (run_id run) data = (w, HTTPException 400 (str_exn e)).
Proof.
  intros Hrun Hst Hcur Hwf Hstep Hty Hcfg Hin Hne Happ Hval.
  pose proof (prepare_resume_form _ _ _ _ _ _ _ _ Hcur Hwf Hstep Hty Hcfg Hne) as Hprep.
  rewrite Hval in Hprep.
  assert (He : Executions.is_value_error e = true).
  { pose proof (validate_loop_outcome fields inputs ∅) as Hout.
    unfold FormExecutor.validate_fields in Hval. rewrite Hval in Hout.
    destruct Hout as [Hv _]. destruct e; try discriminate Hv; reflexivity. }
  unfold Executions.resume_execution.
  rewrite Hrun, Hst, Hin, Happ, String.eqb_refl.
  rewrite bool_decide_eq_false_2 by exact Hne.
  cbn [negb andb].
  rewrite (resume_run_waiting fuel w run (Some inputs) Hrun Hst), Hprep.
  cbv beta iota. by rewrite He.
Qed.

Lemma resume_run_returned fuel w rid inputs w' r :
  resume_run fuel w rid inputs = (w', Returned r) →
  get_run (db w') rid = Some r.
Proof.
  unfold WorkflowEngine.resume_run.
  destruct (get_run (db w) rid) as [run|]; [|done].
  destruct (negb _); [done|].
  destruct (prepare_resume w run inputs) as [run'|]; [|done].
  destruct (_execute_workflow fuel (do_commit w run' []) run') as [w1 [r1| |]];
    [|done..].
  destruct (get_run (db w1) rid) as [r2|] eqn:Hg; [|done].
  by intros [= <- <-].
Qed.

Lemma resume_run_missing_workflow fuel w rid inputs run w' e :
  get_run (db w) rid = Some run →
  get_workflow (db w) (run_workflow_id run) = None →
  resume_run fuel w rid inputs = (w', Raised e) →
  Executions.is_value_error e = true.
Proof.
  intros Hrun Hwf. unfold WorkflowEngine.resume_run. rewrite Hrun.
  destruct (negb _); [by intros [= _ <-]|].
  destruct (prepare_resume w run inputs) as [run'|e'] eqn:Hprep.
  - apply prepare_resume_id in Hprep as (_ & Hw & _).
    unfold WorkflowEngine._execute_workflow.
    change (get_workflow (db (do_commit w run' [])) (run_workflow_id run'))
      with (get_workflow (commit (db w) run' []) (run_workflow_id run')).
    rewrite get_workflow_commit, Hw, Hwf. by intros [= _ <-].
  - exfalso. revert Hprep. unfold prepare_resume, validate_resume.
    destruct inputs as [inputs|]; [|done].
    destruct (bool_decide _); [done|].
    destruct (run_current_step run) as [[|? ?]|]; [done| |done].
    by rewrite Hwf.
Qed.

Lemma resume_execution_cases (fuel : nat) (w w' : world) (rid : string)
    (data : Executions.RunResume) (out : http_outcome Run) :
  resume_execution fuel w rid data = (w', out) →
  match out with
  | Response r => get_run (db w') rid = Some r
  | HTTPException code detail =>
    (code = 404 ∧ w' = w ∧ get_run (db w) rid = None)
    ∨ (code = 409 ∧ w' = w
       ∧ ∃ run, get_run (db w) rid = Some run ∧ run_status run ≠ "waiting")
    ∨ (code = 400
       ∧ (w' = w
          ∨ (∃ run run',
               get_run (db w) rid = Some run
               ∧ get_workflow (db w) (run_workflow_id run) = None
               ∧ w' = do_commit w run' []
               ∧ get_run (db w') rid = Some run'
               ∧ run_status run' = "running"
               ∧ run_steps (db w') = run_steps (db w)
               ∧ detail = "Workflow " +:+ run_workflow_id run +:+ " not found")
          ∨ (∃ sid e, detail = str_exn e ∧ failure_recorded (db w') rid sid e)
          ∨ (∃ e, detail = str_exn e ∧ dangling_step (db w') rid e
                  ∧ only_completed_added (db w) (db w'))))
  | Unhandled e =>
    Executions.is_value_error e = false
    ∧ (w' = w ∨ ∃ sid, failure_recorded (db w') rid sid e)
  | _ => True
  end.
Proof.
  unfold Executions.resume_execution.
  destruct (get_run (db w) rid) as [run|] eqn:Hrun;
    [|intros [= <- <-]; by left].
  destruct (negb _) eqn:Hst.
  { intros [= <- <-]. right; left. split; [done|]. split; [done|].
    exists run. split; [done|]. apply negb_true_iff in Hst.
    by apply String.eqb_neq in Hst. }
  destruct (_ && _); [intros [= <- <-]; right; right; split; [done|by left]|].
  destruct (_ && _); [intros [= <- <-]; right; right; split; [done|by left]|].
  destruct (WorkflowEngine.resume_run _ _ _ _ _ _ _ _ _) as [w1 [r|e|]] eqn:Hres.
  - apply resume_run_returned in Hres. unfold Executions.refreshed.
    rewrite Hres. by intros [= <- <-].
  - destruct (Executions.is_value_error e) eqn:He; intros [= <- <-].
    + right; right. split; [done|].
      apply resume_run_raised_cases in Hres
        as [H|[(r0 & r' & Hr0 & Hw0 & _ & Hw1 & Hget & Hrunning & _ & Hsteps & ->)
              |[[sid H]|[Hd Hadded]]]].
      * left. exact H.
      * right; left. exists r0, r'. rewrite <- Hrun.
        split; [exact Hr0|]. split; [exact Hw0|]. split; [exact Hw1|].
        split; [exact Hget|]. split; [exact Hrunning|]. split; [exact Hsteps|].
        reflexivity.
      * right; right; left. exists sid, e. split; [reflexivity|exact H].
      * right; right; right. exists e. split; [reflexivity|]. split; assumption.
    + split; [done|].
      apply resume_run_raised_cases in Hres
        as [H|[(r0 & r' & _ & _ & _ & _ & _ & _ & _ & _ & ->)|[H|[Hd _]]]].
      * left. exact H.
      * discriminate He.
      * right. exact H.
      * destruct Hd as (cur & st & -> & _). discriminate He.
  - by intros [= <- <-].
Qed.

(** X22. What each answer of [resume_execution] says about the run. A 404
    and a 409 are given before the engine is called. A 400 is a refusal
    with nothing written, or the message of a [ValueError] the engine
    raised after committing: for an executor that raised, with the failed
    run step and the failed status recorded; for a current step that names
    no step, with the run marked failed and no failed run step recorded;
    for a run whose workflow row is gone, "Workflow ... not found", with
    the run committed with status running, not failed, and no run step
    recorded. Any
    other exception leaves the handler uncaught, with nothing written or
    with the failed run step recorded. A response carries the run as it is
    stored. *)
Theorem resume_execution_answers (fuel : nat) (w w' : world) (rid : string)
    (data : Executions.RunResume) (out : http_outcome Run) :
  resume_execution fuel w rid data = (w', out) →
  (∀ r, out = Response r → get_run (db w') rid = Some r)
  ∧ (∀ code detail, out = HTTPException code detail →
       (code = 404 ∧ w' = w ∧ get_run (db w) rid = None)
       ∨ (code = 409 ∧ w' = w
          ∧ ∃ run, get_run (db w) rid = Some run ∧ run_status run ≠ "waiting")
       ∨ (code = 400
          ∧ (w' = w
             ∨ (∃ run run',
                  get_run (db w) rid = Some run
                  ∧ get_workflow (db w) (run_workflow_id run) = None
                  ∧ w' = do_commit w run' []
                  ∧ get_run (db w') rid = Some run'
                  ∧ run_status run' = "running"
                  ∧ run_steps (db w') = run_steps (db w)
                  ∧ detail = "Workflow " +:+ run_workflow_id run +:+ " not found")
             ∨ (∃ sid e, detail = str_exn e ∧ failure_recorded (db w') rid sid e)
             ∨ (∃ e, detail = str_exn e ∧ dangling_step (db w') rid e
                     ∧ only_completed_added (db w) (db w')))))
  ∧ (∀ e, out = Unhandled e →
       Executions.is_value_error e = false
       ∧ (w' = w ∨ ∃ sid, failure_recorded (db w') rid sid e)).
Proof.
  intros Hres. apply resume_execution_cases in Hres.
  split; [|split]; intros; subst out; exact Hres.
Qed.

(** ** Workflow definitions *)

Lemma find_app {A} (f : A → bool) (l1 l2 : list A) :
  List.find f (l1 ++ l2)%list
  = match List.find f l1 with Some x => Some x | None => List.find f l2 end.
Proof. induction l1 as [|x l1 IH]; simpl; [done|]. by destruct (f x). Qed.

Lemma fold_step_map_lookup (steps : list Step) (acc : gmap string Step) (k : string) :
  fold_left (λ m step, <[step_id step := step]> m) steps acc !! k
  = match List.find (λ s, String.eqb (step_id s) k) (rev steps) with
    | Some s => Some s
    | None => acc !! k
    end.
Proof.
  revert acc. induction steps as [|x xs IH]; intros acc; [done|].
  cbn [fold_left rev]. rewrite IH, find_app.
  destruct (List.find _ (rev xs)); [done|].
  cbn [List.find]. destruct (String.eqb_spec (step_id x) k) as [->|Hne].
  - by rewrite lookup_insert_eq.
  - by rewrite lookup_insert_ne.
Qed.

(** X23. In the step map of the engine an identifier stands for the last
    step of the list that carries it: steps that share their identifier
    with a later one are never executed, and an identifier no step carries
    is not in the map. *)
Theorem build_step_map_last_wins (steps : list Step) (k : string) :
  build_step_map steps !! k
  = List.find (λ s, String.eqb (step_id s) k) (rev steps).
Proof.
  unfold build_step_map. rewrite fold_step_map_lookup.
  by destruct (List.find _ (rev steps)).
Qed.

Lemma build_step_map_elem (steps : list Step) (k : string) (s : Step) :
  build_step_map steps !! k = Some s → s ∈ steps.
Proof.
  unfold build_step_map. rewrite fold_step_map_lookup.
  destruct (List.find _ (rev steps)) as [s'|] eqn:Hf; [|done].
  intros [= <-]. apply find_some in Hf as [Hin _].
  apply list_elem_of_In. by apply in_rev.
Qed.

Lemma build_step_map_dom (steps : list Step) (k : string) :
  k ∈ step_id <$> steps → is_Some (build_step_map steps !! k).
Proof.
  intros Hk. unfold build_step_map. rewrite fold_step_map_lookup.
  destruct (List.find _ (rev steps)) as [s'|] eqn:Hf; [by eexists|].
  exfalso. apply list_elem_of_fmap in Hk as (s & -> & Hs).
  apply list_elem_of_In, in_rev in Hs.
  apply (find_none _ _ Hf) in Hs. by rewrite String.eqb_refl in Hs.
Qed.

Lemma advance_closed fuel steps w run stored w' e :
  closed_steps steps →
  (∀ c n, run_current_step run = Some (String c n) →
          String c n ∈ step_id <$> steps) →
  get_run (db w) (run_id run) = Some stored →
  advance fuel (build_step_map steps) w run = (w', Raised e) →
  ∃ sid, failure_recorded (db w') (run_id run) sid e.
Proof.
  intros Hclosed. revert w run stored w' e.
  induction fuel as [|fuel IH]; intros w run stored w' e Hin Hst;
    cbn [WorkflowEngine.advance]; [done|].
  destruct (run_current_step run) as [[|c current]|] eqn:Hcur; [done| |done].
  destruct (build_step_map_dom steps (String c current) (Hin _ _ eq_refl))
    as [step Hstep].
  rewrite Hstep.
  destruct (execute_step w run step) as [w1 [[ctx result]|e1]] eqn:Hexec.
  - pose proof (execute_step_db w run step) as [Hdb _].
    rewrite Hexec in Hdb; simpl in Hdb.
    destruct (result_pause result); [done|].
    cbn [next_uuid]. cbv zeta.
    destruct (negb (opt_truthy (run_current_step
                (set_current_step (step_next step) (set_context ctx run)))))
      eqn:Hnext; [done|].
    intros Hadv. eapply IH in Hadv; [exact Hadv| |].
    + intros c' n' Hc'. cbn [run_current_step set_current_step] in Hc'.
      eapply Hclosed; [|exact Hc']. by eapply build_step_map_elem.
    + eapply (do_commit_stored _ (set_current_step (step_next step)
                                    (set_context ctx run))).
      simpl. rewrite Hdb. exact Hst.
  - pose proof (execute_step_db w run step) as [Hdb _].
    rewrite Hexec in Hdb; simpl in Hdb. rewrite <- Hdb in Hst.
    pose proof (handle_failure_recorded w1 run step e1 stored Hst
                  (get_run_id _ _ _ Hst)) as [Hrec _].
    rewrite (handle_failure_stored _ _ _ _ _ Hst) in Hrec |- *.
    intros [= <- <-]. eauto.
Qed.

Lemma dangling_next_none (steps : list Step) :
  Workflows.dangling_next steps = None → closed_steps steps.
Proof.
  intros Hnone s c n Hs Hnext.
  apply list_elem_of_In in Hs. apply (find_none _ _ Hnone) in Hs.
  rewrite Hnext in Hs. cbn [opt_truthy str_truthy default from_option id andb] in Hs.
  apply negb_false_iff in Hs. by apply bool_decide_eq_true_1 in Hs.
Qed.

Lemma closed_steps_perm (steps steps' : list Step) :
  steps' ≡ₚ steps → closed_steps steps → closed_steps steps'.
Proof.
  intros Hp Hc s c n Hs Hnext. rewrite Hp in Hs |- *. by eapply Hc.
Qed.

(** X24. What [create_workflow] accepts: a non-empty list of steps whose
    start step and whose every non-empty [next] is the identifier of one of
    the steps. The workflow is then stored under the identifier drawn, with
    version 1 and the steps as given, and can be read back; the other
    workflows, the runs and the history are as before. *)
Theorem create_workflow_accepted (w w' : world) (name start_step : string)
    (steps : list Step) (wf : Workflow) :
  Workflows.create_workflow uuid4 w name start_step steps = (w', Response wf) →
  steps ≠ []
  ∧ start_step ∈ step_id <$> steps
  ∧ closed_steps steps
  ∧ wf = {| wf_id := uuid4 (uuids_drawn w); wf_version := 1; wf_name := name;
            wf_start_step := start_step; wf_steps := steps |}
  ∧ get_workflow (db w') (wf_id wf) = Some wf
  ∧ (∀ id, id ≠ wf_id wf → get_workflow (db w') id = get_workflow (db w) id)
  ∧ runs (db w') = runs (db w)
  ∧ run_steps (db w') = run_steps (db w).
Proof.
  unfold Workflows.create_workflow.
  destruct steps as [|s0 rest] eqn:Hsteps; [done|]. rewrite <- Hsteps.
  destruct (negb _) eqn:Hstart; [done|].
  destruct (Workflows.dangling_next steps) eqn:Hd; [done|].
  cbn [next_uuid]. cbv zeta. cbn [db].
  destruct (existsb _ _) eqn:Hex; [done|].
  intros [= <- <-]. cbn [db workflows runs run_steps wf_id].
  split; [by rewrite Hsteps|]. split.
  { apply negb_false_iff in Hstart. by apply bool_decide_eq_true_1 in Hstart. }
  split; [by apply dangling_next_none|]. split; [done|].
  assert (Hfresh : ∀ id, List.find (λ wf, String.eqb (wf_id wf) id) (workflows (db w)) = None
                         ∨ id ≠ uuid4 (uuids_drawn w)).
  { intros id. destruct (String.eqb_spec id (uuid4 (uuids_drawn w))) as [->|Hne];
      [left|by right].
    destruct (List.find _ _) as [x|] eqn:Hf; [|done].
    apply find_some in Hf as [Hin Hx].
    assert (existsb (λ wf, String.eqb (wf_id wf) (uuid4 (uuids_drawn w)))
              (workflows (db w)) = true) as Ht
      by (apply existsb_exists; eauto).
    by rewrite Ht in Hex. }
  split; [|split; [|done]].
  - unfold get_workflow. cbn [workflows]. rewrite find_app.
    destruct (Hfresh (uuid4 (uuids_drawn w))) as [-> |?]; [|done].
    cbn [List.find wf_id]. by rewrite String.eqb_refl.
  - intros id Hid. unfold get_workflow. cbn [workflows]. rewrite find_app.
    destruct (List.find _ (workflows (db w))); [done|].
    cbn [List.find wf_id].
    destruct (String.eqb_spec (uuid4 (uuids_drawn w)) id) as [<-|?]; done.
Qed.

(** X25. A run of a workflow that [create_workflow] accepted never fails
    for a step that does not exist, in whatever order the step rows are
    loaded: started at the start step, or at any step of the workflow, the
    loop raises only what the executor of a step raised, after recording
    the failed run step and the failed status. *)
Theorem accepted_workflow_never_dangles (w0 w1 : world) (name start_step : string)
    (steps steps' : list Step) (wf : Workflow) (fuel : nat) (w w' : world)
    (run stored : Run) (current : string) (e : exn) :
  Workflows.create_workflow uuid4 w0 name start_step steps = (w1, Response wf) →
  steps' ≡ₚ wf_steps wf →
  run_current_step run = Some current →
  current = wf_start_step wf ∨ current ∈ step_id <$> wf_steps wf →
  get_run (db w) (run_id run) = Some stored →
  advance fuel (build_step_map steps') w run = (w', Raised e) →
  ∃ sid, failure_recorded (db w') (run_id run) sid e.
Proof.
  intros Hcreate Hperm Hcur Hin Hst Hadv.
  assert (Hacc : start_step ∈ step_id <$> steps ∧ closed_steps steps
                 ∧ wf_start_step wf = start_step ∧ wf_steps wf = steps).
  { revert Hcreate. unfold Workflows.create_workflow.
    destruct steps as [|s0 rest] eqn:Hsteps; [done|]. rewrite <- Hsteps.
    destruct (negb _) eqn:Hstart; [done|].
    destruct (Workflows.dangling_next steps) eqn:Hd; [done|].
    cbn [next_uuid]. cbv zeta. destruct (existsb _ _); [done|].
    intros [= _ <-]. split; [|split; [by apply dangling_next_none|done]].
    apply negb_false_iff in Hstart. by apply bool_decide_eq_true_1 in Hstart. }
  destruct Hacc as (Hstart & Hclosed & Hws & Hsteps).
  rewrite Hsteps in Hperm, Hin. rewrite Hws in Hin.
  eapply (advance_closed fuel steps'); [|  |exact Hst|exact Hadv].
  - by eapply closed_steps_perm.
  - intros c n Hc. rewrite Hcur in Hc. injection Hc as ->.
    rewrite Hperm. by destruct Hin as [->|?].
Qed.

(** ** Starting a run over HTTP *)

Variable generate_idempotency_key : string → gmap string json → string.

Local Abbreviation start_execution :=
  (Executions.start_execution uuid4 token_urlsafe provider validate asteval
     generate_idempotency_key).

Lemma start_run_raised_created fuel w workflow_id inputs a k w' e :
  start_run fuel w workflow_id inputs (Some (String a k)) = (w', Raised e) →
  Executions.is_value_error e = true →
  get_workflow (db w) workflow_id ≠ None →
  ∃ last,
    get_run_by_key (db w') (String a k) = Some last
    ∧ get_run (db w') (run_id last) = Some last
    ∧ run_id last = uuid4 (uuids_drawn w)
    ∧ run_status last = "failed"
    ∧ Forall (λ x, run_id x ≠ run_id last) (runs (db w))
    ∧ ((∃ sid, failure_recorded (db w') (run_id last) sid e)
       ∨ dangling_step (db w') (run_id last) e).
Proof.
  intros Hs He Hwf. revert Hs. unfold WorkflowEngine.start_run.
  set (key := String a k) in *.
  destruct (get_run_by_key (db w) key) as [existing|] eqn:Hlookup; [done|].
  destruct (get_workflow (db w) workflow_id) as [wf|] eqn:Hw; [|done].
  cbn [next_uuid]. cbv zeta.
  match goal with |- context [insert_run ?d ?r] =>
    destruct (insert_run d r) as [d'|e'] eqn:Hins;
    set (run := r) in * end.
  2:{ intros [= _ <-]. revert Hins. unfold insert_run.
      destruct (existsb _ _); [intros [= <-]; discriminate He|].
      destruct (match run_idempotency_key run with Some _ => _ | None => _ end);
        [intros [= <-]; discriminate He|done]. }
  pose proof (get_run_insert _ _ _ Hins) as (Hget & Hwfs & Hruns & _).
  apply insert_run_ok in Hins as (_ & _ & _ & Hold & _).
  cbn [db] in Hruns, Hold, Hget.
  unfold WorkflowEngine._execute_workflow.
  match goal with |- context [get_workflow ?d ?i] =>
    replace (get_workflow d i) with (Some wf) end.
  2:{ symmetry. unfold get_workflow. cbn [db set_db]. cbn [db] in Hwfs.
      rewrite Hwfs. exact Hw. }
  intros Hadv.
  pose proof Hadv as Hadv'.
  eapply advance_runs in Hadv' as (last & Hlast & Hid & Hkey & _);
    [|exact Hruns|exact Hold].
  assert (Hgl : get_run (db w') (run_id run) = Some last).
  { unfold get_run. rewrite Hlast, <- Hid. apply get_run_last. by rewrite Hid. }
  exists last. rewrite Hid. split; [|split; [exact Hgl|split; [done|]]].
  - unfold get_run_by_key. rewrite Hlast. by apply get_run_by_key_last.
  - eapply advance_raised in Hadv as Hcases; [|exact Hget].
    split; [|split; [exact Hold|exact Hcases]].
    destruct Hcases as [(sid & Hrec)|Hd].
    + destruct Hrec as (? & ? & stored & _ & _ & _ & _ & _ & _ & Hst & Hfailed).
      rewrite Hgl in Hst. by injection Hst as <-.
    + destruct Hd as (? & stored & _ & Hst & Hfailed).
      rewrite Hgl in Hst. by injection Hst as <-.
Qed.

(** X26. [start_execution] never answers with a run that is alive. When
    the engine returns the run, created or found by its key, the handler's
    call of [execute_step] raises [TypeError]. The only run the handler can
    answer with is one that this very call created and that has already
    failed, with a [ValueError] whose message contains "already exists". *)
Theorem start_execution_answers_only_failed_runs (fuel : nat) (w w' : world)
    (run_data : Executions.RunCreate) (r : Run) :
  (∀ workflow_id inputs, generate_idempotency_key workflow_id inputs ≠ EmptyString) →
  start_execution fuel w run_data = (w', Response r) →
  run_status r = "failed"
  ∧ run_id r = uuid4 (uuids_drawn w)
  ∧ get_run (db w') (run_id r) = Some r
  ∧ Forall (λ x, run_id x ≠ run_id r) (runs (db w))
  ∧ ∃ e, contains "already exists" (lower (str_exn e)) = true
         ∧ ((∃ sid, failure_recorded (db w') (run_id r) sid e)
            ∨ dangling_step (db w') (run_id r) e).
Proof.
  intros Hkey. unfold Executions.start_execution.
  destruct (get_workflow (db w) (Executions.create_workflow_id run_data))
    as [wf|] eqn:Hwf; [|done].
  cbv zeta.
  set (key := match Executions.create_idempotency_key run_data with
              | Some (String _ _ as key) => key
              | _ => generate_idempotency_key _ _
              end).
  assert (Hne : key ≠ EmptyString).
  { unfold key. destruct (Executions.create_idempotency_key run_data) as [[|a k]|];
      [apply Hkey|done|apply Hkey]. }
  destruct key as [|a k]; [done|].
  destruct (WorkflowEngine.start_run _ _ _ _ _ _ _ _ _ _) as [w1 [run|e|]] eqn:Hs;
    [done| |done].
  destruct (Executions.is_value_error e) eqn:He; [|done].
  destruct (contains _ _) eqn:Hc; [|done].
  destruct (get_run_by_key (db w1) (String a k)) as [existing|] eqn:Hk; [|done].
  intros [= <- <-].
  apply start_run_raised_created in Hs as (last & Hlk & Hget & Hid & Hst & Hold & Hcases);
    [|exact He|by rewrite Hwf].
  rewrite Hk in Hlk. injection Hlk as <-.
  split; [exact Hst|]. split; [exact Hid|]. split; [exact Hget|].
  split; [exact Hold|]. exists e. split; [exact Hc|exact Hcases].
Qed.

(** ** Updating a workflow *)

Lemma get_workflow_id d id wf : get_workflow d id = Some wf → wf_id wf = id.
Proof.
  unfold get_workflow. intros H. apply find_some in H as [_ H].
  by apply String.eqb_eq in H.
Qed.

Lemma get_workflow_store d wf id :
  get_workflow (Workflows.store_workflow d wf) id
  = if String.eqb (wf_id wf) id
    then match get_workflow d id with Some _ => Some wf | None => None end
    else get_workflow d id.
Proof.
  unfold get_workflow, Workflows.store_workflow. cbn [workflows].
  induction (workflows d) as [|x xs IH]; [by destruct (String.eqb _ _)|].
  rewrite fmap_cons. cbn [List.find].
  destruct (String.eqb_spec (wf_id x) (wf_id wf)) as [Hx|Hx].
  - destruct (String.eqb_spec (wf_id wf) id) as [Hid|Hid].
    + by rewrite Hx, Hid, String.eqb_refl.
    + rewrite Hx. apply String.eqb_neq in Hid. rewrite Hid.
      exact IH.
  - destruct (String.eqb_spec (wf_id x) id) as [Hxi|Hxi].
    + subst id. apply not_eq_sym in Hx. by apply String.eqb_neq in Hx as ->.
    + exact IH.
Qed.

Lemma closed_steps_dangling_next (steps : list Step) :
  closed_steps steps → Workflows.dangling_next steps = None.
Proof.
  intros Hc. destruct (Workflows.dangling_next steps) as [s|] eqn:Hd; [|done].
  apply find_some in Hd as [Hin Hs]. apply list_elem_of_In in Hin.
  apply andb_true_iff in Hs as [Ht Hn].
  destruct (step_next s) as [[|c n]|] eqn:Hnext; [done| |done].
  apply negb_true_iff, bool_decide_eq_false_1 in Hn.
  destruct Hn. by eapply Hc.
Qed.

(** X27. An accepted [update_workflow] keeps the identifier, raises the
    version by one and touches no other workflow, no run and no history.
    Every non-empty [next] still names a step afterwards; the start step
    names a step when the steps were not replaced, or when a start step was
    given together with a non-empty list of steps. *)
Theorem update_workflow_accepted (w w' : world) (workflow_id : string)
    (workflow_update : Workflows.WorkflowUpdate) (updated : Workflow) :
  Workflows.update_workflow w workflow_id workflow_update = (w', Response updated) →
  ∃ existing,
    get_workflow (db w) workflow_id = Some existing
    ∧ wf_id updated = workflow_id
    ∧ wf_version updated = (wf_version existing + 1)%Z
    ∧ get_workflow (db w') workflow_id = Some updated
    ∧ (∀ id, id ≠ workflow_id → get_workflow (db w') id = get_workflow (db w) id)
    ∧ runs (db w') = runs (db w)
    ∧ run_steps (db w') = run_steps (db w)
    ∧ (closed_steps (wf_steps existing) → closed_steps (wf_steps updated))
    ∧ ((∀ l, Workflows.update_steps workflow_update ≠ Workflows.Given l) →
       wf_steps updated = wf_steps existing
       ∧ (wf_start_step existing ∈ step_id <$> wf_steps existing →
          wf_start_step updated ∈ step_id <$> wf_steps updated))
    ∧ (∀ s, Workflows.update_start_step workflow_update = Workflows.Given s →
            Workflows.update_steps workflow_update ≠ Workflows.Given [] →
            wf_start_step updated = s ∧ s ∈ step_id <$> wf_steps updated).
Proof.
  unfold Workflows.update_workflow.
  destruct (get_workflow (db w) workflow_id) as [existing|] eqn:Hget; [|done].
  pose proof (get_workflow_id _ _ _ Hget) as Hid.
  intros H. exists existing. split; [done|].
  assert (Hbody :
    ∃ start_ok steps_ok,
      updated = {| wf_id := wf_id existing;
                   wf_version := (wf_version existing + 1)%Z;
                   wf_name := match Workflows.update_name workflow_update with
                              | Workflows.Given n => n
                              | _ => wf_name existing
                              end;
                   wf_start_step := start_ok; wf_steps := steps_ok |}
      ∧ db w' = Workflows.store_workflow (db w) updated
      ∧ match Workflows.update_steps workflow_update with
        | Workflows.Given l => steps_ok = l ∧ Workflows.dangling_next l = None
        | _ => steps_ok = wf_steps existing
        end
      ∧ match Workflows.update_start_step workflow_update with
        | Workflows.Given s =>
          start_ok = s
          ∧ s ∈ match Workflows.update_steps workflow_update with
                | Workflows.Given ((_ :: _) as l) => step_id <$> l
                | _ => step_id <$> wf_steps existing
                end
        | _ => start_ok = wf_start_step existing
        end).
  { revert H.
    destruct (Workflows.update_name workflow_update) as [| |nm];
      destruct (Workflows.update_start_step workflow_update) as [| |s];
      destruct (Workflows.update_steps workflow_update) as [| |l];
      try done; cbv zeta;
      repeat match goal with
        | |- context [negb (bool_decide ?P)] =>
          destruct (bool_decide_reflect P); cbn [negb]
        | |- context [Workflows.dangling_next ?l] =>
          destruct (Workflows.dangling_next l) eqn:?
        end;
      try done; intros [= <- <-]; do 2 eexists; cbn [db];
      repeat split; try done. }
  destruct Hbody as (start_ok & steps_ok & Hupd & Hdb & Hsteps & Hstart).
  assert (Hwid : wf_id updated = workflow_id) by (by rewrite Hupd).
  rewrite Hdb. cbn [Workflows.store_workflow runs run_steps].
  split; [done|]. split; [by rewrite Hupd|].
  split. { by rewrite get_workflow_store, Hwid, String.eqb_refl, Hget. }
  split.
  { intros id Hne. rewrite get_workflow_store, Hwid.
    apply not_eq_sym in Hne. by apply String.eqb_neq in Hne as ->. }
  split; [done|]. split; [done|].
  assert (Hws : wf_steps updated = steps_ok) by (by rewrite Hupd).
  assert (Hwst : wf_start_step updated = start_ok) by (by rewrite Hupd).
  rewrite Hws, Hwst. split; [|split].
  - intros Hc. destruct (Workflows.update_steps workflow_update) as [| |l].
    + by rewrite Hsteps.
    + by rewrite Hsteps.
    + destruct Hsteps as [-> Hd]. by apply dangling_next_none.
  - intros Hno. destruct (Workflows.update_steps workflow_update) as [| |l] eqn:Hl;
      [| |by destruct (Hno l)]; subst steps_ok; (split; [done|]); intros Hold;
      destruct (Workflows.update_start_step workflow_update);
      try (by rewrite Hstart); by destruct Hstart as [-> ?].
  - intros s Hs Hnonempty. rewrite Hs in Hstart. destruct Hstart as [-> Hin].
    split; [done|].
    destruct (Workflows.update_steps workflow_update) as [| |[|x l]] eqn:Hl;
      [by rewrite Hsteps|by rewrite Hsteps|done|].
    destruct Hsteps as [-> _]. exact Hin.
Qed.

Lemma build_step_map_absent (steps : list Step) (k : string) :
  k ∉ step_id <$> steps → build_step_map steps !! k = None.
Proof.
  intros Hk. destruct (build_step_map steps !! k) as [s|] eqn:Hs; [|done].
  destruct Hk. apply list_elem_of_fmap. exists s.
  split; [symmetry; by eapply build_step_map_id|by eapply build_step_map_elem].
Qed.

Lemma insert_run_fresh d r :
  Forall (λ x, run_id x ≠ run_id r) (runs d) →
  run_idempotency_key r = None →
  insert_run d r = Ok {| workflows := workflows d; runs := runs d ++ [r];
                         run_steps := run_steps d |}.
Proof.
  intros Hfresh Hkey. unfold insert_run. rewrite Hkey.
  assert (existsb (λ r', String.eqb (run_id r') (run_id r)) (runs d) = false) as ->;
    [|done].
  induction Hfresh as [|x xs Hx _ IH]; [done|]. cbn [existsb].
  apply String.eqb_neq in Hx. by rewrite Hx, IH.
Qed.

(** X28. [update_workflow] does not check the start step against steps
    that replace the old ones: when the steps are replaced, consistently
    among themselves, and no start step is given, the update is accepted
    even if the start step of the workflow is none of the new steps. Every
    run started on the workflow afterwards is created, finds no step to
    execute, and is left failed: [start_run] raises
    [ValueError "Step <start> not found in workflow"]. *)
Theorem update_workflow_orphans_start_step (fuel : nat) (w : world)
    (workflow_id : string) (existing : Workflow)
    (workflow_update : Workflows.WorkflowUpdate) (l : list Step)
    (c : ascii) (n : string) (inputs : gmap string json) :
  get_workflow (db w) workflow_id = Some existing →
  Workflows.update_steps workflow_update = Workflows.Given l →
  (∀ s, Workflows.update_start_step workflow_update ≠ Workflows.Given s) →
  closed_steps l →
  wf_start_step existing = String c n →
  String c n ∉ step_id <$> l →
  Forall (λ r, run_id r ≠ uuid4 (uuids_drawn w + length l)) (runs (db w)) →
  ∃ w1 updated w2,
    Workflows.update_workflow w workflow_id workflow_update = (w1, Response updated)
    ∧ wf_steps updated = l
    ∧ wf_start_step updated = String c n
    ∧ start_run (S fuel) w1 workflow_id inputs None
      = (w2, Raised (ValueError ("Step " +:+ String c n +:+ " not found in workflow")))
    ∧ dangling_step (db w2) (uuid4 (uuids_drawn w + length l))
        (ValueError ("Step " +:+ String c n +:+ " not found in workflow")).
Proof.
  intros Hget Hsteps Hstart Hclosed Hold Hnot Hfresh.
  pose proof (get_workflow_id _ _ _ Hget) as Hid.
  set (updated :=
    {| wf_id := wf_id existing; wf_version := (wf_version existing + 1)%Z;
       wf_name := match Workflows.update_name workflow_update with
                  | Workflows.Given nm => nm
                  | _ => wf_name existing
                  end;
       wf_start_step := String c n; wf_steps := l |}).
  set (w1 := {| db := Workflows.store_workflow (db w) updated;
                uuids_drawn := uuids_drawn w + length l;
                tokens_drawn := tokens_drawn w;
                provider_calls := provider_calls w |}).
  assert (Hupd : Workflows.update_workflow w workflow_id workflow_update
                 = (w1, Response updated)).
  { unfold Workflows.update_workflow. rewrite Hget, Hsteps.
    rewrite (closed_steps_dangling_next l Hclosed).
    unfold w1, updated. rewrite Hold.
    destruct (Workflows.update_name workflow_update);
      destruct (Workflows.update_start_step workflow_update) as [| |s];
      try reflexivity; by destruct (Hstart s). }
  assert (Hw1 : get_workflow (db w1) workflow_id = Some updated).
  { unfold w1. cbn [db]. rewrite get_workflow_store. cbn [wf_id updated].
    by rewrite Hid, String.eqb_refl, Hget. }
  set (run := {| run_id := uuid4 (uuids_drawn w1); run_workflow_id := workflow_id;
                 run_workflow_version := wf_version updated;
                 run_status := "running";
                 run_current_step := Some (wf_start_step updated);
                 run_context := {| static := ∅; profile := ∅; runtime := inputs |};
                 run_idempotency_key := None |}).
  set (w2 := set_db {| workflows := workflows (db w1);
                       runs := (runs (db w1) ++ [run])%list;
                       run_steps := run_steps (db w1) |}
               (next_uuid uuid4 w1).2).
  assert (Hrun : get_run (db w2) (run_id run) = Some run).
  { unfold w2, get_run. cbn [db set_db runs]. apply get_run_last. exact Hfresh. }
  exists w1, updated, (do_commit w2 (set_status "failed" run) []).
  split; [exact Hupd|]. split; [reflexivity|]. split; [reflexivity|]. split.
  - unfold WorkflowEngine.start_run. rewrite Hw1.
    cbn [next_uuid]. cbv zeta. fold run.
    change (insert_run _ run) with (insert_run (db w1) run).
    rewrite (insert_run_fresh (db w1) run Hfresh eq_refl).
    unfold WorkflowEngine._execute_workflow.
    change (get_workflow (db (set_db _ _)) (run_workflow_id run))
      with (get_workflow (db w1) workflow_id).
    rewrite Hw1. cbn [WorkflowEngine.advance run_current_step run wf_start_step
                       wf_steps updated].
    rewrite (build_step_map_absent l (String c n) Hnot). reflexivity.
  - exists (String c n), (set_status "failed" run). split; [reflexivity|].
    split; [|reflexivity].
    apply (do_commit_stored w2 (set_status "failed" run) [] run). exact Hrun.
Qed.

(** ** Deleting a workflow *)

(** X29. [delete_workflow] removes no run that is queued, running or
    waiting: when it answers 204 the workflow had no such run, and what is
    gone is the workflow, its runs and the run steps of those runs; every
    other workflow, run and run step is as before. *)
Theorem delete_workflow_removes_settled_runs (w w' : world) (workflow_id : string) :
  Workflows.delete_workflow w workflow_id = (w', Response tt) →
  get_workflow (db w') workflow_id = None
  ∧ (∀ id, id ≠ workflow_id → get_workflow (db w') id = get_workflow (db w) id)
  ∧ (∀ r, r ∈ runs (db w) → run_workflow_id r = workflow_id →
          run_status r ∉ (["queued"; "running"; "waiting"] : list string))
  ∧ (∀ r, r ∈ runs (db w') ↔ r ∈ runs (db w) ∧ run_workflow_id r ≠ workflow_id)
  ∧ (∀ rs, rs ∈ run_steps (db w')
           ↔ rs ∈ run_steps (db w)
             ∧ ∀ r, r ∈ runs (db w) → run_id r = rs_run_id rs →
                    run_workflow_id r ≠ workflow_id).
Proof.
  unfold Workflows.delete_workflow.
  destruct (get_workflow (db w) workflow_id) as [wf|]; [|done].
  destruct (List.filter _ (runs (db w))) as [|a [|b rest]] eqn:Hactive; [|done..].
  intros [= <-]. cbn [db set_db workflows runs run_steps].
  split; [|split; [|split; [|split]]].
  - unfold get_workflow. cbn [workflows].
    destruct (List.find _ _) as [x|] eqn:Hf; [|done].
    apply find_some in Hf as [Hin Hx]. apply filter_In in Hin as [_ Hne].
    by rewrite Hx in Hne.
  - intros id Hne. unfold get_workflow. cbn [workflows].
    induction (workflows (db w)) as [|x xs IH]; [done|]. cbn [List.filter List.find].
    destruct (String.eqb_spec (wf_id x) workflow_id) as [Hx|Hx]; cbn [negb List.find].
    + rewrite IH. rewrite Hx. apply not_eq_sym in Hne.
      by apply String.eqb_neq in Hne as ->.
    + by rewrite IH.
  - intros r Hr Hwf Hst.
    assert (In r (List.filter (Workflows.active_run_of workflow_id) (runs (db w))))
      as Hin; [|by rewrite Hactive in Hin].
    apply filter_In. split; [by apply list_elem_of_In|].
    unfold Workflows.active_run_of. rewrite Hwf, String.eqb_refl. cbn [andb].
    apply existsb_exists. exists (run_status r).
    split; [by apply list_elem_of_In|apply String.eqb_refl].
  - intros r. rewrite list_elem_of_In, filter_In, <- list_elem_of_In.
    rewrite negb_true_iff, String.eqb_neq. done.
  - intros rs. rewrite list_elem_of_In, filter_In, <- list_elem_of_In.
    rewrite negb_true_iff, bool_decide_eq_false.
    split; intros [Hrs Hno]; (split; [exact Hrs|]).
    + intros r Hr Hid Hwf. apply Hno. rewrite <- Hid.
      apply list_elem_of_fmap_2. apply list_elem_of_In, filter_In.
      split; [by apply list_elem_of_In|]. by apply String.eqb_eq.
    + intros Hin. apply list_elem_of_fmap in Hin as (r & Hid & Hr).
      apply list_elem_of_In, filter_In in Hr as [Hr Hwf].
      apply String.eqb_eq in Hwf. apply list_elem_of_In in Hr.
      by apply (Hno r Hr).
Qed.
End EngineProperties.

(** ** Instances *)

Lemma C8_expression_length_boundary_witness :
  (_validate_expression (ones 256) = Ok tt
   ∧ ConditionalExecutor.execute (λ _ _, InterpValue (JNum 1)) (ones 256)
       {| static := ∅; profile := ∅; runtime := ∅ |} "c"
     = ConditionalExecutor.evaluate (λ _ _, InterpValue (JNum 1)) (ones 256)
         {| static := ∅; profile := ∅; runtime := ∅ |})
  ∧ (∃ msg, _validate_expression (ones 257) = Exc (ValueError msg)
            ∧ ∀ interp, ConditionalExecutor.execute interp (ones 257)
                          {| static := ∅; profile := ∅; runtime := ∅ |} "c"
                        = Exc (ValueError msg))
  ∧ (_validate_expression "   " = Exc (ValueError "Expression cannot be empty")
     ∧ ∀ interp, ConditionalExecutor.execute interp "   "
                   {| static := ∅; profile := ∅; runtime := ∅ |} "c"
                 = Exc (ValueError "Expression cannot be empty")).
Proof.
  split; [|split].
  - apply (C8_expression_length_boundary (λ _ _, InterpValue (JNum 1))
             {| static := ∅; profile := ∅; runtime := ∅ |} "c" (ones 256));
      vm_compute; reflexivity.
  - apply (C8_expression_length_boundary (λ _ _, InterpValue (JNum 1))
             {| static := ∅; profile := ∅; runtime := ∅ |} "c" (ones 257)).
    vm_compute; reflexivity.
  - apply (C8_expression_length_boundary (λ _ _, InterpValue (JNum 1))
             {| static := ∅; profile := ∅; runtime := ∅ |} "c" "   ").
    vm_compute; reflexivity.
Defined.

Lemma C5_attribute_access_check_witness :
  (∃ msg, _validate_expression "user.__class__" = Exc (ValueError msg)
          ∧ ∀ interp, ConditionalExecutor.execute interp "user.__class__"
                        {| static := ∅; profile := ∅; runtime := ∅ |} "c"
                      = Exc (ValueError msg))
  ∧ _validate_expression "x > 3.14"
      ≠ Exc (ValueError "Attribute access not allowed in expressions")
  ∧ (_validate_expression "a__b" = Ok tt ↔ ¬ has_attribute_pattern "a__b").
Proof.
  split; [|split].
  - apply (C5_attribute_access_check
             {| static := ∅; profile := ∅; runtime := ∅ |} "c" "user.__class__").
    apply attribute_access_spec. reflexivity.
  - apply (C5_attribute_access_check
             {| static := ∅; profile := ∅; runtime := ∅ |} "c" "x > 3.14").
    rewrite <- attribute_access_spec. discriminate.
  - apply (C5_attribute_access_check
             {| static := ∅; profile := ∅; runtime := ∅ |} "c" "a__b").
    + reflexivity.
    + vm_compute. lia.
Defined.

Lemma C10_null_binding_shadows_witness :
  let cfg := {| template_id := "greet"; variables := ["name"];
                json_schema := JObj ∅ |} in
  let ctx := {| static := {["name" := JNull]}; profile := ∅;
                runtime := {["name" := JStr "Diana"]} |} in
  _extract_variables cfg ctx = Exc (ValueError (not_found_message "name"))
  ∧ _extract_variables cfg (forget "name" ctx) = _extract_variables cfg ctx.
Proof.
  intros cfg ctx.
  apply (C10_null_binding_shadows cfg ctx [] [] "name").
  - reflexivity.
  - constructor.
  - left. reflexivity.
Defined.

(** ** Scenarios *)

(** C4 fails on the code. A workflow whose only step is a form pauses at
    it; resuming with valid inputs moves [current_step] to the step's empty
    [next], sets the status to running and enters a loop that has nothing to
    run, so the run is returned, and stored, running with no current step
    and is never completed. *)
Lemma C4_terminal_pause_resume_left_running :
  match demo_start_run 5 demo_world "wf-form" ∅ None with
  | (w1, Returned r1) =>
    run_status r1 = "waiting" ∧ run_current_step r1 = Some "collect"
    ∧ match demo_resume_run 5 w1 (run_id r1) (Some {["name" := JStr "Diana"]}) with
      | (w2, Returned r2) =>
        run_status r2 = "running" ∧ run_current_step r2 = None
        ∧ get_run (db w2) (run_id r1) = Some r2
      | _ => False
      end
  | _ => False
  end.
Proof. vm_compute. repeat split; reflexivity. Qed.

Lemma C1_executor_failure_recorded_witness :
  ∃ w', demo_advance 1 (build_step_map [conditional_step]) check_world check_run
        = (w', Raised undefined_error)
    ∧ run_steps (db w')
      = [failed_step "id-1" "id-0" "check" "conditional"
           "NameError: name 'undefined' is not defined"]
    ∧ get_run (db w') "id-0" = Some (set_status "failed" check_run).
Proof.
  destruct (proj1 (C1_executor_failure_recorded demo_uuid4 demo_token
              demo_provider demo_validate demo_asteval 0
              (build_step_map [conditional_step]) check_world check_run
              "c"%char "heck" conditional_step check_world undefined_error
              check_run) eq_refl eq_refl eq_refl eq_refl)
    as (w' & Hadv & Hsteps & Hrun & _).
  exists w'. split; [exact Hadv|]. split; [exact Hsteps|exact Hrun].
Defined.

(** Resuming a run whose workflow row is gone commits the run with status
    running and the inputs merged, and raises; no run step is recorded and
    the run is not marked failed. *)
Lemma resume_without_workflow_left_running :
  match demo_resume_run 5 (stored_alone orphan_run) "id-0"
          (Some {["a" := JNum 1]}) with
  | (w', Raised e) =>
    e = ValueError "Workflow gone not found"
    ∧ run_steps (db w') = []
    ∧ match get_run (db w') "id-0" with
      | Some r =>
        run_status r = "running" ∧ runtime (run_context r) !! "a" = Some (JNum 1)
      | None => False
      end
  | _ => False
  end.
Proof. vm_compute. repeat split; reflexivity. Qed.

(** The same call through the HTTP handler: a 400 while the run stays
    running. *)
Lemma resume_execution_without_workflow_left_running :
  match demo_resume_execution 5 (stored_alone orphan_run) "id-0" name_request with
  | (w', HTTPException code detail) =>
    code = 400 ∧ detail = "Workflow gone not found"
    ∧ run_steps (db w') = []
    ∧ (run_status <$> get_run (db w') "id-0") = Some "running"
  | _ => False
  end.
Proof. vm_compute. repeat split; reflexivity. Qed.




Lemma C9_idempotency_lookup_by_key_alone_witness :
  demo_start_run 3 (world_after first_start) "no-such-workflow" ∅ (Some "k")
  = (world_after first_start, Returned first_run)
  ∧ (get_workflow (db (world_after first_start)) "no-such-workflow" = None →
     ∀ msg, demo_start_run 3 (world_after first_start) "no-such-workflow" ∅ (Some "k")
            ≠ (world_after first_start, Raised (ValueError msg))).
Proof.
  apply (C9_idempotency_lookup_by_key_alone demo_uuid4 demo_token demo_provider
           demo_validate demo_asteval 3 (world_after first_start)
           "no-such-workflow" ∅ "k" first_run).
  - discriminate.
  - vm_compute. reflexivity.
Defined.

(** C9, as stated, fails for the empty key: a stored run has it, and yet the
    call goes on to the workflow lookup and raises. *)
Lemma C9_empty_key_not_looked_up :
  ¬ (∀ (w : world) (workflow_id : string) (inputs : gmap string json)
       (k : string) (existing : Run),
       get_run_by_key (db w) k = Some existing →
       demo_start_run 5 w workflow_id inputs (Some k) = (w, Returned existing)).
Proof.
  intros H.
  pose (first := demo_start_run 5 demo_world "wf-form" ∅ (Some EmptyString)).
  specialize (H (world_after first) "no-such-workflow" ∅ EmptyString
                (default check_run (run_after first))).
  assert (Hkey : get_run_by_key (db (world_after first)) EmptyString
                 = Some (default check_run (run_after first)))
    by (vm_compute; reflexivity).
  specialize (H Hkey). vm_compute in H. discriminate H.
Qed.

Lemma C6_approval_resume_witness :
  ∃ run',
    prepare_resume (world_after approval_start) approval_run
      (Some {["approval" := JObj approved_ok]}) = Ok run'
    ∧ run_current_step run' = None
    ∧ run_status run' = "running"
    ∧ runtime (run_context run') !! "approve_approval"
      = Some (decided approved_ok pending_meta (JBool true)).
Proof.
  destruct (proj2 (C6_approval_resume demo_uuid4 demo_token demo_provider
              demo_validate demo_asteval (world_after approval_start)
              approval_run "a"%char "pprove"
              (workflow_of "wf-approval" approval_step) approval_step
              {["approval" := JObj approved_ok]}
              eq_refl eq_refl eq_refl eq_refl
              ltac:(intros H; apply (f_equal (λ m, m !! "approval")) in H;
                    vm_compute in H; discriminate H))
              approved_ok (JBool true) pending_meta
              ltac:(vm_compute; reflexivity) ltac:(vm_compute; reflexivity)
              ltac:(vm_compute; reflexivity))
    as (run' & Hprep & Hcur & Hst & _ & _ & Hdec & _).
  exists run'. split; [exact Hprep|]. split; [exact Hcur|].
  split; [exact Hst|]. apply Hdec. vm_compute. reflexivity.
Defined.

(** C6, as stated, fails: a decision whose [approved] is not a boolean (the
    string "no") is not refused; it is recorded as approved and the run
    moves on. *)
Lemma C6_non_boolean_decision_accepted :
  (∀ b, JStr "no" ≠ JBool b)
  ∧ match demo_resume_run 5 (world_after approval_start) (run_id approval_run)
            (Some {["approval" := JObj {["approved" := JStr "no"]}]}) with
    | (_, Returned r) =>
      match runtime (run_context r) !! "approve_approval" with
      | Some (JObj meta) => meta !! "status" = Some (JStr "approved")
      | _ => False
      end
    | _ => False
    end.
Proof. split; [discriminate|]. vm_compute. reflexivity. Qed.

(** C7 on the schema of the name form. *)
Lemma C7_validate_fields_spec_witness :
  (FormExecutor.validate_fields [name_field; bio_field] profile_inputs
   = Ok {["name" := JStr "Diana"; "bio" := JStr "hi"]}
   ∧ Forall (λ f, ¬ field_rejected profile_inputs f) [name_field; bio_field])
  ∧ (∃ msg, FormExecutor.validate_fields [age_field] {["age" := JStr "5"]}
            = Exc (ValueError msg))
  ∧ Exists (field_rejected {["age" := JStr "5"]}) [age_field].
Proof.
  split; [split; [vm_compute; reflexivity|]|].
  - pose proof (C7_validate_fields_spec [name_field; bio_field] profile_inputs) as H.
    destruct (FormExecutor.validate_fields [name_field; bio_field] profile_inputs)
      as [v|e] eqn:Hv.
    + exact (proj1 H).
    + vm_compute in Hv. discriminate Hv.
  - pose proof (C7_validate_fields_spec [age_field] {["age" := JStr "5"]}) as H.
    destruct (FormExecutor.validate_fields [age_field] {["age" := JStr "5"]})
      as [v|e] eqn:Hv.
    + vm_compute in Hv. discriminate Hv.
    + destruct H as [[msg ->] Hex]. split; [by exists msg|exact Hex].
Defined.

(** Resuming the paused form run with a misspelt field is refused, and the
    tables stay as they were: one run step, the completed pause. *)
Lemma form_resume_refused :
  demo_resume_run 5 (world_after form_start) "id-0"
    (Some {["nme" := JStr "Diana"]})
  = (world_after form_start,
     Raised (ValueError "Required field 'name' is missing")).
Proof. vm_compute. reflexivity. Qed.

Lemma form_start_steps :
  List.map rs_status (run_steps (db (world_after form_start))) = ["completed"].
Proof. vm_compute. reflexivity. Qed.

(** C1, as stated, fails in its last part: a [resume_run] refused for
    invalid form data raises and records neither a failed run step nor a
    failed status. *)
Lemma C1_refused_resume_records_nothing :
  ¬ (∀ (w : world) (rid : string) (inputs : option (gmap string json))
       (w' : world) (e : exn),
       demo_resume_run 5 w rid inputs = (w', Raised e) →
       ∃ sid, failure_recorded (db w') rid sid e).
Proof.
  intros H.
  destruct (H _ _ _ _ _ form_resume_refused)
    as (sid & earlier & rs & stored & Hsteps & _ & _ & Hfailed & _).
  pose proof form_start_steps as Hstatus.
  rewrite Hsteps, List.map_app in Hstatus. cbn [List.map] in Hstatus.
  rewrite Hfailed in Hstatus.
  destruct earlier as [|x [|y earlier]]; discriminate Hstatus.
Qed.


(** ** Instances of the further properties *)

Lemma lookup_orders_disagree_witness :
  find_value layered_context "name" = JStr "static"
  ∧ _merge_context_namespaces layered_context !! "name" = Some (JStr "runtime").
Proof.
  apply (lookup_orders_disagree layered_context "name"); vm_compute; reflexivity.
Defined.


Lemma conditional_execute_raises_witness :
  (∃ msg, undefined_error = ValueError msg)
  ∨ (∃ msg, undefined_error = NameError msg ∧ contains "not defined" msg = true
            ∧ demo_asteval "undefined > 10" (_merge_context_namespaces empty_context)
              = InterpError msg)
  ∨ (demo_asteval "undefined > 10" (_merge_context_namespaces empty_context)
     = InterpRaises undefined_error
     ∧ ∀ msg, undefined_error ≠ SyntaxError msg ∧ undefined_error ≠ TypeError msg).
Proof.
  apply (conditional_execute_raises demo_asteval "undefined > 10" empty_context "check").
  vm_compute. reflexivity.
Defined.


Lemma validate_fields_first_error_witness :
  FormExecutor.validate_fields ([name_field] ++ age_field :: [email_field])%list
    age_inputs
  = Exc (ValueError (rejection_message age_inputs age_field))
  ∧ rejection_message age_inputs age_field
    = "Field type 'number' not supported. Only 'text' and 'textarea' are allowed.".
Proof.
  split; [|vm_compute; reflexivity].
  apply (validate_fields_first_error [name_field] [email_field] age_field age_inputs).
  - constructor; [|constructor]. unfold field_rejected.
    replace (age_inputs !! field_key name_field) with (Some (JStr "Diana"))
      by (vm_compute; reflexivity).
    intros [[H _]|H]; [by apply H|by apply (H "Diana")].
  - unfold field_rejected.
    replace (age_inputs !! field_key age_field) with (Some (JNum 5))
      by (vm_compute; reflexivity).
    left. split; discriminate.
Defined.

Lemma form_step_pause_committed_witness :
  ∃ w' r,
    demo_advance 1 (build_step_map [form_step]) (stored_alone collect_run) collect_run
    = (w', Returned r)
    ∧ get_run (db w') "id-0" = Some r
    ∧ run_status r = "waiting".
Proof.
  destruct (form_step_pause_committed demo_uuid4 demo_token demo_provider
              demo_validate demo_asteval 0 (build_step_map [form_step])
              (stored_alone collect_run) collect_run collect_run
              "c"%char "ollect" form_step [name_field]
              eq_refl eq_refl eq_refl eq_refl eq_refl)
    as (w' & r & Hadv & Hget & Hst & _).
  exists w', r. split; [exact Hadv|]. split; [exact Hget|exact Hst].
Defined.

Lemma approval_step_pause_committed_witness :
  ∃ w' r,
    demo_advance 1 (build_step_map [approval_step]) (stored_alone approve_run)
      approve_run = (w', Returned r)
    ∧ run_status r = "waiting"
    ∧ tokens_drawn w' = 1%nat.
Proof.
  destruct (approval_step_pause_committed demo_uuid4 demo_token demo_provider
              demo_validate demo_asteval 0 (build_step_map [approval_step])
              (stored_alone approve_run) approve_run approve_run
              "a"%char "pprove" approval_step ["m@x"]
              eq_refl eq_refl eq_refl eq_refl eq_refl)
    as (w' & r & rs & out & Hadv & _ & Hst & _ & _ & _ & _ & _ & _ & _ & _ & Htok).
  exists w', r. split; [exact Hadv|]. split; [exact Hst|exact Htok].
Defined.

Lemma execute_workflow_returned_witness :
  let r := default check_run (run_after form_pass) in
  (opt_truthy (run_current_step collect_run) = false ∧ r = collect_run
   ∧ world_after form_pass = stored_alone collect_run)
  ∨ (run_status r = "waiting" ∧ opt_truthy (run_current_step r) = true
     ∧ paused_at_current (db (world_after form_pass)) r)
  ∨ (run_status r = "completed" ∧ opt_truthy (run_current_step r) = false).
Proof.
  intros r.
  apply (execute_workflow_returned demo_uuid4 demo_token demo_provider
           demo_validate demo_asteval 5 (stored_alone collect_run)
           (world_after form_pass) collect_run r).
  vm_compute. reflexivity.
Defined.

Lemma resume_run_touches_only_witness :
  touches_only "id-0" (db (world_after form_start))
    (db (demo_resume_run 5 (world_after form_start) "id-0"
           (Some {["name" := JStr "Diana"]})).1).
Proof.
  apply (resume_run_touches_only demo_uuid4 demo_token demo_provider
           demo_validate demo_asteval 5 (world_after form_start) _ "id-0"
           (Some {["name" := JStr "Diana"]})
           (demo_resume_run 5 (world_after form_start) "id-0"
              (Some {["name" := JStr "Diana"]})).2).
  apply surjective_pairing.
Defined.

Lemma start_run_preserves_witness :
  workflows (db (demo_start_run 5 demo_world "wf-form" ∅ None).1)
  = workflows (db demo_world).
Proof.
  apply (start_run_preserves demo_uuid4 demo_token demo_provider demo_validate
           demo_asteval 5 demo_world _ "wf-form" ∅ None
           (demo_start_run 5 demo_world "wf-form" ∅ None).2).
  apply surjective_pairing.
Defined.

Ltac form_start_consistent :=
  split;
  [ replace (run_id <$> runs (db (world_after form_start))) with ["id-0"]
      by (vm_compute; reflexivity);
    apply NoDup_singleton
  | replace (omap run_idempotency_key (runs (db (world_after form_start))))
      with ([] : list string) by (vm_compute; reflexivity);
    constructor ].

Lemma resume_run_consistent_witness :
  db_consistent
    (db (demo_resume_run 5 (world_after form_start) "id-0"
           (Some {["name" := JStr "Diana"]})).1).
Proof.
  apply (resume_run_consistent demo_uuid4 demo_token demo_provider
           demo_validate demo_asteval 5 (world_after form_start) _ "id-0"
           (Some {["name" := JStr "Diana"]})
           (demo_resume_run 5 (world_after form_start) "id-0"
              (Some {["name" := JStr "Diana"]})).2).
  - form_start_consistent.
  - apply surjective_pairing.
Defined.

Lemma start_run_consistent_witness :
  db_consistent
    (db (demo_start_run 5 (world_after form_start) "wf-approval" ∅ (Some "k")).1).
Proof.
  apply (start_run_consistent demo_uuid4 demo_token demo_provider
           demo_validate demo_asteval 5 (world_after form_start) _ "wf-approval" ∅
           (Some "k")
           (demo_start_run 5 (world_after form_start) "wf-approval" ∅ (Some "k")).2).
  - form_start_consistent.
  - apply surjective_pairing.
Defined.

Lemma unrouted_step_fails_run_witness :
  ∃ w',
    demo_advance 1 (build_step_map [webhook_step]) check_world check_run
    = (w', Raised (ValueError "Unsupported step type: webhook"))
    ∧ failure_recorded (db w') "id-0" "check"
        (ValueError "Unsupported step type: webhook").
Proof.
  apply (proj1 (unrouted_step_fails_run demo_uuid4 demo_token demo_provider
                  demo_validate demo_asteval 0 (build_step_map [webhook_step])
                  check_world check_run check_run "c"%char "heck" webhook_step
                  eq_refl eq_refl eq_refl)).
  unfold routed_types. rewrite !not_elem_of_cons.
  repeat split; try discriminate. apply not_elem_of_nil.
Defined.

Lemma form_resume_witness :
  ∃ run',
    prepare_resume (world_after form_start) form_run
      (Some {["name" := JStr "Diana"]}) = Ok run'
    ∧ run_current_step run' = None
    ∧ run_status run' = "running".
Proof.
  pose proof (form_resume demo_uuid4 demo_token demo_provider demo_validate
                demo_asteval (world_after form_start) form_run "c"%char "ollect"
                (workflow_of "wf-form" form_step) form_step [name_field]
                {["name" := JStr "Diana"]}
                eq_refl eq_refl eq_refl eq_refl eq_refl
                ltac:(intros H; apply (f_equal (λ m, m !! "name")) in H;
                      vm_compute in H; discriminate H)
                ltac:(vm_compute; reflexivity) eq_refl) as H.
  destruct (FormExecutor.validate_fields [name_field] {["name" := JStr "Diana"]})
    as [validated|e] eqn:Hval; [|vm_compute in Hval; discriminate Hval].
  destruct H as (run' & Hprep & Hcur & Hst & _).
  exists run'. split; [exact Hprep|]. split; [exact Hcur|exact Hst].
Defined.

Lemma empty_resume_repeats_form_witness :
  ∃ w' r rs,
    demo_resume_run 1 (world_after form_start) "id-0" None = (w', Returned r)
    ∧ run_status r = "waiting"
    ∧ run_steps (db w') = (run_steps (db (world_after form_start)) ++ [rs])%list.
Proof.
  destruct (empty_resume_repeats_form demo_uuid4 demo_token demo_provider
              demo_validate demo_asteval 0 (world_after form_start) form_run
              "c"%char "ollect" (workflow_of "wf-form" form_step) form_step
              [name_field] None (or_introl eq_refl)
              ltac:(vm_compute; reflexivity) eq_refl eq_refl eq_refl eq_refl
              eq_refl eq_refl)
    as (w' & r & rs & Hres & Hst & _ & _ & Hsteps & _).
  exists w', r, rs. split; [exact Hres|]. split; [exact Hst|exact Hsteps].
Defined.

Lemma advance_terminates_witness :
  (advance demo_uuid4 demo_token demo_provider demo_validate one_asteval 2
     (build_step_map [gate_step; form_step]) check_world check_run).2 ≠ OutOfFuel
  ∧ (advance demo_uuid4 demo_token demo_provider demo_validate one_asteval 1
       (build_step_map [gate_step; form_step]) check_world check_run).2 = OutOfFuel.
Proof.
  split; [|vm_compute; reflexivity].
  apply (advance_terminates demo_uuid4 demo_token demo_provider demo_validate
           one_asteval gate_rank 1 (build_step_map [gate_step; form_step])
           check_world check_run).
  - intros k step c n Hk Hnext.
    unfold build_step_map in Hk. cbn [fold_left] in Hk.
    destruct (decide (step_id form_step = k)) as [<-|Hne1].
    + rewrite lookup_insert_eq in Hk. injection Hk as <-. discriminate Hnext.
    + rewrite lookup_insert_ne in Hk by exact Hne1.
      destruct (decide (step_id gate_step = k)) as [<-|Hne2].
      * rewrite lookup_insert_eq in Hk. injection Hk as <-.
        injection Hnext as <- <-. vm_compute. lia.
      * rewrite lookup_insert_ne in Hk by exact Hne2.
        rewrite lookup_empty in Hk. discriminate Hk.
  - vm_compute. lia.
Defined.

Lemma conditional_self_loop_diverges_witness :
  ∃ w',
    advance demo_uuid4 demo_token demo_provider demo_validate one_asteval 3
      (build_step_map [loop_step]) check_world check_run = (w', OutOfFuel)
    ∧ length (run_steps (db w')) = (length (run_steps (db check_world)) + 3)%nat.
Proof.
  apply (conditional_self_loop_diverges demo_uuid4 demo_token demo_provider
           demo_validate one_asteval 3 (build_step_map [loop_step]) check_world
           check_run "c"%char "heck" loop_step "1" (JNum 1));
    try reflexivity; vm_compute; reflexivity.
Defined.

Lemma cancel_execution_closes_run_witness :
  get_run (db (world_after_http form_canceled)) "id-0"
  = Some (set_status "canceled" form_run)
  ∧ ∃ detail,
      Executions.cancel_execution (world_after_http form_canceled) "id-0"
      = (world_after_http form_canceled, HTTPException 409 detail).
Proof.
  destruct (cancel_execution_closes_run demo_uuid4 demo_token demo_provider
              demo_validate demo_asteval (world_after form_start)
              (world_after_http form_canceled) "id-0"
              (set_status "canceled" form_run)
              ltac:(vm_compute; reflexivity))
    as (_ & Hget & _ & _ & Hagain & _).
  split; [exact Hget|exact Hagain].
Defined.

Lemma approval_decision_recorded_witness :
  ∃ run',
    prepare_resume (world_after approval_start) approval_run
      (Some (Executions.approval_inputs Executions.approved (Some "ok"))) = Ok run'
    ∧ run_current_step run' = None.
Proof.
  destruct (approval_decision_recorded demo_uuid4 demo_token demo_provider
              demo_validate demo_asteval (world_after approval_start)
              approval_run "a"%char "pprove"
              (workflow_of "wf-approval" approval_step) approval_step
              pending_meta approve_request Executions.approved
              ltac:(vm_compute; reflexivity) ltac:(vm_compute; reflexivity)
              eq_refl eq_refl eq_refl eq_refl
              ltac:(vm_compute; reflexivity) (or_introl eq_refl) eq_refl)
    as (run' & Hprep & Hcur & _).
  exists run'. split; [exact Hprep|exact Hcur].
Defined.

Lemma refused_form_inputs_answer_400_witness :
  demo_resume_execution 5 (world_after form_start) "id-0" extra_request
  = (world_after form_start, HTTPException 400 "Required field 'name' is missing").
Proof.
  apply (refused_form_inputs_answer_400 demo_uuid4 demo_token demo_provider
           demo_validate demo_asteval 5 (world_after form_start) form_run
           "c"%char "ollect" (workflow_of "wf-form" form_step) form_step
           [name_field] extra_request extra_only
           (ValueError "Required field 'name' is missing"));
    try reflexivity; try (vm_compute; reflexivity).
  intros H. apply (f_equal (λ m, m !! "extra")) in H.
  vm_compute in H. discriminate H.
Defined.

Lemma resume_execution_answers_witness :
  get_run
    (db (world_after_http
           (demo_resume_execution 5 (world_after form_start) "id-0" name_request)))
    "id-0"
  = answered (demo_resume_execution 5 (world_after form_start) "id-0" name_request).
Proof.
  apply (proj1 (resume_execution_answers demo_uuid4 demo_token demo_provider
                  demo_validate demo_asteval 5 (world_after form_start) _ "id-0"
                  name_request _ (surjective_pairing _))
           (default check_run
              (answered (demo_resume_execution 5 (world_after form_start) "id-0"
                           name_request)))).
  vm_compute. reflexivity.
Defined.

Lemma create_workflow_accepted_witness :
  get_workflow (db (world_after_http form_created)) "id-0"
  = Some {| wf_id := "id-0"; wf_version := 1; wf_name := "Intake";
            wf_start_step := "collect"; wf_steps := [form_step] |}
  ∧ closed_steps [form_step].
Proof.
  destruct (create_workflow_accepted demo_uuid4 demo_world
              (world_after_http form_created) "Intake" "collect" [form_step]
              {| wf_id := "id-0"; wf_version := 1; wf_name := "Intake";
                 wf_start_step := "collect"; wf_steps := [form_step] |}
              ltac:(vm_compute; reflexivity))
    as (_ & _ & Hclosed & _ & Hget & _).
  split; [exact Hget|exact Hclosed].
Defined.

Lemma accepted_workflow_never_dangles_witness :
  ∃ sid,
    failure_recorded
      (db (demo_advance 1 (build_step_map [conditional_step]) check_world
             check_run).1)
      "id-0" sid undefined_error.
Proof.
  apply (accepted_workflow_never_dangles demo_uuid4 demo_token demo_provider
           demo_validate demo_asteval demo_world (world_after_http check_created)
           "Check" "check" [conditional_step] [conditional_step]
           {| wf_id := "id-0"; wf_version := 1; wf_name := "Check";
              wf_start_step := "check"; wf_steps := [conditional_step] |}
           1 check_world _ check_run check_run "check" undefined_error).
  - vm_compute. reflexivity.
  - reflexivity.
  - reflexivity.
  - left. reflexivity.
  - reflexivity.
  - vm_compute. reflexivity.
Defined.

Lemma start_execution_answers_only_failed_runs_witness :
  let r := default check_run (answered exists_started) in
  answered exists_started = Some r
  ∧ run_status r = "failed"
  ∧ get_run (db (world_after_http exists_started)) (run_id r) = Some r.
Proof.
  intros r. split; [vm_compute; reflexivity|].
  destruct (start_execution_answers_only_failed_runs demo_uuid4 demo_token
              demo_provider demo_validate demo_asteval demo_key 5 exists_world
              (world_after_http exists_started) exists_request r
              ltac:(intros ? ?; discriminate)
              ltac:(vm_compute; reflexivity))
    as (Hst & _ & Hget & _).
  split; [exact Hst|exact Hget].
Defined.

Lemma update_workflow_accepted_witness :
  ∃ existing,
    get_workflow (db demo_world) "wf-form" = Some existing
    ∧ wf_version (default existing (answered form_renamed))
      = (wf_version existing + 1)%Z
    ∧ get_workflow (db (world_after_http form_renamed)) "wf-form"
      = answered form_renamed.
Proof.
  destruct (update_workflow_accepted demo_world (world_after_http form_renamed)
              "wf-form" rename_update
              {| wf_id := "wf-form"; wf_version := 2; wf_name := "Renamed";
                 wf_start_step := "collect"; wf_steps := [form_step] |}
              ltac:(vm_compute; reflexivity))
    as (existing & Hget & _ & Hversion & Hstored & _).
  exists existing. split; [exact Hget|]. split; [exact Hversion|exact Hstored].
Defined.

Lemma update_workflow_orphans_start_step_witness :
  ∃ w1 updated w2,
    Workflows.update_workflow demo_world "wf-form" replace_update
    = (w1, Response updated)
    ∧ wf_steps updated = [approval_step]
    ∧ wf_start_step updated = "collect"
    ∧ demo_start_run 1 w1 "wf-form" ∅ None
      = (w2, Raised (ValueError "Step collect not found in workflow")).
Proof.
  destruct (update_workflow_orphans_start_step demo_uuid4 demo_token
              demo_provider demo_validate demo_asteval 0 demo_world "wf-form"
              (workflow_of "wf-form" form_step) replace_update [approval_step]
              "c"%char "ollect" ∅)
    as (w1 & updated & w2 & Hupd & Hsteps & Hstart & Hrun & _).
  - vm_compute. reflexivity.
  - reflexivity.
  - intros s. discriminate.
  - intros s c n Hs Hnext. apply list_elem_of_singleton in Hs. subst s.
    discriminate Hnext.
  - reflexivity.
  - rewrite fmap_cons, fmap_nil. intros H. apply list_elem_of_singleton in H.
    discriminate H.
  - constructor.
  - exists w1, updated, w2.
    split; [exact Hupd|]. split; [exact Hsteps|]. split; [exact Hstart|exact Hrun].
Defined.

Lemma delete_workflow_removes_settled_runs_witness :
  get_workflow
    (db (world_after_http (Workflows.delete_workflow (world_after_http form_canceled)
                             "wf-form"))) "wf-form" = None
  ∧ ∀ r, r ∈ runs (db (world_after_http form_canceled)) →
         run_workflow_id r = "wf-form" →
         run_status r ∉ (["queued"; "running"; "waiting"] : list string).
Proof.
  destruct (delete_workflow_removes_settled_runs (world_after_http form_canceled)
              (world_after_http (Workflows.delete_workflow
                                   (world_after_http form_canceled) "wf-form"))
              "wf-form" ltac:(vm_compute; reflexivity))
    as (Hgone & _ & Hsettled & _).
  split; [exact Hgone|exact Hsettled].
Defined.
